(** * Session digest: the log parser, the noise filter, the selector and the renderer

    A shallow embedding of [scripts/session_digest.py] and the properties of
    its session-to-digest pipeline.  Python values are modelled as follows.

    - A [str] is the list of its Unicode code points ([pystr]); [len], slicing,
      [strip], [in], [startswith] and the regular expressions all work per
      code point, as they do in Python.
    - A value decoded by [json.loads] is a [json] tree; a dict is an
      association list looked up from the front.
    - A raised exception is the [Raise] outcome of the [result] monad.
    - A [datetime] is its wall-clock reading in microseconds since
      0001-01-01T00:00:00 together with its optional UTC offset.

    The line readers of [scripts/memory_consolidator.py] and
    [scripts/forgetting_curve.py], the second of which reads the digests
    back, are embedded after the pipeline. *)

From Stdlib Require Import String Ascii DecimalString ZArith NArith QArith Bool Arith Lia List.
Import ListNotations.
Close Scope Q_scope.

Set Implicit Arguments.

(** ** Python strings *)

Module Str.

(** A character is a Unicode code point. *)
Definition char := N.
Definition pystr := list char.

(** A literal whose characters are all ASCII. *)
Definition lit (s : string) : pystr :=
  map N_of_ascii (list_ascii_of_string s).

Definition char_eqb (a b : char) : bool := N.eqb a b.

Fixpoint str_eqb (s t : pystr) : bool :=
  match s, t with
  | [], [] => true
  | a :: s', b :: t' => char_eqb a b && str_eqb s' t'
  | _, _ => false
  end.

(** [str.isspace] on one character, also the class [\s] of [re] on a [str]
    pattern: the ASCII blanks and separators and the Unicode spaces. *)
Definition isspace (c : char) : bool :=
  ((9 <=? c) && (c <=? 13) || (28 <=? c) && (c <=? 32)
   || (c =? 133) || (c =? 160) || (c =? 5760)
   || (8192 <=? c) && (c <=? 8202)
   || (c =? 8232) || (c =? 8233) || (c =? 8239) || (c =? 8287)
   || (c =? 12288))%N.

Fixpoint lstrip (s : pystr) : pystr :=
  match s with
  | c :: s' => if isspace c then lstrip s' else s
  | [] => []
  end.

Definition rstrip (s : pystr) : pystr := rev (lstrip (rev s)).

(** [s.strip()] *)
Definition strip (s : pystr) : pystr := rstrip (lstrip s).

(** [s.startswith(p)] *)
Fixpoint startswith (p s : pystr) : bool :=
  match p, s with
  | [], _ => true
  | a :: p', b :: s' => char_eqb a b && startswith p' s'
  | _ :: _, [] => false
  end.

(** [needle in hay] *)
Fixpoint contains (needle hay : pystr) : bool :=
  startswith needle hay
  || match hay with
     | [] => false
     | _ :: hay' => contains needle hay'
     end.

(** [s.replace(old, new)] for a one-character [old]. *)
Definition replace_char (old : char) (new : pystr) (s : pystr) : pystr :=
  flat_map (fun c => if char_eqb c old then new else [c]) s.

(** [sep.join(parts)] *)
Fixpoint join (sep : pystr) (parts : list pystr) : pystr :=
  match parts with
  | [] => []
  | [p] => p
  | p :: rest => p ++ sep ++ join sep rest
  end.

(** Lexicographic [<=] on code points, the order of [sorted] on strings. *)
Fixpoint str_leb (s t : pystr) : bool :=
  match s, t with
  | [], _ => true
  | _ :: _, [] => false
  | a :: s', b :: t' => (a <? b)%N || (a =? b)%N && str_leb s' t'
  end.

(** Decimal digits of a natural number, as [str(n)] prints an [int]. *)
Definition str_of_nat (n : nat) : pystr :=
  lit (NilEmpty.string_of_uint (Nat.to_uint n)).

(** A number below 100 on two digits, as [%H] and [%M] print. *)
Definition two_digits (z : Z) : pystr :=
  [(48 + Z.to_N (z / 10))%N; (48 + Z.to_N (z mod 10))%N].

End Str.
Import Str.

(** ** Regular expressions

    The fragment of [re] the program uses: a pattern is a sequence of
    one-character classes, each taken once or repeated greedily or lazily,
    with one capturing group.  The matcher backtracks in the order Python's
    does: a greedy repetition tries its longest run first, a lazy one its
    shortest. *)

Module Re.

Inductive quant := Once | PlusGreedy | PlusLazy | StarGreedy.

Inductive item :=
| Cls (cls : char -> bool) (q : quant)
| GroupOpen
| GroupClose.

Definition pattern := list item.

(** The captures of a match in progress: where group 1 opened, and its text
    once it has closed. *)
Record caps := { opened : pystr; group1 : pystr }.

Section Repeat.
Variable R : Type.
Variable cls : char -> bool.
Variable k : pystr -> option R.

Definition once (s : pystr) : option R :=
  match s with
  | c :: s' => if cls c then k s' else None
  | [] => None
  end.

Fixpoint plus_greedy (s : pystr) : option R :=
  match s with
  | c :: s' =>
      if cls c then
        match plus_greedy s' with
        | Some r => Some r
        | None => k s'
        end
      else None
  | [] => None
  end.

Fixpoint plus_lazy (s : pystr) : option R :=
  match s with
  | c :: s' =>
      if cls c then
        match k s' with
        | Some r => Some r
        | None => plus_lazy s'
        end
      else None
  | [] => None
  end.

Definition star_greedy (s : pystr) : option R :=
  match plus_greedy s with
  | Some r => Some r
  | None => k s
  end.

End Repeat.

(** [match_here p c s]: the pattern matched at the start of [s]; the result
    is what is left of [s] after the match, with the captures. *)
Fixpoint match_here (p : pattern) (c : caps) (s : pystr) : option (pystr * caps) :=
  match p with
  | [] => Some (s, c)
  | Cls cls Once :: p' => once cls (match_here p' c) s
  | Cls cls PlusGreedy :: p' => plus_greedy cls (match_here p' c) s
  | Cls cls PlusLazy :: p' => plus_lazy cls (match_here p' c) s
  | Cls cls StarGreedy :: p' => star_greedy cls (match_here p' c) s
  | GroupOpen :: p' => match_here p' {| opened := s; group1 := group1 c |} s
  | GroupClose :: p' =>
      match_here p'
        {| opened := opened c;
           group1 := firstn (length (opened c) - length s) (opened c) |} s
  end.

Definition no_caps : caps := {| opened := []; group1 := [] |}.

(** [re.search(p, s)]: the leftmost match; [None] when there is none.  The
    result is the match's [group(1)]. *)
Fixpoint search (p : pattern) (s : pystr) : option pystr :=
  match match_here p no_caps s with
  | Some (_, c) => Some (group1 c)
  | None =>
      match s with
      | [] => None
      | _ :: s' => search p s'
      end
  end.

(** [re.sub(p, "", s)] for a pattern that matches no empty string: every
    leftmost non-overlapping match is cut out.  [skip] counts the characters
    of the current match still to drop. *)
Fixpoint sub_empty (p : pattern) (skip : nat) (s : pystr) : pystr :=
  match s with
  | [] => []
  | c :: s' =>
      match skip with
      | S n => sub_empty p n s'
      | O =>
          match match_here p no_caps s with
          | Some (rest, _) =>
              match length s - length rest with
              | S n => sub_empty p n s'
              | O => c :: sub_empty p 0 s'
              end
          | None => c :: sub_empty p 0 s'
          end
      end
  end.

Definition chr (c : char) : item := Cls (char_eqb c) Once.

(** The items of a literal piece of a pattern. *)
Definition literal (s : string) : pattern := map chr (lit s).

(** [\S], [\s] and [.] (any character but a newline). *)
Definition non_space (c : char) : bool := negb (isspace c).
Definition space (c : char) : bool := isspace c.
Definition dot (c : char) : bool := negb (char_eqb c 10%N).

End Re.

(** The two patterns of the program. *)

(** [r"\[cron:\S+\s+(.+?)\]"] *)
Definition CRON_SEARCH : Re.pattern :=
  Re.literal "[cron:"
  ++ [Re.Cls Re.non_space Re.PlusGreedy; Re.Cls Re.space Re.PlusGreedy;
      Re.GroupOpen; Re.Cls Re.dot Re.PlusLazy; Re.GroupClose]
  ++ Re.literal "]".

(** [r"\[cron:\S+\s+.+?\]\s*"] *)
Definition CRON_STRIP : Re.pattern :=
  Re.literal "[cron:"
  ++ [Re.Cls Re.non_space Re.PlusGreedy; Re.Cls Re.space Re.PlusGreedy;
      Re.Cls Re.dot Re.PlusLazy]
  ++ Re.literal "]"
  ++ [Re.Cls Re.space Re.StarGreedy].

(** ** Exceptions *)

Inductive exn :=
  AttributeError | TypeError | ValueError | OverflowError | RecursionError.

(** The outcome of a piece of Python code: it returns a value or raises. *)
Inductive result (A : Type) : Type :=
| Ok (a : A)
| Raise (e : exn).

Arguments Ok {A} a.
Arguments Raise {A} e.

Definition bind {A B : Type} (r : result A) (k : A -> result B) : result B :=
  match r with
  | Ok a => k a
  | Raise e => Raise e
  end.

Notation "x <- e ;; k" := (bind e (fun x => k))
  (at level 61, e at next level, right associativity).

(** ** Decoded JSON values *)

(** A Python [float]: a finite one by its exact value. *)
Inductive pyfloat :=
| FNan
| FInf (negative : bool)
| FFinite (q : Q).

#[warnings="-register-all"]
Inductive json :=
| JNull
| JBool (b : bool)
| JInt (z : Z)
| JFloat (f : pyfloat)
| JStr (s : pystr)
| JList (l : list json)
| JDict (d : list (pystr * json)).

(** Truth value of a decoded value, as [if v:] tests it. *)
Definition truthy (v : json) : bool :=
  match v with
  | JNull => false
  | JBool b => b
  | JInt z => negb (z =? 0)%Z
  | JFloat FNan => true
  | JFloat (FInf _) => true
  | JFloat (FFinite q) => negb (Qeq_bool q 0)
  | JStr s => negb (str_eqb s [])
  | JList l => match l with [] => false | _ => true end
  | JDict d => match d with [] => false | _ => true end
  end.

Fixpoint lookup (key : pystr) (d : list (pystr * json)) : option json :=
  match d with
  | [] => None
  | (k, v) :: d' => if str_eqb k key then Some v else lookup key d'
  end.

(** [d.get(key, default)] on a dict. *)
Definition dict_get (d : list (pystr * json)) (key : pystr) (default : json) : json :=
  match lookup key d with
  | Some v => v
  | None => default
  end.

(** [v.get(key, default)] on any decoded value: only a dict has the method. *)
Definition get (v : json) (key : string) (default : json) : result json :=
  match v with
  | JDict d => Ok (dict_get d (lit key) default)
  | _ => Raise AttributeError
  end.

(** The number a [bool], [int] or [float] stands for in a comparison. *)
Definition number (v : json) : option pyfloat :=
  match v with
  | JBool b => Some (FFinite (if b then 1 else 0)%Q)
  | JInt z => Some (FFinite (inject_Z z))
  | JFloat f => Some f
  | _ => None
  end.

(** Numbers compare by value; the decoder hands out one [NaN] object, which
    the membership test finds by identity. *)
Definition float_eq (a b : pyfloat) : bool :=
  match a, b with
  | FNan, FNan => true
  | FInf x, FInf y => Bool.eqb x y
  | FFinite p, FFinite q => Qeq_bool p q
  | _, _ => false
  end.

(** Equality of decoded values, as [==] against a string literal and the
    membership test [in] of a list decide it. *)
Fixpoint py_eq (a b : json) : bool :=
  match a, b with
  | JNull, JNull => true
  | JStr s, JStr t => str_eqb s t
  | JList l, JList m =>
      (fix all2 (l : list json) (m : list json) : bool :=
         match l, m with
         | [], [] => true
         | x :: l', y :: m' => py_eq x y && all2 l' m'
         | _, _ => false
         end) l m
  | JDict d, JDict e =>
      (length d =? length e)
      && (fix all (d : list (pystr * json)) : bool :=
            match d with
            | [] => true
            | (k, v) :: d' =>
                match lookup k e with
                | Some w => py_eq v w && all d'
                | None => false
                end
            end) d
  | _, _ =>
      match number a, number b with
      | Some x, Some y => float_eq x y
      | _, _ => false
      end
  end.

(** [v == "literal"] *)
Definition is_str (v : json) (s : string) : bool := py_eq v (JStr (lit s)).

(** ** Dates and times *)

Module Time.

Local Open Scope Z_scope.

Definition US_PER_SECOND : Z := 1000000.
Definition US_PER_MINUTE : Z := 60 * US_PER_SECOND.
Definition US_PER_HOUR : Z := 60 * US_PER_MINUTE.
Definition US_PER_DAY : Z := 24 * US_PER_HOUR.

(** A [timezone] with a fixed offset, by its [utcoffset] in microseconds. *)
Definition tz := Z.

(** [timezone(timedelta(hours=h))] and [timezone.utc] *)
Definition timezone_hours (h : Z) : tz := h * US_PER_HOUR.
Definition utc : tz := 0.

(** A [datetime]: the reading of its own clock, in microseconds since
    0001-01-01T00:00:00, and its [tzinfo] ([None] for a naive one). *)
Record datetime := { wall : Z; tzinfo : option tz }.

(** A [date], by the number of days since 0001-01-01. *)
Definition date := Z.

(** The last day is 9999-12-31. *)
Definition MAX_DAYS : Z := 3652059.

Definition in_range (w : Z) : bool := (0 <=? w) && (w <? MAX_DAYS * US_PER_DAY).

(** [d + timedelta(microseconds=delta)], which raises when the year leaves
    1..9999. *)
Definition shift (d : datetime) (delta : Z) : result datetime :=
  if in_range (wall d + delta)
  then Ok {| wall := wall d + delta; tzinfo := tzinfo d |}
  else Raise OverflowError.

(** [d.date()] *)
Definition date_of (d : datetime) : date := wall d / US_PER_DAY.

(** [d.strftime("%H:%M")] *)
Definition strftime_HM (d : datetime) : pystr :=
  two_digits ((wall d / US_PER_HOUR) mod 24)
  ++ lit ":" ++ two_digits ((wall d / US_PER_MINUTE) mod 60).

(** Days before January 1st of year [y], and before the first of month [m]. *)
Definition days_before_year (y : Z) : Z :=
  let p := y - 1 in p * 365 + p / 4 - p / 100 + p / 400.

Definition is_leap (y : Z) : bool :=
  (y mod 4 =? 0) && (negb (y mod 100 =? 0) || (y mod 400 =? 0)).

Definition days_in_month (y m : Z) : Z :=
  if m =? 2 then (if is_leap y then 29 else 28)
  else if (m =? 4) || (m =? 6) || (m =? 9) || (m =? 11) then 30
  else 31.

Definition days_before_month (y m : Z) : Z :=
  fold_left (fun acc k => acc + days_in_month y (Z.of_nat k))
    (seq 1 (Z.to_nat (m - 1))) 0.

(** [date(y, m, d)] *)
Definition ymd (y m d : Z) : date :=
  days_before_year y + days_before_month y m + (d - 1).

(** [datetime(y, m, d, hh, mm, ss, tzinfo=z)] *)
Definition mk_datetime (y m d hh mm ss : Z) (z : option tz) : datetime :=
  {| wall := ymd y m d * US_PER_DAY + hh * US_PER_HOUR + mm * US_PER_MINUTE
             + ss * US_PER_SECOND;
     tzinfo := z |}.

(** [a < b] on two datetimes: both aware (instants compare) or both naive
    (readings compare); a mixed pair raises. *)
Definition dt_ltb (a b : datetime) : result bool :=
  match tzinfo a, tzinfo b with
  | Some oa, Some ob => Ok (wall a - oa <? wall b - ob)
  | None, None => Ok (wall a <? wall b)
  | _, _ => Raise TypeError
  end.

End Time.
Import Time.

(** ** The session record *)

(** One entry of [session["messages"]]. *)
Record Message := {
  role : json;
  text : pystr;
  timestamp : json
}.

(** The dict [parse_session] builds. *)
Record Session := {
  id : json;
  start_time : option datetime;
  end_time : option datetime;
  model : json;
  messages : list Message;
  tools_used : list json;
  is_cron : bool;
  cron_name : pystr
}.

(** The dict of lines 47-51. *)
Definition new_session : Session :=
  {| id := JStr []; start_time := None; end_time := None;
     model := JStr []; messages := []; tools_used := [];
     is_cron := false; cron_name := [] |}.

Definition set_id (v : json) (s : Session) : Session :=
  {| id := v; start_time := start_time s; end_time := end_time s;
     model := model s; messages := messages s; tools_used := tools_used s;
     is_cron := is_cron s; cron_name := cron_name s |}.

Definition set_times (a b : option datetime) (s : Session) : Session :=
  {| id := id s; start_time := a; end_time := b;
     model := model s; messages := messages s; tools_used := tools_used s;
     is_cron := is_cron s; cron_name := cron_name s |}.

Definition set_model (v : json) (s : Session) : Session :=
  {| id := id s; start_time := start_time s; end_time := end_time s;
     model := v; messages := messages s; tools_used := tools_used s;
     is_cron := is_cron s; cron_name := cron_name s |}.

Definition append_message (m : Message) (s : Session) : Session :=
  {| id := id s; start_time := start_time s; end_time := end_time s;
     model := model s; messages := messages s ++ [m];
     tools_used := tools_used s;
     is_cron := is_cron s; cron_name := cron_name s |}.

Definition append_tool (v : json) (s : Session) : Session :=
  {| id := id s; start_time := start_time s; end_time := end_time s;
     model := model s; messages := messages s;
     tools_used := tools_used s ++ [v];
     is_cron := is_cron s; cron_name := cron_name s |}.

Definition set_cron (b : bool) (name : pystr) (s : Session) : Session :=
  {| id := id s; start_time := start_time s; end_time := end_time s;
     model := model s; messages := messages s; tools_used := tools_used s;
     is_cron := b; cron_name := name |}.

(** ** The event-log parser *)

(** A line of the log file, by what lines 55-61 make of it: blank once
    stripped; refused by [json.loads] with [JSONDecodeError]; one on which
    [json.loads] raises another exception, which line 60 does not catch
    ([RecursionError] on a line nested too deep, [ValueError] on an integer
    literal over the digit limit); or decoded. *)
Inductive line :=
| Blank
| Malformed
| Failed (e : exn)
| Decoded (obj : json).

(** The items of [" ".join(...)]: each must be a [str]. *)
Fixpoint str_items (vs : list json) : result (list pystr) :=
  match vs with
  | [] => Ok []
  | JStr s :: rest => ss <- str_items rest ;; Ok (s :: ss)
  | _ :: _ => Raise TypeError
  end.

(** What a fragment [c] of a content list contributes: its ["text"] when it
    is a dict with [c.get("type") == "text"]. *)
Definition fragment (c : json) : list json :=
  match c with
  | JDict d =>
      if is_str (dict_get d (lit "type") JNull) "text"
      then [dict_get d (lit "text") (JStr [])]
      else []
  | _ => []
  end.

(** Lines 100-107. *)
Definition _extract_text (content : json) : result pystr :=
  match content with
  | JStr s => Ok (strip s)
  | JList l =>
      parts <- str_items (flat_map fragment l) ;;
      Ok (strip (join (lit " ") parts))
  | _ => Ok []
  end.

(** [v.replace("Z", "+00:00")]: only a [str] has the method. *)
Definition replace_Z (v : json) : result pystr :=
  match v with
  | JStr s => Ok (replace_char 90%N (lit "+00:00") s)
  | _ => Raise AttributeError
  end.

Section Parser.

(** [datetime.fromisoformat]: [None] stands for its [ValueError]. *)
Variable fromisoformat : pystr -> option datetime.

(** Lines 66-73: the timestamp bookkeeping of one record. *)
Definition update_times (session : Session) (ts_field : json) : result Session :=
  if truthy ts_field then
    iso <- replace_Z ts_field ;;
    match fromisoformat iso with
    | Some ts =>
        Ok (set_times
              (match start_time session with
               | None => Some ts
               | Some t0 => Some t0
               end)
              (Some ts) session)
    | None => Ok session
    end
  else Ok session.

(** Lines 84-88: the cron marker of a message text. *)
Definition mark_cron (session : Session) (r : json) (txt : pystr) : Session :=
  if is_str r "user" && contains (lit "[cron:") txt then
    match Re.search CRON_SEARCH txt with
    | Some name => set_cron true name session
    | None => set_cron true (cron_name session) session
    end
  else session.

(** Lines 79-91: a record of type ["message"]. *)
Definition on_message (session : Session) (obj ts_field : json) : result Session :=
  msg <- get obj "message" (JDict []) ;;
  r <- get msg "role" (JStr []) ;;
  content <- get msg "content" (JStr []) ;;
  txt <- _extract_text content ;;
  if negb (str_eqb txt []) then
    Ok (append_message {| role := r; text := txt; timestamp := ts_field |}
          (mark_cron session r txt))
  else Ok session.

(** Lines 92-95: a record of type ["tool_use"]. *)
Definition on_tool_use (session : Session) (obj : json) : result Session :=
  name <- get obj "name" (JStr []) ;;
  if truthy name && negb (existsb (py_eq name) (tools_used session))
  then Ok (append_tool name session)
  else Ok session.

(** Lines 63-95: one decoded record. *)
Definition parse_record (session : Session) (obj : json) : result Session :=
  obj_type <- get obj "type" (JStr []) ;;
  ts_field <- get obj "timestamp" (JStr []) ;;
  session <- update_times session ts_field ;;
  if is_str obj_type "session" then
    v <- get obj "id" (JStr []) ;; Ok (set_id v session)
  else if is_str obj_type "model_change" then
    v <- get obj "modelId" (JStr []) ;; Ok (set_model v session)
  else if is_str obj_type "message" then
    on_message session obj ts_field
  else if is_str obj_type "tool_use" then
    on_tool_use session obj
  else Ok session.

(** The body of the loop of line 54. *)
Definition parse_line (session : Session) (l : line) : result Session :=
  match l with
  | Blank => Ok session
  | Malformed => Ok session
  | Failed e => Raise e
  | Decoded obj => parse_record session obj
  end.

Fixpoint parse_lines (session : Session) (lines : list line) : result Session :=
  match lines with
  | [] => Ok session
  | l :: rest => s' <- parse_line session l ;; parse_lines s' rest
  end.

(** Lines 45-97. *)
Definition parse_session (lines : list line) : result Session :=
  parse_lines new_session lines.

End Parser.

(** ** The digest renderer *)

(** The non-ASCII characters of the program's literals. *)
Definition ELLIPSIS : char := 8230%N.
Definition ROBOT : char := 129302%N.
Definition SPEECH : char := 128172%N.
Definition BUST : char := 128100%N.
Definition MAILBOX : char := 128237%N.
Definition CHART : char := 128202%N.
Definition MEMO : char := 128221%N.
Definition CHECK_MARK : char := 9989%N.
Definition ARROW : char := 8594%N.

(** Lines 124-127: the text of a message as the transcript shows it. *)
Definition render_text (txt : pystr) : pystr :=
  let txt := if 500 <? length txt then firstn 500 txt ++ [ELLIPSIS] else txt in
  Re.sub_empty CRON_STRIP 0 txt.

(** Lines 123-133: the lines one message adds to the block. *)
Definition message_lines (m : Message) : list pystr :=
  let txt := render_text (text m) in
  (if is_str (role m) "user" then
     [lit "**" ++ [BUST] ++ lit " User**: " ++ txt]
   else if is_str (role m) "assistant" && negb (str_eqb txt [])
           && negb (startswith (lit "<") txt) then
     [lit "**" ++ [ROBOT] ++ lit " Assistant**: " ++ txt]
   else [])
  ++ [[]].

Section Pipeline.

(** The zone of the configuration file, [LOCAL_TZ]. *)
Variable LOCAL_TZ : tz.

(** The [utcoffset] the host gives a naive reading ([astimezone] asks it for
    a datetime without [tzinfo]); it may raise. *)
Variable local_utcoffset : Z -> result Z.

(** [str(v)] of a decoded value that is not a [str]. *)
Variable py_str : json -> pystr.

(** [s.lower()] *)
Variable lower : pystr -> pystr.

(** [datetime.fromisoformat]: [None] stands for its [ValueError]. *)
Variable fromisoformat : pystr -> option datetime.

(** [datetime.strptime(s, "%Y-%m-%d").date()]: [None] stands for its
    [ValueError]. *)
Variable strptime : pystr -> option date.

(** [str(DIGEST_DIR)] *)
Variable DIGEST_DIR : pystr.

(** [d.astimezone(z)] *)
Definition astimezone (z : tz) (d : datetime) : result datetime :=
  off <- match tzinfo d with
         | Some o => Ok o
         | None => local_utcoffset (wall d)
         end ;;
  u <- shift d (- off) ;;
  r <- shift u z ;;
  Ok {| wall := wall r; tzinfo := Some z |}.

(** A value inside an f-string. *)
Definition format_value (v : json) : pystr :=
  match v with
  | JStr s => s
  | _ => py_str v
  end.

(** Lines 110-135, as the list of lines before the final join. *)
Definition digest_lines (session : Session) : result (list pystr) :=
  time_str <- match start_time session with
              | Some start =>
                  d <- astimezone LOCAL_TZ start ;; Ok (strftime_HM d)
              | None => Ok (lit "??:??")
              end ;;
  let kind := if is_cron session then [ROBOT] ++ lit " Cron"
              else [SPEECH] ++ lit " Chat" in
  let title := if is_cron session then cron_name session else lit "Session" in
  let header :=
    [lit "### " ++ time_str ++ lit " " ++ kind ++ lit ": " ++ title;
     lit "- **Model**: " ++ format_value (model session)] in
  tools <- match tools_used session with
           | [] => Ok []
           | _ :: _ =>
               names <- str_items (firstn 10 (tools_used session)) ;;
               Ok [lit "- **Tools**: " ++ join (lit ", ") names]
           end ;;
  Ok (header ++ tools ++ [[]] ++ flat_map message_lines (messages session)).

(** Lines 110-135. *)
Definition generate_digest (session : Session) : result pystr :=
  lines <- digest_lines session ;;
  Ok (join (lit (String "010"%char EmptyString)) lines).

(** ** The noise classifier *)

Definition SENTINELS : list pystr := [lit "HEARTBEAT_OK"; lit "NO_REPLY"; []].

(** Line 158. *)
Definition is_hb (s : Session) : bool :=
  is_cron s && contains (lit "heartbeat") (lower (cron_name s)).

(** Lines 159-164. *)
Definition has_substance (s : Session) : bool :=
  existsb
    (fun m =>
       is_str (role m) "assistant" && negb (str_eqb (text m) [])
       && negb (existsb (str_eqb (text m)) SENTINELS)
       && negb (startswith (lit "<") (text m)))
    (messages s).

(** Lines 154-166: whether the selector keeps a session of the right date. *)
Definition keeps (s : Session) : bool :=
  if length (messages s) <? 2 then false
  else if is_hb s && negb (has_substance s) then false
  else true.

(** ** The session selector *)

(** A file of [SESSIONS_DIR.glob("*.jsonl")]: [mtime] is the reading of
    [datetime.fromtimestamp(f.stat().st_mtime, tz=timezone.utc)]. *)
Record session_file := { mtime : Z; content : list line }.

(** Lines 145-146: the modification-time test; [true] skips the file. *)
Definition outside_window (target_start_utc target_end_utc : datetime)
    (f : session_file) : result bool :=
  let mt := {| wall := mtime f; tzinfo := Some utc |} in
  lo <- shift target_start_utc (- US_PER_DAY) ;;
  early <- dt_ltb mt lo ;;
  if early : bool then Ok true
  else hi <- shift target_end_utc US_PER_DAY ;; dt_ltb hi mt.

(** Lines 145-168: the body of the loop over the files; [Some s] when the
    session is appended to [sessions]. *)
Definition select_file (target target_start_utc target_end_utc : datetime)
    (f : session_file) : result (option Session) :=
  outside <- outside_window target_start_utc target_end_utc f ;;
  if outside : bool then Ok None
  else
    s <- parse_session fromisoformat (content f) ;;
    match start_time s with
    | None => Ok None
    | Some start =>
        loc <- astimezone LOCAL_TZ start ;;
        if negb (date_of loc =? date_of target)%Z then Ok None
        else if keeps s then Ok (Some s)
        else Ok None
    end.

(** Lines 143-168. *)
Fixpoint select (target target_start_utc target_end_utc : datetime)
    (files : list session_file) : result (list Session) :=
  match files with
  | [] => Ok []
  | f :: rest =>
      r <- select_file target target_start_utc target_end_utc f ;;
      rs <- select target target_start_utc target_end_utc rest ;;
      Ok (match r with Some s => s :: rs | None => rs end)
  end.

(** The key of line 170: [start_time], or the first instant of the calendar
    for a session without one. *)
Definition sort_key (s : Session) : datetime :=
  match start_time s with
  | Some t => t
  | None => {| wall := 0; tzinfo := Some utc |}
  end.

(** Line 170: a stable sort on the key; comparing a naive with an aware
    datetime raises. *)
Fixpoint insert_session (s : Session) (sorted : list Session)
    : result (list Session) :=
  match sorted with
  | [] => Ok [s]
  | y :: rest =>
      before <- dt_ltb (sort_key y) (sort_key s) ;;
      if before : bool then
        rest' <- insert_session s rest ;; Ok (y :: rest')
      else Ok (s :: y :: rest)
  end.

Fixpoint sort_sessions (l : list Session) : result (list Session) :=
  match l with
  | [] => Ok []
  | s :: rest => sorted <- sort_sessions rest ;; insert_session s sorted
  end.

(** ** The digest file writer *)

(** [sorted(set(names))] on strings. *)
Fixpoint insert_name (n : pystr) (sorted : list pystr) : list pystr :=
  match sorted with
  | [] => [n]
  | m :: rest =>
      if str_eqb n m then sorted
      else if str_leb n m then n :: sorted
      else m :: insert_name n rest
  end.

Definition sorted_set (names : list pystr) : list pystr :=
  fold_right insert_name [] names.

(** Lines 182-184 and 193-194: the tools line of the statistics; a tool name
    that is not a [str] makes the set, the sort or the join raise. *)
Definition tools_line (sessions : list Session) : result (list pystr) :=
  match flat_map tools_used sessions with
  | [] => Ok []
  | all_tools =>
      names <- str_items all_tools ;;
      Ok [lit "- Tools: " ++ join (lit ", ") (sorted_set names)]
  end.

Fixpoint digests (sessions : list Session) : result (list pystr) :=
  match sessions with
  | [] => Ok []
  | s :: rest =>
      d <- generate_digest s ;;
      ds <- digests rest ;;
      Ok ([d; lit "---"; []] ++ ds)
  end.

Definition NEWLINE : pystr := [10%N].

(** Lines 179-201: the text of the digest file. *)
Definition document (target_date : pystr) (sessions : list Session) : result pystr :=
  let total_msgs := list_sum (map (fun s => length (messages s)) sessions) in
  let cron_count := length (filter is_cron sessions) in
  let chat_count := length sessions - cron_count in
  tools <- tools_line sessions ;;
  blocks <- digests sessions ;;
  Ok (join NEWLINE
        ([lit "# Session Digest: " ++ target_date; [];
          str_of_nat (length sessions) ++ lit " sessions"; [];
          lit "## " ++ [CHART] ++ lit " Stats";
          lit "- Chat: " ++ str_of_nat chat_count ++ lit " | Cron: "
            ++ str_of_nat cron_count;
          lit "- Messages: " ++ str_of_nat total_msgs]
         ++ tools
         ++ [[]; lit "## " ++ [MEMO] ++ lit " Sessions"; []]
         ++ blocks)).

(** What a run can read and change: the session logs, the digest directory
    ([None] while it does not exist; else its files by name) and the standard
    output. *)
Record world := {
  session_files : list session_file;
  digest_dir : option (list (pystr * pystr));
  stdout : list pystr
}.

Definition print (msg : pystr) (w : world) : world :=
  {| session_files := session_files w; digest_dir := digest_dir w;
     stdout := stdout w ++ [msg] |}.

(** [DIGEST_DIR.mkdir(parents=True, exist_ok=True)] *)
Definition mkdir (w : world) : world :=
  {| session_files := session_files w;
     digest_dir := match digest_dir w with
                   | None => Some []
                   | Some files => Some files
                   end;
     stdout := stdout w |}.

Fixpoint put_file (name text : pystr) (files : list (pystr * pystr))
    : list (pystr * pystr) :=
  match files with
  | [] => [(name, text)]
  | (n, t) :: rest =>
      if str_eqb n name then (name, text) :: rest
      else (n, t) :: put_file name text rest
  end.

(** [(DIGEST_DIR / name).write_text(text)] once the directory exists; the
    write is taken to succeed (the text is one UTF-8 can encode). *)
Definition write_text (name text : pystr) (w : world) : world :=
  {| session_files := session_files w;
     digest_dir := match digest_dir w with
                   | None => None
                   | Some files => Some (put_file name text files)
                   end;
     stdout := stdout w |}.

(** Lines 139-170: the sessions of the date, sorted. *)
Definition selected (day : date) (files : list session_file) : result (list Session) :=
  let target := {| wall := day * US_PER_DAY; tzinfo := Some LOCAL_TZ |} in
  target_start_utc <- astimezone utc target ;;
  target_end_utc <-
    astimezone utc
      {| wall := wall target + 23 * US_PER_HOUR + 59 * US_PER_MINUTE
                 + 59 * US_PER_SECOND;
         tzinfo := Some LOCAL_TZ |} ;;
  sessions <- select target target_start_utc target_end_utc files ;;
  sort_sessions sessions.

(** Lines 138-202: the outcome of the call and the world it leaves. *)
Definition process_date (target_date : pystr) (w : world) : result unit * world :=
  match strptime target_date with
  | None => (Raise ValueError, w)
  | Some day =>
      match selected day (session_files w) with
      | Raise e => (Raise e, w)
      | Ok [] =>
          (Ok tt,
           print ([MAILBOX] ++ lit " " ++ target_date
                  ++ lit ": No sessions to digest") w)
      | Ok sessions =>
          let w := mkdir w in
          let name := target_date ++ lit ".md" in
          match document target_date sessions with
          | Raise e => (Raise e, w)
          | Ok text =>
              (Ok tt,
               print ([CHECK_MARK] ++ lit " " ++ target_date ++ lit ": Digested "
                      ++ str_of_nat (length sessions) ++ lit " sessions "
                      ++ [ARROW] ++ lit " " ++ DIGEST_DIR ++ lit "/" ++ name)
                 (write_text name text w))
          end
      end
  end.

End Pipeline.

(** ** The zone of the configuration

    Lines 27-42: the zone read when the module is loaded. *)

(** [_TZ_OFFSETS] *)
Definition _TZ_OFFSETS : list (pystr * Z) :=
  [(lit "Asia/Taipei", 8%Z); (lit "Asia/Tokyo", 9%Z); (lit "Asia/Shanghai", 8%Z);
   (lit "US/Eastern", (-5)%Z); (lit "US/Pacific", (-8)%Z);
   (lit "Europe/London", 0%Z); (lit "Europe/Berlin", 1%Z); (lit "UTC", 0%Z)].

Fixpoint find_offset (name : pystr) (table : list (pystr * Z)) : option Z :=
  match table with
  | [] => None
  | (k, h) :: rest => if str_eqb k name then Some h else find_offset name rest
  end.

(** [_TZ_OFFSETS.get(name, 0)]: a list or a dict cannot be hashed; a value
    that is no string equals no key. *)
Definition tz_offset (name : json) : result Z :=
  match name with
  | JList _ => Raise TypeError
  | JDict _ => Raise TypeError
  | JStr n =>
      Ok (match find_offset n _TZ_OFFSETS with Some h => h | None => 0%Z end)
  | _ => Ok 0%Z
  end.

(** Lines 29-42: [LOCAL_TZ], from the decoded configuration file ([None]
    when the file does not exist). *)
Definition local_tz (config : option json) : result tz :=
  match config with
  | Some _config =>
      _tz_name <- get _config "timezone" (JStr (lit "UTC")) ;;
      _offset <- tz_offset _tz_name ;;
      Ok (timezone_hours _offset)
  | None => Ok utc
  end.

(** ** Reference instances of the library functions

    The theorems hold for every [fromisoformat], [strptime] and [lower]; the
    closed examples run on these, which read the canonical shapes only and
    agree with Python's functions on them. *)

Module Reference.

Local Open Scope Z_scope.

Definition digit (c : char) : option Z :=
  if ((48 <=? c) && (c <=? 57))%N then Some (Z.of_N c - 48) else None.

(** The number a run of ASCII digits spells. *)
Fixpoint digits (acc : Z) (s : pystr) : option Z :=
  match s with
  | [] => Some acc
  | c :: s' =>
      match digit c with
      | Some d => digits (acc * 10 + d) s'
      | None => None
      end
  end.

(** The number spelled by the [n] characters of [s] from index [i]. *)
Definition field (i n : nat) (s : pystr) : option Z :=
  let part := firstn n (skipn i s) in
  if (length part =? n)%nat then digits 0 part else None.

Definition char_at (i : nat) (s : pystr) : char := nth i s 0%N.

Definition valid_date (y m d : Z) : bool :=
  (1 <=? y) && (y <=? 9999) && (1 <=? m) && (m <=? 12)
  && (1 <=? d) && (d <=? days_in_month y m).

(** A date spelled [YYYY-MM-DD]. *)
Definition strptime (s : pystr) : option date :=
  match field 0 4 s, field 5 2 s, field 8 2 s with
  | Some y, Some m, Some d =>
      if (length s =? 10)%nat && char_eqb (char_at 4 s) 45%N && char_eqb (char_at 7 s) 45%N
         && valid_date y m d
      then Some (ymd y m d) else None
  | _, _, _ => None
  end.

(** A timestamp spelled [YYYY-MM-DDTHH:MM:SS+HH:MM] (or with [-HH:MM]). *)
Definition fromisoformat (s : pystr) : option datetime :=
  match field 0 4 s, field 5 2 s, field 8 2 s,
        field 11 2 s, field 14 2 s, field 17 2 s,
        field 20 2 s, field 23 2 s with
  | Some y, Some m, Some d, Some hh, Some mm, Some ss, Some oh, Some om =>
      let sign := char_at 19 s in
      if (length s =? 25)%nat
         && char_eqb (char_at 4 s) 45%N && char_eqb (char_at 7 s) 45%N
         && char_eqb (char_at 10 s) 84%N
         && char_eqb (char_at 13 s) 58%N && char_eqb (char_at 16 s) 58%N
         && (char_eqb sign 43%N || char_eqb sign 45%N)
         && char_eqb (char_at 22 s) 58%N
         && valid_date y m d
         && (hh <? 24) && (mm <? 60) && (ss <? 60) && (oh <? 24) && (om <? 60)
      then
        let off := oh * US_PER_HOUR + om * US_PER_MINUTE in
        Some (mk_datetime y m d hh mm ss
                (Some (if char_eqb sign 45%N then - off else off)))
      else None
  | _, _, _, _, _, _, _, _ => None
  end.

(** Lower case of the ASCII letters. *)
Definition lower (s : pystr) : pystr :=
  map (fun c => if ((65 <=? c) && (c <=? 90))%N then (c + 32)%N else c) s.

(** No host rule for naive readings: they are taken as UTC. *)
Definition local_utcoffset (w : Z) : result Z := Ok 0.

End Reference.

(** ** Texts read back line by line

    [scripts/memory_consolidator.py] and [scripts/forgetting_curve.py] read
    markdown files one line at a time; the digests of the pipeline above are
    among the files the second one reads. *)

(** [Path.read_text] on a file that holds the characters [s] (written on a
    system whose line ending is the line feed): the file is opened with
    universal newlines, so a carriage return, together with the line feed
    that follows it if there is one, is read as one line feed. *)
Fixpoint universal (after_cr : bool) (s : pystr) : pystr :=
  match s with
  | [] => []
  | c :: rest =>
      if char_eqb c 13%N then 10%N :: universal true rest
      else if char_eqb c 10%N && after_cr then universal false rest
      else c :: universal false rest
  end.

Definition read_text (s : pystr) : pystr := universal false s.

(** [s.split("\n")] *)
Fixpoint split_lines (s : pystr) : list pystr :=
  match s with
  | [] => [[]]
  | c :: rest =>
      if char_eqb c 10%N then [] :: split_lines rest
      else match split_lines rest with
           | l :: ls => (c :: l) :: ls
           | [] => [[c]]
           end
  end.

(** [s.lstrip(chars)] *)
Fixpoint lstrip_chars (chars s : pystr) : pystr :=
  match s with
  | c :: s' => if existsb (char_eqb c) chars then lstrip_chars chars s' else s
  | [] => []
  end.

(** [list(dict.fromkeys(l))]: every string once, at its first place. *)
Definition fromkeys (l : list pystr) : list pystr :=
  fold_left
    (fun seen x => if existsb (str_eqb x) seen then seen else seen ++ [x]) l [].

(** [a or b] *)
Definition py_or (a b : json) : json := if truthy a then a else b.

(** ** The memory consolidator ([scripts/memory_consolidator.py]) *)

Module Consolidator.

(** An entry of a daily memory file. *)
Record entry := { content : pystr; raw : pystr }.

(** Lines 41-49; [config] is the decoded [categories.json], [None] when the
    file does not exist. *)
Definition load_categories (config : option json) : result (json * json) :=
  match config with
  | Some config =>
      categories <- get config "categories" (JDict []) ;;
      default <- get config "default_category" (JStr (lit "work")) ;;
      Ok (categories, default)
  | None =>
      Ok (JDict
            [(lit "work",
              JDict
                [(lit "patterns",
                  JList [JStr (lit "project"); JStr (lit "code");
                         JStr (lit "deploy")]);
                 (lit "indicators",
                  JList [JStr (lit "task"); JStr (lit "done")])])],
          JStr (lit "work"))
  end.

(** Lines 63-68: the entry of one line of the file, if it is one. *)
Definition entry_of (line : pystr) : list entry :=
  let line := strip line in
  if startswith (lit "## ") line
     || startswith (lit "- ") line && (5 <? length line)
  then [{| content := strip (lstrip_chars (lit "#- ") line); raw := line |}]
  else [].

(** Lines 55-69; [memory_file] holds the characters of the file of the date,
    [None] when there is none. *)
Definition parse_daily_memory (memory_file : option pystr) : list entry :=
  match memory_file with
  | None => []
  | Some stored => flat_map entry_of (split_lines (read_text stored))
  end.

Section Classify.

(** [str.lower] *)
Variable lower : pystr -> pystr.

(** The two module-level values of line 52. *)
Variable CATEGORIES : json.
Variable DEFAULT_CATEGORY : json.

(** What a [for] loop runs over: the items of a list, the characters of a
    string, the keys of a dict; any other decoded value is not iterable. *)
Definition iterate (v : json) : result (list json) :=
  match v with
  | JList l => Ok l
  | JStr s => Ok (map (fun c => JStr [c]) s)
  | JDict d => Ok (map (fun kv => JStr (fst kv)) d)
  | _ => Raise TypeError
  end.

(** [pattern.lower() in content] *)
Definition hit (text : pystr) (pattern : json) : result bool :=
  match pattern with
  | JStr p => Ok (contains (lower p) text)
  | _ => Raise AttributeError
  end.

(** How many of the items are in the text. *)
Fixpoint hits (text : pystr) (items : list json) : result nat :=
  match items with
  | [] => Ok 0
  | i :: rest =>
      h <- hit text i ;;
      n <- hits text rest ;;
      Ok ((if h then 1 else 0) + n)
  end.

(** Lines 77-82: what one category adds to its score. *)
Definition score (text : pystr) (rules : json) : result nat :=
  patterns <- get rules "patterns" (JList []) ;;
  patterns <- iterate patterns ;;
  p <- hits text patterns ;;
  indicators <- get rules "indicators" (JList []) ;;
  indicators <- iterate indicators ;;
  i <- hits text indicators ;;
  Ok (2 * p + i).

(** Lines 76-82: the [scores] dict, in insertion order; a category that
    scored nothing has no key in it. *)
Fixpoint scores (text : pystr) (cats : list (pystr * json))
    : result (list (pystr * nat)) :=
  match cats with
  | [] => Ok []
  | (cat_key, rules) :: rest =>
      n <- score text rules ;;
      others <- scores text rest ;;
      Ok (if n =? 0 then others else (cat_key, n) :: others)
  end.

(** [max(scores, key=scores.get)]: the first key of the greatest score. *)
Fixpoint best (b : pystr * nat) (l : list (pystr * nat)) : pystr * nat :=
  match l with
  | [] => b
  | x :: rest => best (if snd b <? snd x then x else b) rest
  end.

(** Lines 72-86. *)
Definition classify_entry (e : entry) : result json :=
  let text := lower (content e) in
  match CATEGORIES with
  | JDict cats =>
      sc <- scores text cats ;;
      match sc with
      | [] => Ok DEFAULT_CATEGORY
      | first :: rest => Ok (JStr (fst (best first rest)))
      end
  | _ => Raise AttributeError
  end.

End Classify.

(** Lines 102-103: the name of the folder of a category, under the
    directory of the neurons. *)
Definition folder_name (CATEGORIES category : json) : result json :=
  display <- match CATEGORIES with
             | JDict cats =>
                 match category with
                 | JStr key => Ok (dict_get cats key (JDict []))
                 | JList _ => Raise TypeError
                 | JDict _ => Raise TypeError
                 | _ => Ok (JDict [])
                 end
             | _ => Raise AttributeError
             end ;;
  zh <- get display "display_name_zh" JNull ;;
  en <- get display "display_name" JNull ;;
  Ok (py_or (py_or zh en) category).

(** Lines 108-113: the lines kept from the category file of the date
    ([target_file] holds its characters, [None] when there is none), then the
    new ones, each once. *)
Definition unique (target_file : option pystr) (raws : list pystr) : list pystr :=
  let existing :=
    match target_file with
    | Some stored =>
        filter (fun l => negb (str_eqb (strip l) []))
          (split_lines (read_text stored))
    | None => []
    end in
  fromkeys (existing ++ raws).

(** Lines 108-116: the text written to the category file of the date. *)
Definition merged (date_str : pystr) (target_file : option pystr)
    (raws : list pystr) : pystr :=
  let header := lit "# " ++ date_str ++ lit " Memory Consolidation"
                ++ [10; 10]%N in
  header ++ join [10%N] (unique target_file raws).

End Consolidator.

(** ** The monthly summary ([scripts/forgetting_curve.py]) *)

Module Forgetting.

(** Line 53: the name of the folder the summary reads for a category. *)
Definition category_name (v : json) : result json :=
  zh <- get v "display_name_zh" JNull ;;
  en <- get v "display_name" JNull ;;
  Ok (py_or (py_or zh en) (JStr [])).

(** Lines 97-99: the entries read from one file of a category. *)
Definition neuron_entries (stored : pystr) : list pystr :=
  map strip
    (filter (fun l => startswith (lit "- ") (strip l)
                      || startswith (lit "## ") (strip l))
       (split_lines (read_text stored))).

(** Lines 94-102: the lines a category adds under its heading, from its
    files of the month in the order of their dates. *)
Definition neuron_lines (files : list pystr) : list pystr :=
  firstn 15 (fromkeys (flat_map neuron_entries files)).

(** Lines 110-111: the highlight a line of a digest gives, if any. *)
Definition highlight (date_str line : pystr) : list pystr :=
  if startswith (lit "### ") line && contains [SPEECH] line
  then [lit "- " ++ date_str ++ lit ": " ++ lstrip_chars (lit "# ") line]
  else [].

(** Lines 108-111: the chat highlights of one digest file. *)
Definition chat_highlights (date_str stored : pystr) : list pystr :=
  flat_map (highlight date_str) (split_lines (read_text stored)).

(** Lines 149-150: the month before the month of [now]. *)
Definition last_year (year month : Z) : Z :=
  if (month =? 1)%Z then (year - 1)%Z else year.

Definition last_month (month : Z) : Z :=
  if (month =? 1)%Z then 12%Z else (month - 1)%Z.

End Forgetting.

(** ** Vocabulary of the properties *)

(** A session with other messages. *)
Definition set_messages (ms : list Message) (s : Session) : Session :=
  {| id := id s; start_time := start_time s; end_time := end_time s;
     model := model s; messages := ms; tools_used := tools_used s;
     is_cron := is_cron s; cron_name := cron_name s |}.

(** The other order of the two steps of [render_text]: the markers are cut
    out first, and what remains is cut at 500 characters. *)
Definition strip_then_cut (txt : pystr) : pystr :=
  let txt := Re.sub_empty CRON_STRIP 0 txt in
  if 500 <? length txt then firstn 500 txt ++ [ELLIPSIS] else txt.

(** A text of 600 characters that opens with a cron marker. *)
Definition marked_600 : pystr := lit "[cron:a b] " ++ repeat 120%N 589.

(** A text of 600 characters with no bracket. *)
Definition plain_600 : pystr := repeat 120%N 600.

(** The role and the flattened text of a record of type ["message"]. *)
Definition message_of (l : line) : option (json * pystr) :=
  match l with
  | Decoded (JDict d) =>
      if is_str (dict_get d (lit "type") (JStr [])) "message" then
        match dict_get d (lit "message") (JDict []) with
        | JDict m =>
            match _extract_text (dict_get m (lit "content") (JStr [])) with
            | Ok txt => Some (dict_get m (lit "role") (JStr []), txt)
            | Raise _ => None
            end
        | _ => None
        end
      else None
  | _ => None
  end.

(** A message record of role "user" whose text contains ["[cron:"]. *)
Definition cron_trigger (l : line) : bool :=
  match message_of l with
  | Some (r, txt) => is_str r "user" && contains (lit "[cron:") txt
  | None => false
  end.

(** The name a record gives the session: that of the first full marker
    [[cron:<job-id> <name>]] of its text, when it is a [cron_trigger]. *)
Definition marker_name (l : line) : option pystr :=
  match message_of l with
  | Some (r, txt) =>
      if is_str r "user" && contains (lit "[cron:") txt
      then Re.search CRON_SEARCH txt
      else None
  | None => None
  end.

(** The name after the records [ls], starting from [name]: each record with
    a marker name replaces it. *)
Definition last_name (ls : list line) (name : pystr) : pystr :=
  fold_left
    (fun acc l => match marker_name l with Some n => n | None => acc end)
    ls name.

(** The timestamp a record carries, when [fromisoformat] reads it. *)
Definition stamp (fromisoformat : pystr -> option datetime) (l : line)
    : option datetime :=
  match l with
  | Decoded (JDict d) =>
      match dict_get d (lit "timestamp") (JStr []) with
      | JStr t =>
          if truthy (JStr t)
          then fromisoformat (replace_char 90%N (lit "+00:00") t)
          else None
      | _ => None
      end
  | _ => None
  end.

(** The log line [{"type": "message", "message": {"role": r, "content": c}}]. *)
Definition message_line (r : string) (c : json) : line :=
  Decoded (JDict [(lit "type", JStr (lit "message"));
                  (lit "message",
                   JDict [(lit "role", JStr (lit r)); (lit "content", c)])]).

(** The log line [{"type": ty, "timestamp": ts}]. *)
Definition stamped_line (ty ts : string) : line :=
  Decoded (JDict [(lit "type", JStr (lit ty)); (lit "timestamp", JStr (lit ts))]).

(** Logs the parser does not survive: a line [[]]; a record
    [{"timestamp": 5}]; a record [{"type": "message", "message": "hi"}]; a
    message whose content is [[{"type": "text", "text": 5}]]. *)
Definition not_an_object : list line := [Decoded (JList [])].

Definition numeric_timestamp : list line :=
  [Decoded (JDict [(lit "timestamp", JInt 5)])].

Definition string_message : list line :=
  [Decoded (JDict [(lit "type", JStr (lit "message"));
                   (lit "message", JStr (lit "hi"))])].

Definition numeric_fragment : list line :=
  [message_line "user"
     (JList [JDict [(lit "type", JStr (lit "text")); (lit "text", JInt 5)]])].

(** Two user messages, each with a full marker. *)
Definition two_markers : list line :=
  [message_line "user" (JStr (lit "[cron:job1 First] run"));
   message_line "user" (JStr (lit "[cron:job2 Second] run"))].

(** A user message with the marker's opening and nothing of the rest. *)
Definition bare_prefix : list line :=
  [message_line "user" (JStr (lit "[cron:nightly"))].

(** A log of two stamped records around a line that is no JSON. *)
Definition stamped_log : list line :=
  [stamped_line "session" "2024-03-14T16:30:00Z"; Malformed;
   stamped_line "model_change" "2024-03-14T16:31:00Z"].

(** The session the parser returns on a log, under the reference reading
    of timestamps. *)
Definition parsed (log : list line) : Session :=
  match parse_session Reference.fromisoformat log with
  | Ok s => s
  | Raise _ => new_session
  end.

(** The text of the daily-report example. *)
Definition daily_report : pystr := lit "[cron:job1 Daily Report] hello".

(** The target [2024-03-15] in a zone eight hours east of UTC, as line 139
    builds it, and the two instants around its midnight. *)
Definition target_0315 : datetime :=
  {| wall := ymd 2024 3 15 * US_PER_DAY; tzinfo := Some (timezone_hours 8) |}.

Definition utc_1630 : datetime := mk_datetime 2024 3 14 16 30 0 (Some utc).
Definition utc_155959 : datetime := mk_datetime 2024 3 14 15 59 59 (Some utc).

(** A chat of two messages that starts at [ts], in a file modified on the
    target day. *)
Definition chat_log (ts : string) : list line :=
  [stamped_line "session" ts;
   message_line "user" (JStr (lit "status?"));
   message_line "assistant" (JStr (lit "all good"))].

Definition chat_file (ts : string) : session_file :=
  {| mtime := wall (mk_datetime 2024 3 15 1 0 0 None); content := chat_log ts |}.

(** A log of one message that starts at 2024-03-14T16:30:00Z, in a file
    modified on the target day. *)
Definition lone_log : list line :=
  [stamped_line "session" "2024-03-14T16:30:00Z";
   message_line "user" (JStr (lit "status?"))].

Definition lone_file : session_file :=
  {| mtime := wall (mk_datetime 2024 3 15 1 0 0 None); content := lone_log |}.

(** The bounds of lines 140-141 for [target_0315]. *)
Definition start_0315 : datetime := mk_datetime 2024 3 14 16 0 0 (Some utc).
Definition end_0315 : datetime := mk_datetime 2024 3 15 15 59 59 (Some utc).

(** A heartbeat session: the cron prompt and the sentinel reply. *)
Definition heartbeat_session : Session :=
  {| id := JStr []; start_time := Some utc_1630; end_time := Some utc_1630;
     model := JStr [];
     messages :=
       [{| role := JStr (lit "user");
           text := lit "[cron:hb1 Heartbeat Check] ping";
           timestamp := JStr [] |};
        {| role := JStr (lit "assistant"); text := lit "HEARTBEAT_OK";
           timestamp := JStr [] |}];
     tools_used := []; is_cron := true; cron_name := lit "Heartbeat Check" |}.

Definition disk_usage : Message :=
  {| role := JStr (lit "assistant"); text := lit "Disk usage at 92%";
     timestamp := JStr [] |}.

(** A session of one message. *)
Definition one_message : Session :=
  set_messages [disk_usage] new_session.

(** A world whose only log holds one message, with no digest directory. *)
Definition quiet_world : world :=
  {| session_files :=
       [{| mtime := wall (mk_datetime 2024 3 15 1 0 0 None);
           content := [stamped_line "session" "2024-03-14T16:30:00Z";
                       message_line "user" (JStr (lit "status?"))] |}];
     digest_dir := None;
     stdout := [] |}.

(** The shape of a line the parser gets through: blank, undecodable, or an
    object whose timestamp is absent, falsy or a string and, when its type is
    ["message"], whose message is an object with a content that is no list
    or a list whose text fragments all carry a string. *)
Definition is_jstr (v : json) : bool :=
  match v with
  | JStr _ => true
  | _ => false
  end.

Definition readable (v : json) : bool := negb (truthy v) || is_jstr v.

Definition flattens (content : json) : bool :=
  match content with
  | JList l => forallb is_jstr (flat_map fragment l)
  | _ => true
  end.

Definition well_shaped (l : line) : bool :=
  match l with
  | Blank => true
  | Malformed => true
  | Failed _ => false
  | Decoded (JDict d) =>
      readable (dict_get d (lit "timestamp") (JStr []))
      && (if is_str (dict_get d (lit "type") (JStr [])) "message" then
            match dict_get d (lit "message") (JDict []) with
            | JDict m => flattens (dict_get m (lit "content") (JStr []))
            | _ => false
            end
          else true)
  | Decoded _ => false
  end.

(** Whether a piece of code returned. *)
Definition returns {A : Type} (r : result A) : bool :=
  match r with
  | Ok _ => true
  | Raise _ => false
  end.

(** ** Vocabulary of the further properties *)

From Stdlib Require Import Sorted Permutation.

(** The field [key] of a record whose type is [ty] (the empty string when
    the record has no such field). *)
Definition record_field (ty key : string) (l : line) : option json :=
  match l with
  | Decoded (JDict d) =>
      if is_str (dict_get d (lit "type") (JStr [])) ty
      then Some (dict_get d (lit key) (JStr []))
      else None
  | _ => None
  end.

(** The message a line adds to the session: that of a message record whose
    flattened text is not empty. *)
Definition stored_message (l : line) : list Message :=
  match l with
  | Decoded (JDict d) =>
      match message_of l with
      | Some (r, txt) =>
          if negb (str_eqb txt []) then
            [{| role := r; text := txt;
                timestamp := dict_get d (lit "timestamp") (JStr []) |}]
          else []
      | None => []
      end
  | _ => []
  end.

(** The value after the records of [log]: each record on which [f] is
    defined replaces it. *)
Definition last_value (f : line -> option json) (log : list line) (v0 : json) : json :=
  fold_left (fun acc l => match f l with Some v => v | None => acc end) log v0.

(** The tool a line adds to [tools]: the name of a [tool_use] record, when
    it is truthy and equal to no tool of the list. *)
Definition new_tool (tools : list json) (l : line) : list json :=
  match record_field "tool_use" "name" l with
  | Some name =>
      if truthy name && negb (existsb (py_eq name) tools) then [name] else []
  | None => []
  end.

(** What one line does to the lists and the labels of the session. *)
Definition fields_step (l : line) (s1 s' : Session) : Prop :=
  messages s' = messages s1 ++ stored_message l
  /\ tools_used s' = tools_used s1 ++ new_tool (tools_used s1) l
  /\ model s' = match record_field "model_change" "modelId" l with
                | Some v => v
                | None => model s1
                end
  /\ id s' = match record_field "session" "id" l with
             | Some v => v
             | None => id s1
             end.

(** No element of the list equals an earlier one. *)
Definition distinct (tools : list json) : Prop :=
  forall l1 x l2, tools = l1 ++ x :: l2 -> existsb (py_eq x) l1 = false.

(** A log with a tool used twice and a model changed twice. *)
Definition busy_log : list line :=
  [Decoded (JDict [(lit "type", JStr (lit "session")); (lit "id", JStr (lit "s1"))]);
   Decoded (JDict [(lit "type", JStr (lit "model_change"));
                   (lit "modelId", JStr (lit "small"))]);
   Decoded (JDict [(lit "type", JStr (lit "tool_use")); (lit "name", JStr (lit "read"))]);
   message_line "user" (JStr (lit "  status?  "));
   Decoded (JDict [(lit "type", JStr (lit "tool_use")); (lit "name", JStr (lit "read"))]);
   Decoded (JDict [(lit "type", JStr (lit "model_change"));
                   (lit "modelId", JStr (lit "large"))]);
   message_line "assistant" (JStr (lit "   "))].

(** A session with other tools. *)
Definition set_tools (ts : list json) (s : Session) : Session :=
  {| id := id s; start_time := start_time s; end_time := end_time s;
     model := model s; messages := messages s; tools_used := ts;
     is_cron := is_cron s; cron_name := cron_name s |}.

(** The text of the file [name] of the digest directory. *)
Fixpoint find_file (name : pystr) (files : list (pystr * pystr)) : option pystr :=
  match files with
  | [] => None
  | (n, t) :: rest => if str_eqb n name then Some t else find_file name rest
  end.

Definition read_file (name : pystr) (dir : option (list (pystr * pystr)))
    : option pystr :=
  match dir with
  | Some files => find_file name files
  | None => None
  end.

(** The instant of a datetime on the UTC clock (the reading itself for a
    naive one). *)
Definition instant (d : datetime) : Z :=
  (wall d - match tzinfo d with Some o => o | None => 0 end)%Z.

(** Sessions in the order of their start. *)
Definition starts_before (a b : Session) : Prop :=
  (instant (sort_key a) <= instant (sort_key b))%Z.

(** A world with one log of the target day whose session used a tool named
    by the number 5. *)
Definition numeric_tool_world : world :=
  {| session_files :=
       [{| mtime := wall (mk_datetime 2024 3 15 1 0 0 None);
           content := [stamped_line "session" "2024-03-14T16:30:00Z";
                       Decoded (JDict [(lit "type", JStr (lit "tool_use"));
                                       (lit "name", JInt 5)]);
                       message_line "user" (JStr (lit "status?"));
                       message_line "assistant" (JStr (lit "all good"))] |}];
     digest_dir := None;
     stdout := [] |}.

(** A world with two chats of the target day, the later one listed first,
    and a digest of another day. *)
Definition busy_world : world :=
  {| session_files := [chat_file "2024-03-14T18:00:00Z";
                       chat_file "2024-03-14T16:30:00Z"];
     digest_dir := Some [(lit "2024-03-14.md", lit "old digest")];
     stdout := [] |}.

(** A file modified a week after the target day, with a line the parser
    does not survive. *)
Definition stale_file : session_file :=
  {| mtime := wall (mk_datetime 2024 3 22 1 0 0 None); content := not_an_object |}.

(** The sessions selected in [busy_world] for 2024-03-15 and the document
    written for them, under the reference functions. *)
Definition busy_sessions : list Session :=
  match selected (timezone_hours 8) Reference.local_utcoffset Reference.lower
          Reference.fromisoformat (ymd 2024 3 15) (session_files busy_world) with
  | Ok l => l
  | Raise _ => []
  end.

Definition busy_text : pystr :=
  match document (timezone_hours 8) Reference.local_utcoffset (fun _ => [])
          (lit "2024-03-15") busy_sessions with
  | Ok t => t
  | Raise _ => []
  end.

(** A value that can be the key of a dict lookup. *)
Definition hashable (v : json) : bool :=
  match v with
  | JList _ => false
  | JDict _ => false
  | _ => true
  end.

(** Strictly before, in the order of [sorted] on strings. *)
Definition str_ltb (s t : pystr) : bool := str_leb s t && negb (str_eqb s t).

Definition ascending (names : list pystr) : Prop :=
  StronglySorted (fun a b => str_ltb a b = true) names.

(** Two sessions that used tools, one of them twice over. *)
Definition tool_sessions : list Session :=
  [set_tools [JStr (lit "write"); JStr (lit "read")] new_session;
   set_tools [JStr (lit "read"); JStr (lit "exec")] new_session].

(** A text that UTF-8 can encode: no surrogate among its code points. *)
Definition encodable (s : pystr) : Prop :=
  forallb (fun c => ((c <? 55296) || (57343 <? c)) && (c <? 1114112))%N s = true.

(** A text without a line feed, and one without any line ending. *)
Definition newline_free (s : pystr) : Prop := ~ In 10%N s.

Definition one_line (s : pystr) : Prop := ~ In 10%N s /\ ~ In 13%N s.

(** Line 113: the time of day a block of the digest opens with. *)
Definition clock (LOCAL_TZ : tz) (local_utcoffset : Z -> result Z) (s : Session)
    : result pystr :=
  match start_time s with
  | Some start =>
      d <- astimezone local_utcoffset LOCAL_TZ start ;; Ok (strftime_HM d)
  | None => Ok (lit "??:??")
  end.

(** A stripped line that opens an entry of a daily memory file. *)
Definition marked (l : pystr) : bool :=
  startswith (lit "## ") l || startswith (lit "- ") l && (5 <? length l).

(** The first line of a category file. *)
Definition title_line (date_str : pystr) : pystr :=
  lit "# " ++ date_str ++ lit " Memory Consolidation".

(** Raw lines of entries of a daily memory file, as a category gets them. *)
Definition from_memory (memory_file : option pystr) (raws : list pystr) : Prop :=
  forall r, In r raws ->
    exists e, In e (Consolidator.parse_daily_memory memory_file)
              /\ Consolidator.raw e = r.

(** A daily memory file and the raw lines of its two entries. *)
Definition memory_text : pystr :=
  lit "## Plan" ++ [10%N] ++ lit "  - deploy the code" ++ [10%N] ++ lit "- ok"
  ++ [10%N].

Definition memory_raws : list pystr := [lit "## Plan"; lit "- deploy the code"].

(** Whether the rules of a category give it a name to show. *)
Definition named (d : list (pystr * json)) : bool :=
  truthy (dict_get d (lit "display_name_zh") JNull)
  || truthy (dict_get d (lit "display_name") JNull).

(** A configuration with a named and an unnamed category. *)
Definition named_categories : list (pystr * json) :=
  [(lit "work", JDict [(lit "display_name", JStr (lit "Work"))]);
   (lit "home", JDict [(lit "patterns", JList [])])].

(** A configuration with two categories, and an entry that both match. *)
Definition two_categories : list (pystr * json) :=
  [(lit "work", JDict [(lit "patterns", JList [JStr (lit "deploy")])]);
   (lit "home", JDict [(lit "indicators", JList [JStr (lit "garden");
                                                  JStr (lit "deploy")])])].

Definition deploy_entry : Consolidator.entry :=
  {| Consolidator.content := lit "Deploy the garden sensor";
     Consolidator.raw := lit "- Deploy the garden sensor" |}.

(** No text with white space at either end. *)
Definition trimmed (t : pystr) : Prop := lstrip t = t /\ rstrip t = t.

(** * Properties *)

Unset Implicit Arguments.

(** ** Basic facts *)

Lemma char_eqb_eq (a b : char) : char_eqb a b = true <-> a = b.
Proof. unfold char_eqb. apply N.eqb_eq. Qed.

Lemma str_eqb_eq (s t : pystr) : str_eqb s t = true <-> s = t.
Proof.
  revert t. induction s as [|a s IH]; intros [|b t]; simpl; split; intro H;
    try reflexivity; try discriminate.
  - apply andb_true_iff in H as [Hab Hst].
    apply char_eqb_eq in Hab. apply IH in Hst. now subst.
  - injection H as -> ->. apply andb_true_iff. split.
    + now apply char_eqb_eq.
    + now apply IH.
Qed.

Lemma str_eqb_nil (s : pystr) : str_eqb s [] = true <-> s = [].
Proof. apply str_eqb_eq. Qed.

Lemma is_str_eq (v : json) (s : string) : is_str v s = true -> v = JStr (lit s).
Proof.
  unfold is_str. destruct v as [| b | z | f | t | l | d]; simpl; try discriminate.
  intro H. apply str_eqb_eq in H. now subst.
Qed.

Lemma bind_ok {A B : Type} (r : result A) (k : A -> result B) (b : B) :
  bind r k = Ok b -> exists a, r = Ok a /\ k a = Ok b.
Proof. destruct r as [a|e]; simpl; [eauto | discriminate]. Qed.

(** A raised exception is no result. *)
Ltac bind_inv H :=
  let a := fresh "a" in
  let Ha := fresh "Ha" in
  apply bind_ok in H; destruct H as [a [Ha H]].

(** ** The noise classifier *)

Section Classifier.

Variable lower : pystr -> pystr.

Lemma keeps_length (s : Session) : keeps lower s = true -> 2 <= length (messages s).
Proof.
  unfold keeps. destruct (length (messages s) <? 2) eqn:E; [discriminate|].
  apply Nat.ltb_ge in E. auto.
Qed.

Lemma select_file_some LOCAL_TZ local_utcoffset fromisoformat target t0 t1 f s :
  select_file LOCAL_TZ local_utcoffset lower fromisoformat target t0 t1 f = Ok (Some s) ->
  parse_session fromisoformat (content f) = Ok s /\ keeps lower s = true.
Proof.
  unfold select_file. intro H. bind_inv H.
  destruct a; [discriminate|]. bind_inv H.
  destruct (start_time a) as [start|]; [|discriminate].
  bind_inv H.
  destruct (negb (date_of a0 =? date_of target)%Z); [discriminate|].
  destruct (keeps lower a) eqn:K; [|discriminate].
  injection H as <-. auto.
Qed.

(** C8. A session with fewer than two messages (so one with exactly one) is
    rejected by the noise classifier whatever it holds, and the selector
    never appends such a session. *)
Theorem short_session_rejected (s : Session) :
  length (messages s) < 2 ->
  keeps lower s = false
  /\ forall LOCAL_TZ local_utcoffset fromisoformat target t0 t1 f,
       select_file LOCAL_TZ local_utcoffset lower fromisoformat target t0 t1 f
       <> Ok (Some s).
Proof.
  intro Hlen. split.
  - unfold keeps. apply Nat.ltb_lt in Hlen. now rewrite Hlen.
  - intros tzl lu iso target t0 t1 f H.
    apply select_file_some in H as [_ K].
    apply keeps_length in K. lia.
Qed.

Lemma no_substance (s : Session) :
  (forall m, In m (messages s) -> is_str (role m) "assistant" = true ->
             text m = lit "HEARTBEAT_OK") ->
  has_substance s = false.
Proof.
  intro Honly. unfold has_substance.
  destruct (existsb _ (messages s)) eqn:E; [|reflexivity].
  apply existsb_exists in E as [m [Hin Hm]].
  apply andb_true_iff in Hm as [Hm _].
  apply andb_true_iff in Hm as [Hm Hsent].
  apply andb_true_iff in Hm as [Hrole _].
  rewrite (Honly m Hin Hrole) in Hsent. discriminate.
Qed.

(** C6. A cron session whose name contains "heartbeat" in any case and whose
    assistant messages all read exactly HEARTBEAT_OK is rejected; with one
    more assistant message, anywhere in the session, whose text is not empty,
    is no sentinel and does not start with '<' (such as "Disk usage at 92%"),
    it is kept. *)
Theorem heartbeat_filter (s : Session) (extra : Message) (before after : list Message) :
  is_cron s = true ->
  contains (lit "heartbeat") (lower (cron_name s)) = true ->
  (forall m, In m (messages s) -> is_str (role m) "assistant" = true ->
             text m = lit "HEARTBEAT_OK") ->
  (exists m, In m (messages s) /\ is_str (role m) "assistant" = true) ->
  messages s = before ++ after ->
  is_str (role extra) "assistant" = true ->
  text extra <> [] ->
  existsb (str_eqb (text extra)) SENTINELS = false ->
  startswith (lit "<") (text extra) = false ->
  keeps lower s = false
  /\ keeps lower (set_messages (before ++ extra :: after) s) = true.
Proof.
  intros Hcron Hname Honly [m0 [Hin0 _]] Hsplit Hrole Htext Hsent Hlt.
  assert (Hhb : forall ms, is_hb lower (set_messages ms s) = true).
  { intro ms. unfold is_hb. simpl. now rewrite Hcron, Hname. }
  split.
  - unfold keeps. destruct (length (messages s) <? 2); [reflexivity|].
    replace (is_hb lower s) with true.
    + now rewrite (no_substance s Honly).
    + unfold is_hb. now rewrite Hcron, Hname.
  - unfold keeps. simpl messages.
    assert (Hlen : 2 <= length (before ++ extra :: after)).
    { rewrite Hsplit in Hin0. apply in_split in Hin0 as [l1 [l2 E]].
      apply (f_equal (@length Message)) in E.
      rewrite !length_app in *. simpl in *. lia. }
    apply Nat.ltb_ge in Hlen. rewrite Hlen, Hhb.
    assert (Hsub : has_substance (set_messages (before ++ extra :: after) s) = true).
    { unfold has_substance. simpl messages. apply existsb_exists.
      exists extra. split; [apply in_elt|].
      rewrite Hrole, Hsent, Hlt. simpl.
      destruct (str_eqb (text extra) []) eqn:E; [|reflexivity].
      apply str_eqb_eq in E. contradiction. }
    now rewrite Hsub.
Qed.

End Classifier.

(** ** The renderer's text *)

Lemma match_here_chr (a : char) (p : Re.pattern) (c0 : Re.caps) (c : char) (s : pystr) :
  Re.match_here (Re.chr a :: p) c0 (c :: s)
  = if char_eqb a c then Re.match_here p c0 s else None.
Proof. reflexivity. Qed.

Lemma sub_empty_cons (p : Re.pattern) (c : char) (s : pystr) :
  Re.sub_empty p 0 (c :: s)
  = match Re.match_here p Re.no_caps (c :: s) with
    | Some (rest, _) =>
        match length (c :: s) - length rest with
        | S n => Re.sub_empty p n s
        | O => c :: Re.sub_empty p 0 s
        end
    | None => c :: Re.sub_empty p 0 s
    end.
Proof. reflexivity. Qed.

Lemma strip_pattern_head (c : char) (s : pystr) :
  c <> 91%N -> Re.match_here CRON_STRIP Re.no_caps (c :: s) = None.
Proof.
  intro Hc.
  assert (E : exists p, CRON_STRIP = Re.chr 91%N :: p) by (eexists; reflexivity).
  destruct E as [p ->]. rewrite match_here_chr.
  destruct (char_eqb 91%N c) eqn:E; [|reflexivity].
  apply char_eqb_eq in E. congruence.
Qed.

Lemma strip_no_bracket (s : pystr) :
  ~ In 91%N s -> Re.sub_empty CRON_STRIP 0 s = s.
Proof.
  induction s as [|c s IH]; intro Hno; [reflexivity|].
  rewrite sub_empty_cons.
  rewrite strip_pattern_head by (intro E; apply Hno; left; now subst).
  f_equal. apply IH. intro Hin. apply Hno. now right.
Qed.

(** C2 fails as stated: on a text of 600 characters that opens with a marker
    the renderer cuts at 500 first and strips after, leaving 489 characters
    and the ellipsis, where stripping first would leave 500. *)
Lemma render_text_cuts_before_stripping :
  length marked_600 = 600
  /\ render_text marked_600 = repeat 120%N 489 ++ [ELLIPSIS]
  /\ strip_then_cut marked_600 = repeat 120%N 500 ++ [ELLIPSIS].
Proof.
  split; [reflexivity|]. split; vm_compute; reflexivity.
Qed.

(** C2, amended. The cut comes before the stripping: a text longer than 500
    characters is rendered as the stripping of its first 500 characters plus
    the ellipsis, a shorter one as its stripping; so a text of 600 characters
    with no opening bracket is rendered as its first 500 characters plus the
    ellipsis. *)
Theorem render_text_cut_then_strip (txt : pystr) :
  (500 < length txt ->
   render_text txt = Re.sub_empty CRON_STRIP 0 (firstn 500 txt ++ [ELLIPSIS]))
  /\ (length txt <= 500 -> render_text txt = Re.sub_empty CRON_STRIP 0 txt)
  /\ (length txt = 600 -> ~ In 91%N txt ->
      render_text txt = firstn 500 txt ++ [ELLIPSIS]
      /\ length (render_text txt) = 501).
Proof.
  unfold render_text. split; [|split].
  - intro H. apply Nat.ltb_lt in H. now rewrite H.
  - intro H. apply Nat.ltb_ge in H. now rewrite H.
  - intros Hlen Hno.
    assert (H : (500 <? length txt) = true) by (apply Nat.ltb_lt; lia).
    rewrite H.
    assert (E : Re.sub_empty CRON_STRIP 0 (firstn 500 txt ++ [ELLIPSIS])
                = firstn 500 txt ++ [ELLIPSIS]).
    { apply strip_no_bracket. intro Hin. apply in_app_or in Hin as [Hin|Hin].
      - apply Hno. rewrite <- (firstn_skipn 500 txt).
        apply in_or_app. now left.
      - destruct Hin as [Hin|[]]. discriminate. }
    rewrite E. split; [reflexivity|].
    rewrite length_app, length_firstn, Hlen. reflexivity.
Qed.

Lemma render_text_cut_then_strip_witness :
  render_text plain_600 = firstn 500 plain_600 ++ [ELLIPSIS]
  /\ length (render_text plain_600) = 501.
Proof.
  apply (render_text_cut_then_strip plain_600).
  - reflexivity.
  - intro H. apply repeat_spec in H. discriminate.
Defined.

(** ** The parser, record by record *)

Section ParserFacts.

Variable fromisoformat : pystr -> option datetime.

Lemma parse_lines_app (s : Session) (p r : list line) :
  parse_lines fromisoformat s (p ++ r)
  = (s1 <- parse_lines fromisoformat s p ;; parse_lines fromisoformat s1 r).
Proof.
  revert s. induction p as [|l p IH]; intro s; simpl; [reflexivity|].
  destruct (parse_line fromisoformat s l); simpl; [apply IH | reflexivity].
Qed.

Lemma parse_record_dict (s : Session) (d : list (pystr * json)) :
  parse_record fromisoformat s (JDict d)
  = (s1 <- update_times fromisoformat s (dict_get d (lit "timestamp") (JStr [])) ;;
     let t := dict_get d (lit "type") (JStr []) in
     if is_str t "session" then Ok (set_id (dict_get d (lit "id") (JStr [])) s1)
     else if is_str t "model_change"
     then Ok (set_model (dict_get d (lit "modelId") (JStr [])) s1)
     else if is_str t "message"
     then on_message s1 (JDict d) (dict_get d (lit "timestamp") (JStr []))
     else if is_str t "tool_use" then on_tool_use s1 (JDict d)
     else Ok s1).
Proof.
  unfold parse_record, get. cbn [bind].
  destruct (update_times _ _ _); cbn [bind]; [|reflexivity].
  repeat match goal with |- context [if ?b then _ else _] => destruct b end;
    reflexivity.
Qed.

Lemma on_message_dict (s : Session) (d : list (pystr * json)) (tsf : json) :
  on_message s (JDict d) tsf
  = match dict_get d (lit "message") (JDict []) with
    | JDict m =>
        txt <- _extract_text (dict_get m (lit "content") (JStr [])) ;;
        if negb (str_eqb txt []) then
          Ok (append_message
                {| role := dict_get m (lit "role") (JStr []); text := txt;
                   timestamp := tsf |}
                (mark_cron s (dict_get m (lit "role") (JStr [])) txt))
        else Ok s
    | _ => Raise AttributeError
    end.
Proof.
  unfold on_message, get. cbn [bind].
  destruct (dict_get d (lit "message") (JDict [])); reflexivity.
Qed.

(** What the timestamp block does to the two times, and that it touches
    nothing else. *)
Lemma update_times_spec (s s' : Session) (d : list (pystr * json)) :
  update_times fromisoformat s (dict_get d (lit "timestamp") (JStr [])) = Ok s' ->
  s' = match stamp fromisoformat (Decoded (JDict d)) with
       | Some ts =>
           set_times (match start_time s with
                      | None => Some ts
                      | Some t0 => Some t0
                      end) (Some ts) s
       | None => s
       end.
Proof.
  unfold update_times, stamp.
  destruct (dict_get d (lit "timestamp") (JStr [])) as [| b | z | f | t | l | m];
    try (destruct (truthy _); simpl; intro H; now inversion H).
  destruct (truthy (JStr t)); simpl; [|intro H; now inversion H].
  destruct (fromisoformat _); intro H; now inversion H.
Qed.

(** The fields a record leaves alone or changes, once its timestamp is
    booked. *)
Definition step_of (l : line) (s1 s' : Session) : Prop :=
  start_time s' = start_time s1
  /\ end_time s' = end_time s1
  /\ is_cron s' = is_cron s1 || cron_trigger l
  /\ cron_name s' = match marker_name l with
                    | Some n => n
                    | None => cron_name s1
                    end.

Lemma step_of_quiet (l : line) (s1 s' : Session) :
  message_of l = None ->
  start_time s' = start_time s1 -> end_time s' = end_time s1 ->
  is_cron s' = is_cron s1 -> cron_name s' = cron_name s1 ->
  step_of l s1 s'.
Proof.
  intros Hm H1 H2 H3 H4. unfold step_of, cron_trigger, marker_name.
  rewrite Hm, orb_false_r. auto.
Qed.

Lemma message_of_other (d : list (pystr * json)) :
  is_str (dict_get d (lit "type") (JStr [])) "message" = false ->
  message_of (Decoded (JDict d)) = None.
Proof. intro H. unfold message_of. now rewrite H. Qed.

Lemma mark_cron_spec (s : Session) (r : json) (txt : pystr) :
  start_time (mark_cron s r txt) = start_time s
  /\ end_time (mark_cron s r txt) = end_time s
  /\ is_cron (mark_cron s r txt)
     = is_cron s || (is_str r "user" && contains (lit "[cron:") txt)
  /\ cron_name (mark_cron s r txt)
     = match (if is_str r "user" && contains (lit "[cron:") txt
              then Re.search CRON_SEARCH txt else None) with
       | Some n => n
       | None => cron_name s
       end.
Proof.
  unfold mark_cron.
  destruct (is_str r "user" && contains (lit "[cron:") txt).
  - destruct (Re.search CRON_SEARCH txt); simpl; rewrite orb_true_r; auto.
  - rewrite orb_false_r. auto.
Qed.

Lemma dispatch_spec (s1 s' : Session) (d : list (pystr * json)) :
  (let t := dict_get d (lit "type") (JStr []) in
   if is_str t "session" then Ok (set_id (dict_get d (lit "id") (JStr [])) s1)
   else if is_str t "model_change"
   then Ok (set_model (dict_get d (lit "modelId") (JStr [])) s1)
   else if is_str t "message"
   then on_message s1 (JDict d) (dict_get d (lit "timestamp") (JStr []))
   else if is_str t "tool_use" then on_tool_use s1 (JDict d)
   else Ok s1) = Ok s' ->
  step_of (Decoded (JDict d)) s1 s'.
Proof.
  cbv zeta. intro H.
  destruct (is_str (dict_get d (lit "type") (JStr [])) "session") eqn:E1.
  { apply is_str_eq in E1. inversion H; subst s'.
    apply step_of_quiet; try reflexivity.
    apply message_of_other. now rewrite E1. }
  destruct (is_str (dict_get d (lit "type") (JStr [])) "model_change") eqn:E2.
  { apply is_str_eq in E2. inversion H; subst s'.
    apply step_of_quiet; try reflexivity.
    apply message_of_other. now rewrite E2. }
  destruct (is_str (dict_get d (lit "type") (JStr [])) "message") eqn:E3.
  { rewrite on_message_dict in H.
    unfold step_of, cron_trigger, marker_name, message_of. rewrite E3.
    destruct (dict_get d (lit "message") (JDict [])) as [| b | z | f | t | l | m];
      try discriminate.
    bind_inv H. rewrite Ha.
    destruct (mark_cron_spec s1 (dict_get m (lit "role") (JStr [])) a)
      as [M1 [M2 [M3 M4]]].
    destruct (str_eqb a []) eqn:En; simpl in H; inversion H; subst s'.
    - apply str_eqb_eq in En. subst a.
      rewrite andb_false_r, orb_false_r. auto.
    - simpl. auto. }
  destruct (is_str (dict_get d (lit "type") (JStr [])) "tool_use") eqn:E4.
  { unfold on_tool_use, get in H. cbn [bind] in H.
    apply step_of_quiet; [now apply message_of_other | | | |];
      destruct (truthy _ && _); inversion H; reflexivity. }
  inversion H; subst s'.
  apply step_of_quiet; [now apply message_of_other | | | |]; reflexivity.
Qed.

(** One line of the log: its timestamp, when readable, sets [start_time] if
    it was unset and always [end_time]; the cron flag is raised by a trigger
    and never lowered; the name follows the record's marker. *)
Lemma parse_line_spec (s s' : Session) (l : line) :
  parse_line fromisoformat s l = Ok s' ->
  start_time s'
  = match stamp fromisoformat l with
    | Some ts => Some (match start_time s with Some t0 => t0 | None => ts end)
    | None => start_time s
    end
  /\ end_time s'
     = match stamp fromisoformat l with
       | Some ts => Some ts
       | None => end_time s
       end
  /\ is_cron s' = is_cron s || cron_trigger l
  /\ cron_name s' = match marker_name l with
                    | Some n => n
                    | None => cron_name s
                    end.
Proof.
  destruct l as [| | e | obj]; intro H.
  - simpl in *. inversion H; subst. rewrite orb_false_r. auto.
  - simpl in *. inversion H; subst. rewrite orb_false_r. auto.
  - discriminate.
  - unfold parse_line in H.
    destruct obj as [| b | z | f | t | l | d]; try discriminate.
    rewrite parse_record_dict in H. bind_inv H.
    apply update_times_spec in Ha. apply dispatch_spec in H.
    destruct H as [H1 [H2 [H3 H4]]].
    rewrite H1, H2, H3, H4, Ha.
    destruct (stamp fromisoformat (Decoded (JDict d))), (start_time s) eqn:E0;
      simpl; rewrite ?E0; auto.
Qed.

End ParserFacts.

(** ** The parser, log by log *)

Section ParserProperties.

Variable fromisoformat : pystr -> option datetime.

(** C1 (the code departs from it). The parser raises on a line that is JSON
    but no object, on a timestamp that is a number, on a ["message"] field
    that is a string, and on a text fragment whose text is a number. *)
Theorem parse_session_raises :
  parse_session fromisoformat not_an_object = Raise AttributeError
  /\ parse_session fromisoformat numeric_timestamp = Raise AttributeError
  /\ parse_session fromisoformat string_message = Raise AttributeError
  /\ parse_session fromisoformat numeric_fragment = Raise TypeError.
Proof.
  split; [reflexivity|].
  unfold parse_session, numeric_timestamp, string_message, numeric_fragment,
    message_line, parse_lines, parse_line.
  rewrite !parse_record_dict.
  split; [reflexivity|]. split; reflexivity.
Qed.

Lemma times_kept (p : list line) (s0 s : Session) :
  parse_lines fromisoformat s0 p = Ok s ->
  (start_time s0 = None <-> end_time s0 = None) ->
  (start_time s = None <-> end_time s = None).
Proof.
  revert s0. induction p as [|l p IH]; intros s0 H Hinv.
  - simpl in H. inversion H; now subst.
  - simpl in H. bind_inv H. apply (IH a H).
    apply parse_line_spec in Ha as [H1 [H2 _]]. rewrite H1, H2.
    destruct (stamp fromisoformat l); [split; discriminate | exact Hinv].
Qed.

(** C10. After every prefix of the log, [start_time] is unset exactly when
    [end_time] is; the next record, when it carries a timestamp that
    [fromisoformat] reads, sets [start_time] if it was unset, leaves it
    otherwise, and sets [end_time]; any other line leaves both. *)
Theorem times_set_together (p : list line) (s : Session) :
  parse_session fromisoformat p = Ok s ->
  (start_time s = None <-> end_time s = None)
  /\ forall (l : line) (s' : Session),
       parse_session fromisoformat (p ++ [l]) = Ok s' ->
       match stamp fromisoformat l with
       | Some ts =>
           start_time s'
           = Some (match start_time s with Some t0 => t0 | None => ts end)
           /\ end_time s' = Some ts
       | None => start_time s' = start_time s /\ end_time s' = end_time s
       end.
Proof.
  unfold parse_session. intro Hp. split.
  - apply (times_kept p new_session s Hp). simpl. tauto.
  - intros l s' H. rewrite parse_lines_app, Hp in H. simpl in H.
    bind_inv H. inversion H; subst a.
    apply parse_line_spec in Ha as [H1 [H2 _]].
    destruct (stamp fromisoformat l); auto.
Qed.

Lemma cron_fold (r : list line) (s s' : Session) :
  parse_lines fromisoformat s r = Ok s' ->
  is_cron s' = is_cron s || existsb cron_trigger r
  /\ cron_name s' = last_name r (cron_name s).
Proof.
  revert s. induction r as [|l r IH]; intros s H; simpl in H.
  - inversion H; subst. simpl. now rewrite orb_false_r.
  - bind_inv H. apply IH in H as [Hc Hn].
    apply parse_line_spec in Ha as [_ [_ [H3 H4]]].
    rewrite Hc, Hn, H3, H4. simpl. now rewrite orb_assoc.
Qed.

(** C3, amended. Once [is_cron] is true it stays true for the rest of the
    parse; [cron_name] is overwritten by every later user message whose text
    holds a full marker, so the last one wins. *)
Theorem cron_flag_stays_last_name_wins (p r : list line) (s s' : Session) :
  parse_session fromisoformat p = Ok s ->
  parse_session fromisoformat (p ++ r) = Ok s' ->
  (is_cron s = true -> is_cron s' = true)
  /\ cron_name s' = last_name r (cron_name s).
Proof.
  unfold parse_session. intros Hp H.
  rewrite parse_lines_app, Hp in H. simpl in H.
  apply cron_fold in H as [Hc Hn]. split; [|exact Hn].
  intro Ht. now rewrite Hc, Ht.
Qed.

(** C4, amended. [is_cron] is true exactly when some record of type
    ["message"] has role ["user"] and a flattened text that contains the
    opening ["[cron:"] of a marker; the rest of the marker is not needed. *)
Theorem is_cron_iff_trigger (log : list line) (s : Session) :
  parse_session fromisoformat log = Ok s ->
  (is_cron s = true <-> exists l, In l log /\ cron_trigger l = true).
Proof.
  unfold parse_session. intro H. apply cron_fold in H as [Hc _].
  rewrite Hc. simpl. apply existsb_exists.
Qed.

Lemma returns_bind {A B : Type} (r : result A) (k : A -> result B) :
  returns (bind r k) = match r with
                       | Ok a => returns (k a)
                       | Raise _ => false
                       end.
Proof. destruct r; reflexivity. Qed.

Lemma str_items_returns (vs : list json) :
  returns (str_items vs) = forallb is_jstr vs.
Proof.
  induction vs as [|v vs IH]; [reflexivity|].
  destruct v; simpl; try reflexivity.
  rewrite returns_bind, <- IH. destruct (str_items vs); reflexivity.
Qed.

Lemma extract_text_returns (content : json) :
  returns (_extract_text content) = flattens content.
Proof.
  destruct content; try reflexivity.
  unfold _extract_text, flattens. rewrite returns_bind, <- str_items_returns.
  destruct (str_items _); reflexivity.
Qed.

Lemma update_times_returns (s : Session) (v : json) :
  returns (update_times fromisoformat s v) = readable v.
Proof.
  unfold update_times, readable.
  destruct (truthy v) eqn:T; [|reflexivity].
  destruct v; try reflexivity.
  simpl. destruct (fromisoformat _); reflexivity.
Qed.

Lemma on_message_returns (s : Session) (d : list (pystr * json)) (tsf : json) :
  returns (on_message s (JDict d) tsf)
  = match dict_get d (lit "message") (JDict []) with
    | JDict m => flattens (dict_get m (lit "content") (JStr []))
    | _ => false
    end.
Proof.
  rewrite on_message_dict.
  destruct (dict_get d (lit "message") (JDict [])); try reflexivity.
  rewrite returns_bind, <- extract_text_returns.
  destruct (_extract_text _) as [txt|]; [|reflexivity].
  destruct (negb (str_eqb txt [])); reflexivity.
Qed.

Lemma parse_line_returns (s : Session) (l : line) :
  returns (parse_line fromisoformat s l) = well_shaped l.
Proof.
  destruct l as [| | e | obj]; try reflexivity.
  destruct obj as [| b | z | f | t | l | d]; try reflexivity.
  unfold parse_line, well_shaped. rewrite parse_record_dict, returns_bind.
  rewrite <- (update_times_returns s).
  destruct (update_times fromisoformat s _) as [s1|]; [|reflexivity].
  cbv zeta. simpl andb.
  destruct (is_str (dict_get d (lit "type") (JStr [])) "session") eqn:E1.
  { apply is_str_eq in E1. rewrite E1. reflexivity. }
  destruct (is_str (dict_get d (lit "type") (JStr [])) "model_change") eqn:E2.
  { apply is_str_eq in E2. rewrite E2. reflexivity. }
  destruct (is_str (dict_get d (lit "type") (JStr [])) "message") eqn:E3.
  { apply on_message_returns. }
  destruct (is_str (dict_get d (lit "type") (JStr [])) "tool_use").
  - unfold on_tool_use, get. cbn [bind]. destruct (truthy _ && _); reflexivity.
  - reflexivity.
Qed.

Lemma parse_lines_returns (s : Session) (log : list line) :
  returns (parse_lines fromisoformat s log) = forallb well_shaped log.
Proof.
  revert s. induction log as [|l log IH]; intro s; [reflexivity|].
  simpl. rewrite returns_bind, <- (parse_line_returns s l).
  destruct (parse_line fromisoformat s l); [apply IH | reflexivity].
Qed.

(** X1. The parser returns a session exactly on the logs whose lines are
    all [well_shaped]: blank, refused by [json.loads] with
    [JSONDecodeError], or an object of the right shape; on any other log it
    raises, also on a line on which [json.loads] raises another exception. *)
Theorem parse_session_returns_iff (log : list line) :
  (exists s, parse_session fromisoformat log = Ok s)
  <-> forallb well_shaped log = true.
Proof.
  unfold parse_session. rewrite <- (parse_lines_returns new_session).
  destruct (parse_lines fromisoformat new_session log) as [s|e]; simpl.
  - split; [reflexivity | intros _; now exists s].
  - split; [intros [s H]; discriminate | discriminate].
Qed.

(** X2. The first line that is not [well_shaped] ends the parse: the lines
    before it are parsed (the blank ones and those refused with
    [JSONDecodeError] are skipped), the exception is the one this line raises
    on the session parsed so far, for a line on which [json.loads] fails
    otherwise the exception of [json.loads] itself, and no line after it
    changes the outcome. *)
Theorem first_bad_line_raises (before after : list line) (l : line) :
  forallb well_shaped before = true ->
  well_shaped l = false ->
  exists s e,
    parse_session fromisoformat before = Ok s
    /\ parse_line fromisoformat s l = Raise e
    /\ (forall e0, l = Failed e0 -> e = e0)
    /\ parse_session fromisoformat (before ++ l :: after) = Raise e.
Proof.
  intros Hb Hl. unfold parse_session.
  pose proof (parse_lines_returns new_session before) as R. rewrite Hb in R.
  destruct (parse_lines fromisoformat new_session before) as [s|e0] eqn:P;
    [|discriminate].
  pose proof (parse_line_returns s l) as R1. rewrite Hl in R1.
  destruct (parse_line fromisoformat s l) as [s1|e] eqn:E; [discriminate|].
  exists s, e. split; [reflexivity|]. split; [exact E|]. split.
  - intros e0 ->. simpl in E. now injection E.
  - rewrite parse_lines_app, P. cbn [bind parse_lines]. now rewrite E.
Qed.

End ParserProperties.

Lemma first_bad_line_raises_witness :
  exists s e,
    parse_session Reference.fromisoformat (firstn 2 stamped_log) = Ok s
    /\ parse_line Reference.fromisoformat s (Failed RecursionError) = Raise e
    /\ (forall e0, Failed RecursionError = Failed e0 -> e = e0)
    /\ parse_session Reference.fromisoformat
         (firstn 2 stamped_log ++ Failed RecursionError :: skipn 2 stamped_log)
       = Raise e.
Proof.
  apply (first_bad_line_raises Reference.fromisoformat (firstn 2 stamped_log)
           (skipn 2 stamped_log) (Failed RecursionError)).
  - vm_compute. reflexivity.
  - reflexivity.
Defined.

(** C3 fails as stated: the second marker replaces the name the first one
    set. *)
Lemma cron_name_overwritten :
  exists s1 s2,
    parse_session Reference.fromisoformat (firstn 1 two_markers) = Ok s1
    /\ cron_name s1 = lit "First"
    /\ parse_session Reference.fromisoformat two_markers = Ok s2
    /\ cron_name s2 = lit "Second".
Proof.
  eexists. eexists. split; [vm_compute; reflexivity|].
  split; [reflexivity|]. split; [vm_compute; reflexivity|]. reflexivity.
Qed.

Lemma cron_flag_stays_last_name_wins_witness :
  (is_cron (parsed (firstn 1 two_markers)) = true ->
   is_cron (parsed two_markers) = true)
  /\ cron_name (parsed two_markers)
     = last_name (skipn 1 two_markers) (cron_name (parsed (firstn 1 two_markers))).
Proof.
  apply (cron_flag_stays_last_name_wins Reference.fromisoformat
           (firstn 1 two_markers) (skipn 1 two_markers));
    vm_compute; reflexivity.
Defined.

(** C4 fails as stated: a user text with the opening of a marker and no
    more sets [is_cron], though no marker of the full form is in it. *)
Lemma is_cron_without_full_marker :
  exists s,
    parse_session Reference.fromisoformat bare_prefix = Ok s
    /\ is_cron s = true
    /\ cron_name s = []
    /\ Re.search CRON_SEARCH (lit "[cron:nightly") = None.
Proof.
  eexists. split; [vm_compute; reflexivity|].
  split; [reflexivity|]. split; [reflexivity|]. vm_compute. reflexivity.
Qed.

Lemma is_cron_iff_trigger_witness :
  is_cron (parsed bare_prefix) = true
  <-> exists l, In l bare_prefix /\ cron_trigger l = true.
Proof.
  apply (is_cron_iff_trigger Reference.fromisoformat bare_prefix).
  vm_compute. reflexivity.
Defined.

Lemma times_set_together_witness :
  (start_time (parsed (firstn 2 stamped_log)) = None
   <-> end_time (parsed (firstn 2 stamped_log)) = None)
  /\ forall (l : line) (s' : Session),
       parse_session Reference.fromisoformat (firstn 2 stamped_log ++ [l]) = Ok s' ->
       match stamp Reference.fromisoformat l with
       | Some ts =>
           start_time s'
           = Some (match start_time (parsed (firstn 2 stamped_log)) with
                   | Some t0 => t0
                   | None => ts
                   end)
           /\ end_time s' = Some ts
       | None =>
           start_time s' = start_time (parsed (firstn 2 stamped_log))
           /\ end_time s' = end_time (parsed (firstn 2 stamped_log))
       end.
Proof.
  apply (times_set_together Reference.fromisoformat (firstn 2 stamped_log)).
  vm_compute. reflexivity.
Defined.

(** ** The daily-report example *)

Section Example.

Variable LOCAL_TZ : tz.
Variable local_utcoffset : Z -> result Z.
Variable py_str : json -> pystr.
Variable fromisoformat : pystr -> option datetime.

#[local] Arguments _extract_text : simpl never.

(** A message record with no timestamp and a text that is not empty. *)
Lemma parse_message_line (s : Session) (r : string) (content : json) (txt : pystr) :
  _extract_text content = Ok txt ->
  txt <> [] ->
  parse_line fromisoformat s (message_line r content)
  = Ok (append_message
          {| role := JStr (lit r); text := txt; timestamp := JStr [] |}
          (mark_cron s (JStr (lit r)) txt)).
Proof.
  intros Htxt Hne. unfold parse_line, message_line.
  rewrite parse_record_dict. simpl. rewrite on_message_dict. simpl.
  change (dict_get [(lit "role", JStr (lit r)); (lit "content", content)]
            (lit "content") (JStr [])) with content.
  change (dict_get [(lit "role", JStr (lit r)); (lit "content", content)]
            (lit "role") (JStr [])) with (JStr (lit r)).
  change (dict_get
            [(lit "type", JStr (lit "message"));
             (lit "message",
              JDict [(lit "role", JStr (lit r)); (lit "content", content)])]
            (lit "timestamp") (JStr [])) with (JStr []).
  rewrite Htxt. simpl.
  destruct (str_eqb txt []) eqn:E; [|reflexivity].
  apply str_eqb_eq in E. contradiction.
Qed.

(** C5. A log of one message record of role "user" whose text is
    "[cron:job1 Daily Report] hello" gives a session with [is_cron] true and
    [cron_name] "Daily Report"; the text is stored with its marker, and the
    rendered user line reads "hello" alone. *)
Theorem daily_report_example (content : json) :
  _extract_text content = Ok daily_report ->
  exists s,
    parse_session fromisoformat [message_line "user" content] = Ok s
    /\ is_cron s = true
    /\ cron_name s = lit "Daily Report"
    /\ map text (messages s) = [daily_report]
    /\ digest_lines LOCAL_TZ local_utcoffset py_str s
       = Ok [lit "### ??:?? " ++ [ROBOT] ++ lit " Cron: Daily Report";
             lit "- **Model**: ";
             [];
             lit "**" ++ [BUST] ++ lit " User**: hello";
             []].
Proof.
  intro Htxt. eexists. split.
  - unfold parse_session, parse_lines.
    rewrite (parse_message_line new_session "user" content daily_report Htxt)
      by discriminate.
    reflexivity.
  - split; [reflexivity|]. split; [reflexivity|]. split; reflexivity.
Qed.

End Example.

Lemma daily_report_example_witness :
  exists s,
    parse_session Reference.fromisoformat
      [message_line "user" (JStr daily_report)] = Ok s
    /\ is_cron s = true
    /\ cron_name s = lit "Daily Report"
    /\ map text (messages s) = [daily_report]
    /\ digest_lines (timezone_hours 8) Reference.local_utcoffset (fun _ => []) s
       = Ok [lit "### ??:?? " ++ [ROBOT] ++ lit " Cron: Daily Report";
             lit "- **Model**: ";
             [];
             lit "**" ++ [BUST] ++ lit " User**: hello";
             []].
Proof.
  apply (daily_report_example (timezone_hours 8) Reference.local_utcoffset
           (fun _ => []) Reference.fromisoformat (JStr daily_report)).
  reflexivity.
Defined.

(** ** Witnesses of the classifier's properties *)

Lemma short_session_rejected_witness :
  keeps Reference.lower one_message = false
  /\ forall LOCAL_TZ local_utcoffset fromisoformat target t0 t1 f,
       select_file LOCAL_TZ local_utcoffset Reference.lower fromisoformat
         target t0 t1 f
       <> Ok (Some one_message).
Proof.
  apply (short_session_rejected Reference.lower one_message).
  simpl. lia.
Defined.

Lemma heartbeat_filter_witness :
  keeps Reference.lower heartbeat_session = false
  /\ keeps Reference.lower
       (set_messages (messages heartbeat_session ++ disk_usage :: [])
          heartbeat_session) = true.
Proof.
  apply (heartbeat_filter Reference.lower heartbeat_session disk_usage
           (messages heartbeat_session) []).
  - reflexivity.
  - vm_compute. reflexivity.
  - intros m [<-|[<-|[]]]; [discriminate | reflexivity].
  - exists (nth 1 (messages heartbeat_session) disk_usage).
    split; [right; left; reflexivity | reflexivity].
  - symmetry. apply app_nil_r.
  - reflexivity.
  - discriminate.
  - vm_compute. reflexivity.
  - reflexivity.
Defined.

(** ** The selector's date test *)

Section Selector.

Variable local_utcoffset : Z -> result Z.
Variable lower : pystr -> pystr.
Variable fromisoformat : pystr -> option datetime.

Lemma local_1630 :
  astimezone local_utcoffset (timezone_hours 8) utc_1630
  = Ok (mk_datetime 2024 3 15 0 30 0 (Some (timezone_hours 8))).
Proof. reflexivity. Qed.

Lemma local_155959 :
  astimezone local_utcoffset (timezone_hours 8) utc_155959
  = Ok (mk_datetime 2024 3 14 23 59 59 (Some (timezone_hours 8))).
Proof. reflexivity. Qed.

Lemma date_test (t0 t1 : datetime) (f : session_file) (s : Session)
    (start loc : datetime) :
  outside_window t0 t1 f = Ok false ->
  parse_session fromisoformat (content f) = Ok s ->
  start_time s = Some start ->
  astimezone local_utcoffset (timezone_hours 8) start = Ok loc ->
  select_file (timezone_hours 8) local_utcoffset lower fromisoformat
    target_0315 t0 t1 f
  = Ok (if (date_of loc =? date_of target_0315)%Z && keeps lower s
        then Some s else None).
Proof.
  intros W P S L. unfold select_file.
  rewrite W. cbn [bind]. rewrite P. cbn [bind]. rewrite S, L. cbn [bind].
  destruct (date_of loc =? date_of target_0315)%Z; simpl; [|reflexivity].
  destruct (keeps lower s); reflexivity.
Qed.

Lemma selected_0315 (files : list session_file) :
  selected (timezone_hours 8) local_utcoffset lower fromisoformat
    (ymd 2024 3 15) files
  = (sessions <- select (timezone_hours 8) local_utcoffset lower fromisoformat
                   target_0315 start_0315 end_0315 files ;;
     sort_sessions sessions).
Proof. reflexivity. Qed.

(** C7. With the target date 2024-03-15 and a zone eight hours east, a
    file that passes the modification-time test and whose session starts at
    2024-03-14T16:30:00Z (00:30 of the 15th, local time) passes the date
    test, so the selector appends it when the noise classifier keeps it; one
    whose session starts at 2024-03-14T15:59:59Z (23:59:59 of the 14th) is
    left out, whatever it holds.  A directory of the two files yields the
    first session alone. *)
Theorem local_date_decides (f1 f2 : session_file) (s1 s2 : Session) :
  outside_window start_0315 end_0315 f1 = Ok false ->
  outside_window start_0315 end_0315 f2 = Ok false ->
  parse_session fromisoformat (content f1) = Ok s1 ->
  parse_session fromisoformat (content f2) = Ok s2 ->
  start_time s1 = Some utc_1630 ->
  start_time s2 = Some utc_155959 ->
  keeps lower s1 = true ->
  select_file (timezone_hours 8) local_utcoffset lower fromisoformat
    target_0315 start_0315 end_0315 f1 = Ok (Some s1)
  /\ select_file (timezone_hours 8) local_utcoffset lower fromisoformat
       target_0315 start_0315 end_0315 f2 = Ok None
  /\ selected (timezone_hours 8) local_utcoffset lower fromisoformat
       (ymd 2024 3 15) [f1; f2] = Ok [s1]
  /\ selected (timezone_hours 8) local_utcoffset lower fromisoformat
       (ymd 2024 3 15) [f2; f1] = Ok [s1].
Proof.
  intros W1 W2 P1 P2 S1 S2 K1.
  assert (E1 : select_file (timezone_hours 8) local_utcoffset lower
                 fromisoformat target_0315 start_0315 end_0315 f1
               = Ok (Some s1)).
  { rewrite (date_test _ _ _ _ _ _ W1 P1 S1 local_1630), K1. reflexivity. }
  assert (E2 : select_file (timezone_hours 8) local_utcoffset lower
                 fromisoformat target_0315 start_0315 end_0315 f2
               = Ok None).
  { rewrite (date_test _ _ _ _ _ _ W2 P2 S2 local_155959). reflexivity. }
  split; [exact E1|]. split; [exact E2|].
  rewrite !selected_0315. unfold select. rewrite E1, E2.
  split; reflexivity.
Qed.

End Selector.

Lemma local_date_decides_witness :
  select_file (timezone_hours 8) Reference.local_utcoffset Reference.lower
    Reference.fromisoformat target_0315 start_0315 end_0315
    (chat_file "2024-03-14T16:30:00Z")
  = Ok (Some (parsed (chat_log "2024-03-14T16:30:00Z")))
  /\ select_file (timezone_hours 8) Reference.local_utcoffset Reference.lower
       Reference.fromisoformat target_0315 start_0315 end_0315
       (chat_file "2024-03-14T15:59:59Z")
     = Ok None
  /\ selected (timezone_hours 8) Reference.local_utcoffset Reference.lower
       Reference.fromisoformat (ymd 2024 3 15)
       [chat_file "2024-03-14T16:30:00Z"; chat_file "2024-03-14T15:59:59Z"]
     = Ok [parsed (chat_log "2024-03-14T16:30:00Z")]
  /\ selected (timezone_hours 8) Reference.local_utcoffset Reference.lower
       Reference.fromisoformat (ymd 2024 3 15)
       [chat_file "2024-03-14T15:59:59Z"; chat_file "2024-03-14T16:30:00Z"]
     = Ok [parsed (chat_log "2024-03-14T16:30:00Z")].
Proof.
  apply (local_date_decides Reference.local_utcoffset Reference.lower
           Reference.fromisoformat
           (chat_file "2024-03-14T16:30:00Z") (chat_file "2024-03-14T15:59:59Z")
           (parsed (chat_log "2024-03-14T16:30:00Z"))
           (parsed (chat_log "2024-03-14T15:59:59Z")));
    vm_compute; reflexivity.
Defined.

(** C7 fails as stated: a session of one message passes the
    modification-time test and starts at 2024-03-14T16:30:00Z, on the target
    day in local time, and the selector leaves it out at line 154. *)
Lemma session_of_the_day_left_out :
  outside_window start_0315 end_0315 lone_file = Ok false
  /\ (exists s,
        parse_session Reference.fromisoformat (content lone_file) = Ok s
        /\ start_time s = Some utc_1630)
  /\ select_file (timezone_hours 8) Reference.local_utcoffset Reference.lower
       Reference.fromisoformat target_0315 start_0315 end_0315 lone_file
     = Ok None
  /\ selected (timezone_hours 8) Reference.local_utcoffset Reference.lower
       Reference.fromisoformat (ymd 2024 3 15) [lone_file]
     = Ok [].
Proof.
  split; [vm_compute; reflexivity|].
  split; [exists (parsed lone_log); split; vm_compute; reflexivity|].
  split; vm_compute; reflexivity.
Qed.

(** ** The writer on a day without sessions *)

Section Writer.

Variable LOCAL_TZ : tz.
Variable local_utcoffset : Z -> result Z.
Variable py_str : json -> pystr.
Variable lower : pystr -> pystr.
Variable fromisoformat : pystr -> option datetime.
Variable strptime : pystr -> option date.
Variable DIGEST_DIR : pystr.

(** C9. When the selector yields no session for the target date, the run
    returns normally and leaves the digest directory and the logs as they
    were: no file is made or changed, and the one effect is the notice on
    the standard output. *)
Theorem no_sessions_no_file (target_date : pystr) (day : date) (w : world) :
  strptime target_date = Some day ->
  selected LOCAL_TZ local_utcoffset lower fromisoformat day (session_files w) = Ok [] ->
  let run := process_date LOCAL_TZ local_utcoffset py_str lower fromisoformat
               strptime DIGEST_DIR target_date w in
  fst run = Ok tt
  /\ digest_dir (snd run) = digest_dir w
  /\ session_files (snd run) = session_files w
  /\ stdout (snd run)
     = stdout w ++ [[MAILBOX] ++ lit " " ++ target_date
                    ++ lit ": No sessions to digest"].
Proof.
  intros Hday Hnone. unfold process_date. rewrite Hday, Hnone.
  cbv zeta. unfold print. simpl fst. simpl snd.
  split; [reflexivity|]. split; [reflexivity|]. split; reflexivity.
Qed.

Lemma put_file_twice (name text : pystr) (files : list (pystr * pystr)) :
  put_file name text (put_file name text files) = put_file name text files.
Proof.
  induction files as [|[n t] files IH]; simpl.
  - assert (E : str_eqb name name = true) by now apply str_eqb_eq.
    now rewrite E.
  - destruct (str_eqb n name) eqn:E; simpl.
    + assert (E' : str_eqb name name = true) by now apply str_eqb_eq.
      now rewrite E'.
    + now rewrite E, IH.
Qed.

Lemma process_date_keeps_logs (target_date : pystr) (w : world) :
  session_files
    (snd (process_date LOCAL_TZ local_utcoffset py_str lower fromisoformat
            strptime DIGEST_DIR target_date w))
  = session_files w.
Proof.
  unfold process_date. destruct (strptime target_date); [|reflexivity].
  destruct (selected _ _ _ _ _ _) as [[|s ss]|e]; try reflexivity.
  destruct (document _ _ _ _ _); reflexivity.
Qed.

(** X3. A second run for the same date over the same logs ends as the
    first did and leaves the digest directory as the first run left it. *)
Theorem rerun_changes_nothing (target_date : pystr) (w : world) :
  let run := process_date LOCAL_TZ local_utcoffset py_str lower fromisoformat
               strptime DIGEST_DIR target_date in
  fst (run (snd (run w))) = fst (run w)
  /\ digest_dir (snd (run (snd (run w)))) = digest_dir (snd (run w)).
Proof.
  cbv zeta.
  pose proof (process_date_keeps_logs target_date w) as Hlogs.
  unfold process_date in *.
  destruct (strptime target_date) as [day|]; [|split; reflexivity].
  destruct (selected LOCAL_TZ local_utcoffset lower fromisoformat day
              (session_files w)) as [[|s ss]|e] eqn:Hsel.
  - simpl. rewrite Hsel. split; reflexivity.
  - destruct (document LOCAL_TZ local_utcoffset py_str target_date (s :: ss))
      as [text|e] eqn:Hdoc.
    + simpl in *. rewrite Hsel, Hdoc. simpl. split; [reflexivity|].
      destruct (digest_dir w); simpl.
      * now rewrite put_file_twice.
      * now rewrite (proj2 (str_eqb_eq _ _) eq_refl).
    + simpl in *. rewrite Hsel, Hdoc. simpl. split; [reflexivity|].
      destruct (digest_dir w); reflexivity.
  - simpl. rewrite Hsel. split; reflexivity.
Qed.

End Writer.

Lemma no_sessions_no_file_witness :
  let run := process_date (timezone_hours 8) Reference.local_utcoffset
               (fun _ => []) Reference.lower Reference.fromisoformat
               Reference.strptime (lit "/digests") (lit "2024-03-15")
               quiet_world in
  fst run = Ok tt
  /\ digest_dir (snd run) = digest_dir quiet_world
  /\ session_files (snd run) = session_files quiet_world
  /\ stdout (snd run)
     = stdout quiet_world ++ [[MAILBOX] ++ lit " " ++ lit "2024-03-15"
                              ++ lit ": No sessions to digest"].
Proof.
  apply (no_sessions_no_file (timezone_hours 8) Reference.local_utcoffset
           (fun _ => []) Reference.lower Reference.fromisoformat
           Reference.strptime (lit "/digests") (lit "2024-03-15")
           (ymd 2024 3 15) quiet_world);
    vm_compute; reflexivity.
Defined.

(** * Further properties *)

(** ** Stripped texts *)

Lemma lstrip_split (s : pystr) :
  exists w, s = w ++ lstrip s /\ forallb isspace w = true.
Proof.
  induction s as [|c s [w [E W]]]; [now exists []|].
  simpl. destruct (isspace c) eqn:C.
  - exists (c :: w). simpl. rewrite C, W. split; [now f_equal | reflexivity].
  - now exists [].
Qed.

Lemma lstrip_head (s r : pystr) (c : char) :
  lstrip s = c :: r -> isspace c = false.
Proof.
  induction s as [|a s IH]; [discriminate|].
  simpl. destruct (isspace a) eqn:A; [exact IH|].
  intro E. injection E as <- _. exact A.
Qed.

Lemma lstrip_idem (s : pystr) : lstrip (lstrip s) = lstrip s.
Proof.
  destruct (lstrip s) as [|c r] eqn:E; [reflexivity|].
  simpl. now rewrite (lstrip_head s r c E).
Qed.

Lemma strip_trimmed (s : pystr) : trimmed (strip s).
Proof.
  unfold trimmed, strip, rstrip. split.
  - destruct (lstrip_split (rev (lstrip s))) as [w [E W]].
    remember (lstrip (rev (lstrip s))) as v eqn:Hv.
    apply (f_equal (@rev char)) in E. rewrite rev_involutive, rev_app_distr in E.
    destruct (rev v) as [|c r] eqn:Rv; [reflexivity|].
    simpl in E. simpl.
    now rewrite (lstrip_head s (r ++ rev w) c E).
  - now rewrite rev_involutive, lstrip_idem.
Qed.

Lemma extract_text_trimmed (content : json) (t : pystr) :
  _extract_text content = Ok t -> trimmed t.
Proof.
  destruct content; simpl; intro H; try (inversion H; subst; now split).
  - inversion H. apply strip_trimmed.
  - bind_inv H. inversion H. apply strip_trimmed.
Qed.

(** ** What a record does to the lists and labels of the session *)

Section Fields.

Variable fromisoformat : pystr -> option datetime.

Lemma is_str_other (t : json) (a b : string) :
  is_str t a = true -> is_str t b = is_str (JStr (lit a)) b.
Proof. intro H. apply is_str_eq in H. now rewrite H. Qed.

Lemma dispatch_fields (s1 s' : Session) (d : list (pystr * json)) :
  (let t := dict_get d (lit "type") (JStr []) in
   if is_str t "session" then Ok (set_id (dict_get d (lit "id") (JStr [])) s1)
   else if is_str t "model_change"
   then Ok (set_model (dict_get d (lit "modelId") (JStr [])) s1)
   else if is_str t "message"
   then on_message s1 (JDict d) (dict_get d (lit "timestamp") (JStr []))
   else if is_str t "tool_use" then on_tool_use s1 (JDict d)
   else Ok s1) = Ok s' ->
  fields_step (Decoded (JDict d)) s1 s'.
Proof.
  cbv zeta. intro H.
  unfold fields_step, new_tool, record_field, stored_message, message_of.
  destruct (is_str (dict_get d (lit "type") (JStr [])) "session") eqn:E1.
  { rewrite !(is_str_other _ "session" _ E1). inversion H; subst s'.
    simpl. now rewrite !app_nil_r. }
  destruct (is_str (dict_get d (lit "type") (JStr [])) "model_change") eqn:E2.
  { rewrite !(is_str_other _ "model_change" _ E2). inversion H; subst s'.
    simpl. now rewrite !app_nil_r. }
  destruct (is_str (dict_get d (lit "type") (JStr [])) "message") eqn:E3.
  { rewrite !(is_str_other _ "message" _ E3). rewrite on_message_dict in H.
    destruct (dict_get d (lit "message") (JDict [])) as [| b | z | f | t | l | m];
      try discriminate.
    bind_inv H. rewrite Ha.
    destruct (negb (str_eqb a [])); inversion H; subst s'; simpl.
    - unfold mark_cron.
      destruct (is_str _ "user" && contains _ a); [destruct (Re.search _ a)|];
        simpl; now rewrite !app_nil_r.
    - now rewrite !app_nil_r. }
  destruct (is_str (dict_get d (lit "type") (JStr [])) "tool_use") eqn:E4.
  { unfold on_tool_use, get in H. cbn [bind] in H.
    destruct (truthy _ && _); inversion H; subst s'; simpl;
      now rewrite ?app_nil_r. }
  inversion H; subst s'. simpl. now rewrite !app_nil_r.
Qed.

Lemma update_times_fields (s s1 : Session) (v : json) :
  update_times fromisoformat s v = Ok s1 ->
  messages s1 = messages s /\ tools_used s1 = tools_used s
  /\ model s1 = model s /\ id s1 = id s.
Proof.
  unfold update_times. destruct (truthy v).
  - intro H. bind_inv H. destruct (fromisoformat a); inversion H; subst; simpl; auto.
  - intro H. inversion H; subst. auto.
Qed.

Lemma parse_line_fields (s s' : Session) (l : line) :
  parse_line fromisoformat s l = Ok s' -> fields_step l s s'.
Proof.
  destruct l as [| | e | obj]; intro H.
  - inversion H; subst. unfold fields_step, new_tool. simpl.
    now rewrite !app_nil_r.
  - inversion H; subst. unfold fields_step, new_tool. simpl.
    now rewrite !app_nil_r.
  - discriminate.
  - unfold parse_line in H.
    destruct obj as [| b | z | f | t | l | d]; try discriminate.
    rewrite parse_record_dict in H. bind_inv H.
    apply update_times_fields in Ha as [M [T [Mo I]]].
    apply dispatch_fields in H. unfold fields_step in *.
    now rewrite <- M, <- T, <- Mo, <- I.
Qed.

Lemma parse_lines_fields (s0 s : Session) (log : list line) :
  parse_lines fromisoformat s0 log = Ok s ->
  messages s = messages s0 ++ flat_map stored_message log
  /\ model s = last_value (record_field "model_change" "modelId") log (model s0)
  /\ id s = last_value (record_field "session" "id") log (id s0).
Proof.
  revert s0. induction log as [|l log IH]; intros s0 H; simpl in H.
  - inversion H; subst. simpl. now rewrite app_nil_r.
  - bind_inv H. apply IH in H as [M [Mo I]].
    apply parse_line_fields in Ha as [M1 [_ [Mo1 I1]]].
    rewrite M, Mo, I, M1, Mo1, I1. simpl. now rewrite <- app_assoc.
Qed.

Lemma stored_message_sound (l : line) (m : Message) :
  In m (stored_message l) -> text m <> [] /\ trimmed (text m).
Proof.
  unfold stored_message, message_of.
  destruct l as [| | e | obj]; try contradiction.
  destruct obj as [| b | z | f | t | l | d]; try contradiction.
  destruct (is_str _ "message"); [|contradiction].
  destruct (dict_get d (lit "message") (JDict [])) as [| b | z | f | t | l | k];
    try contradiction.
  destruct (_extract_text _) as [txt|] eqn:E; [|contradiction].
  destruct (str_eqb txt []) eqn:N; simpl; [contradiction|].
  intros [<-|[]]. simpl. split.
  - intro Z. subst txt. discriminate.
  - exact (extract_text_trimmed _ _ E).
Qed.

(** X4. The messages of the parsed session are those of the message
    records of the log whose flattened text is not empty, one each and in
    the order of the log, whatever the other records are; the text of a
    stored message is never empty and has no white space at either end. *)
Theorem messages_are_the_log (log : list line) (s : Session) :
  parse_session fromisoformat log = Ok s ->
  messages s = flat_map stored_message log
  /\ forall m, In m (messages s) -> text m <> [] /\ trimmed (text m).
Proof.
  unfold parse_session. intro H.
  apply parse_lines_fields in H as [M _]. simpl in M.
  split; [exact M|].
  intros m Hin. rewrite M in Hin.
  apply in_flat_map in Hin as [l [_ Hl]].
  exact (stored_message_sound l m Hl).
Qed.

(** X5. The model of the parsed session is the [modelId] of the last
    [model_change] record of the log and its id the [id] of the last
    [session] record (the empty string when that record has no such field,
    or the log no such record): the last write wins. *)
Theorem labels_last_write_wins (log : list line) (s : Session) :
  parse_session fromisoformat log = Ok s ->
  model s = last_value (record_field "model_change" "modelId") log (JStr [])
  /\ id s = last_value (record_field "session" "id") log (JStr []).
Proof.
  unfold parse_session. intro H.
  apply parse_lines_fields in H as [_ [Mo I]]. now split.
Qed.

Lemma py_eq_str (n : pystr) (x : json) :
  py_eq (JStr n) x = true -> x = JStr n.
Proof.
  destruct x; simpl; try discriminate.
  intro H. apply str_eqb_eq in H. now subst.
Qed.

Lemma distinct_snoc (tools : list json) (x : json) :
  distinct tools -> existsb (py_eq x) tools = false -> distinct (tools ++ [x]).
Proof.
  intros D F l1 y l2 E.
  destruct l2 as [|z l2 _] using rev_ind.
  - apply app_inj_tail in E as [-> ->]. exact F.
  - rewrite app_comm_cons, app_assoc in E.
    apply app_inj_tail in E as [E _]. exact (D l1 y l2 E).
Qed.

Lemma new_tool_step (tools : list json) (l : line) :
  distinct tools -> Forall (fun x => truthy x = true) tools ->
  distinct (tools ++ new_tool tools l)
  /\ Forall (fun x => truthy x = true) (tools ++ new_tool tools l)
  /\ forall n, record_field "tool_use" "name" l = Some (JStr n) -> n <> [] ->
               In (JStr n) (tools ++ new_tool tools l).
Proof.
  intros D T. unfold new_tool.
  destruct (record_field "tool_use" "name" l) as [name|];
    [|rewrite app_nil_r; repeat split; auto; discriminate].
  destruct (truthy name) eqn:Tn; simpl.
  - destruct (existsb (py_eq name) tools) eqn:F; simpl.
    + rewrite app_nil_r. repeat split; auto.
      intros n E _. injection E as ->.
      apply existsb_exists in F as [x [Hin Hx]].
      apply py_eq_str in Hx. now subst.
    + split; [now apply distinct_snoc|]. split.
      * apply Forall_app. split; [exact T | now constructor].
      * intros n E _. injection E as ->. apply in_or_app. right. now left.
  - rewrite app_nil_r. repeat split; auto.
    intros n E Hn. injection E as ->. simpl in Tn.
    destruct (str_eqb n []) eqn:N; [|discriminate].
    apply str_eqb_eq in N. contradiction.
Qed.

Lemma parse_lines_tools (s0 s : Session) (log : list line) :
  parse_lines fromisoformat s0 log = Ok s ->
  distinct (tools_used s0) -> Forall (fun x => truthy x = true) (tools_used s0) ->
  (exists added, tools_used s = tools_used s0 ++ added)
  /\ distinct (tools_used s)
  /\ Forall (fun x => truthy x = true) (tools_used s)
  /\ forall l n, In l log -> record_field "tool_use" "name" l = Some (JStr n) ->
                 n <> [] -> In (JStr n) (tools_used s).
Proof.
  revert s0. induction log as [|l log IH]; intros s0 H D T; simpl in H.
  - inversion H; subst. split; [exists []; now rewrite app_nil_r|].
    repeat split; auto. intros l n [].
  - bind_inv H. apply parse_line_fields in Ha as [_ [Ta _]].
    destruct (new_tool_step (tools_used s0) l D T) as [D1 [T1 C1]].
    rewrite <- Ta in D1, T1, C1.
    destruct (IH a H D1 T1) as [[added A] [D2 [T2 C2]]].
    split; [exists (new_tool (tools_used s0) l ++ added);
            now rewrite A, Ta, app_assoc|].
    repeat split; auto.
    intros l' n [<-|Hin] E Hn; [|now apply (C2 l' n)].
    rewrite A. apply in_or_app. left. now apply C1.
Qed.

Lemma tools_invariant (log : list line) (s : Session) :
  parse_lines fromisoformat new_session log = Ok s ->
  distinct (tools_used s) /\ Forall (fun x => truthy x = true) (tools_used s).
Proof.
  intro H. apply parse_lines_tools in H as [_ [D [T _]]]; [now split | | constructor].
  intros l1 x l2 E. destruct l1; discriminate.
Qed.

(** X6. No tool of the parsed session equals an earlier one, each is
    truthy, and every non-empty string that is the name of a [tool_use]
    record of the log is among them. *)
Theorem tools_never_repeat (log : list line) (s : Session) :
  parse_session fromisoformat log = Ok s ->
  distinct (tools_used s)
  /\ Forall (fun x => truthy x = true) (tools_used s)
  /\ forall l n, In l log -> record_field "tool_use" "name" l = Some (JStr n) ->
                 n <> [] -> In (JStr n) (tools_used s).
Proof.
  unfold parse_session. intro H.
  apply parse_lines_tools in H as [_ R]; [exact R | | constructor].
  intros l1 x l2 E. destruct l1; discriminate.
Qed.

(** X7. The parse of a longer log only appends: the messages and the tools
    of a prefix of the log open those of the whole log. *)
Theorem prefix_is_kept (p r : list line) (s s' : Session) :
  parse_session fromisoformat p = Ok s ->
  parse_session fromisoformat (p ++ r) = Ok s' ->
  messages s' = messages s ++ flat_map stored_message r
  /\ exists added, tools_used s' = tools_used s ++ added.
Proof.
  unfold parse_session. intros Hp H.
  destruct (tools_invariant p s Hp) as [D T].
  rewrite parse_lines_app, Hp in H. cbn [bind] in H.
  split.
  - now apply parse_lines_fields in H as [M _].
  - now apply parse_lines_tools in H as [A _].
Qed.

End Fields.

Lemma messages_are_the_log_witness :
  messages (parsed busy_log) = flat_map stored_message busy_log
  /\ forall m, In m (messages (parsed busy_log)) ->
               text m <> [] /\ trimmed (text m).
Proof.
  apply (messages_are_the_log Reference.fromisoformat busy_log).
  vm_compute. reflexivity.
Defined.

Lemma labels_last_write_wins_witness :
  model (parsed busy_log)
  = last_value (record_field "model_change" "modelId") busy_log (JStr [])
  /\ id (parsed busy_log)
     = last_value (record_field "session" "id") busy_log (JStr []).
Proof.
  apply (labels_last_write_wins Reference.fromisoformat busy_log).
  vm_compute. reflexivity.
Defined.

Lemma tools_never_repeat_witness :
  distinct (tools_used (parsed busy_log))
  /\ Forall (fun x => truthy x = true) (tools_used (parsed busy_log))
  /\ forall l n, In l busy_log ->
                 record_field "tool_use" "name" l = Some (JStr n) ->
                 n <> [] -> In (JStr n) (tools_used (parsed busy_log)).
Proof.
  apply (tools_never_repeat Reference.fromisoformat busy_log).
  vm_compute. reflexivity.
Defined.

Lemma prefix_is_kept_witness :
  messages (parsed busy_log)
  = messages (parsed (firstn 3 busy_log)) ++ flat_map stored_message (skipn 3 busy_log)
  /\ exists added,
       tools_used (parsed busy_log)
       = tools_used (parsed (firstn 3 busy_log)) ++ added.
Proof.
  apply (prefix_is_kept Reference.fromisoformat (firstn 3 busy_log)
           (skipn 3 busy_log));
    vm_compute; reflexivity.
Defined.

(** ** The renderer *)

Lemma sub_empty_length (p : Re.pattern) (n : nat) (s : pystr) :
  length (Re.sub_empty p n s) <= length s.
Proof.
  revert n. induction s as [|c s IH]; intro n; [simpl; lia|].
  destruct n as [|n].
  - rewrite sub_empty_cons.
    destruct (Re.match_here p Re.no_caps (c :: s)) as [[rest cp]|].
    + destruct (length (c :: s) - length rest) as [|k].
      * simpl. specialize (IH 0). lia.
      * specialize (IH k). simpl. lia.
    + simpl. specialize (IH 0). lia.
  - simpl. specialize (IH n). lia.
Qed.

(** X8. The text of a message in the transcript is never longer than the
    stored text, and never longer than 501 characters: the 500 of the cut
    and the ellipsis. *)
Theorem rendered_text_bounded (txt : pystr) :
  length (render_text txt) <= length txt /\ length (render_text txt) <= 501.
Proof.
  unfold render_text. destruct (500 <? length txt) eqn:E.
  - apply Nat.ltb_lt in E.
    pose proof (sub_empty_length CRON_STRIP 0 (firstn 500 txt ++ [ELLIPSIS])) as H.
    rewrite length_app, length_firstn in H.
    change (length [ELLIPSIS]) with 1 in H. lia.
  - apply Nat.ltb_ge in E.
    pose proof (sub_empty_length CRON_STRIP 0 txt) as H. lia.
Qed.

Section Renderer.

Variable LOCAL_TZ : tz.
Variable local_utcoffset : Z -> result Z.
Variable py_str : json -> pystr.

(** X9. Rendering a session raises only when its start cannot be moved to
    the local zone or one of its first ten tools is no string; the tools
    after the tenth are never looked at, so the block is that of the session
    with its tools cut to ten. *)
Theorem generate_digest_returns (s : Session) :
  returns (generate_digest LOCAL_TZ local_utcoffset py_str s)
  = match start_time s with
    | Some start => returns (astimezone local_utcoffset LOCAL_TZ start)
    | None => true
    end && forallb is_jstr (firstn 10 (tools_used s))
  /\ generate_digest LOCAL_TZ local_utcoffset py_str s
     = generate_digest LOCAL_TZ local_utcoffset py_str
         (set_tools (firstn 10 (tools_used s)) s).
Proof.
  unfold generate_digest, digest_lines. split.
  - destruct (start_time s) as [start|];
      [destruct (astimezone local_utcoffset LOCAL_TZ start)|];
      cbn [bind returns andb]; try reflexivity;
      (destruct (tools_used s) as [|t ts] eqn:T; [reflexivity|]);
      rewrite <- str_items_returns;
      destruct (str_items (firstn 10 (t :: ts))); reflexivity.
  - cbn [set_tools tools_used start_time is_cron cron_name model messages].
    rewrite firstn_firstn. change (Nat.min 10 10) with 10.
    destruct (tools_used s) as [|t ts]; reflexivity.
Qed.

End Renderer.

(** ** The run as a whole *)

Lemma find_put_same (name text : pystr) (files : list (pystr * pystr)) :
  find_file name (put_file name text files) = Some text.
Proof.
  assert (R : str_eqb name name = true) by now apply str_eqb_eq.
  induction files as [|[n t] files IH]; simpl; [now rewrite R|].
  destruct (str_eqb n name) eqn:E; simpl; [now rewrite R | now rewrite E].
Qed.

Lemma find_put_other (name text n : pystr) (files : list (pystr * pystr)) :
  n <> name -> find_file n (put_file name text files) = find_file n files.
Proof.
  intro Hn.
  assert (R : str_eqb name n = false).
  { destruct (str_eqb name n) eqn:E; [|reflexivity].
    apply str_eqb_eq in E. now subst. }
  induction files as [|[k t] files IH]; simpl; [now rewrite R|].
  destruct (str_eqb k name) eqn:E; simpl.
  - apply str_eqb_eq in E. subst k. now rewrite R.
  - now rewrite IH.
Qed.

Section Run.

Variable LOCAL_TZ : tz.
Variable local_utcoffset : Z -> result Z.
Variable py_str : json -> pystr.
Variable lower : pystr -> pystr.
Variable fromisoformat : pystr -> option datetime.
Variable strptime : pystr -> option date.
Variable DIGEST_DIR : pystr.

(** X10. A run that raises while it reads the logs, selects the sessions or
    builds the document writes no digest and prints nothing: the logs, the
    output and every file of the digest directory are as before; at most the
    directory has been made, empty, when the failure came after the
    selection.  (A write that fails itself is outside the model.) *)
Theorem failed_run_writes_nothing (target_date : pystr) (w : world) (e : exn) :
  let run := process_date LOCAL_TZ local_utcoffset py_str lower fromisoformat
               strptime DIGEST_DIR target_date w in
  fst run = Raise e ->
  session_files (snd run) = session_files w
  /\ stdout (snd run) = stdout w
  /\ (forall n, read_file n (digest_dir (snd run)) = read_file n (digest_dir w))
  /\ (digest_dir (snd run) = digest_dir w
      \/ digest_dir w = None /\ digest_dir (snd run) = Some []).
Proof.
  cbv zeta. unfold process_date.
  destruct (strptime target_date) as [day|]; [|simpl; intuition].
  destruct (selected _ _ _ _ _ _) as [[|s ss]|e0]; simpl;
    [discriminate | | intuition].
  destruct (document _ _ _ _ _) as [text|e1]; simpl; [discriminate|].
  intros _. split; [reflexivity|]. split; [reflexivity|].
  destruct (digest_dir w); simpl; split; auto.
Qed.

(** X11. A run with at least one selected session and a document that
    renders and that UTF-8 can encode returns normally; the digest directory
    then holds the document under the name of the date with the extension
    [.md], every other file of the directory is as it was, the logs are
    untouched, and one line is printed. *)
Theorem digest_is_written (target_date : pystr) (day : date) (w : world)
    (s : Session) (ss : list Session) (text : pystr) :
  strptime target_date = Some day ->
  selected LOCAL_TZ local_utcoffset lower fromisoformat day (session_files w)
  = Ok (s :: ss) ->
  document LOCAL_TZ local_utcoffset py_str target_date (s :: ss) = Ok text ->
  encodable text ->
  let run := process_date LOCAL_TZ local_utcoffset py_str lower fromisoformat
               strptime DIGEST_DIR target_date w in
  fst run = Ok tt
  /\ read_file (target_date ++ lit ".md") (digest_dir (snd run)) = Some text
  /\ (forall n, n <> target_date ++ lit ".md" ->
                read_file n (digest_dir (snd run)) = read_file n (digest_dir w))
  /\ session_files (snd run) = session_files w
  /\ exists notice, stdout (snd run) = stdout w ++ [notice].
Proof.
  intros Hday Hsel Hdoc _. cbv zeta. unfold process_date.
  rewrite Hday, Hsel, Hdoc. simpl.
  split; [reflexivity|].
  split.
  { destruct (digest_dir w); simpl; [apply find_put_same|].
    now rewrite (proj2 (str_eqb_eq _ _) eq_refl). }
  split; [|split; [reflexivity | eexists; reflexivity]].
  intros n Hn. destruct (digest_dir w); simpl.
  - now apply find_put_other.
  - assert (R : str_eqb (target_date ++ lit ".md") n = false).
    { destruct (str_eqb _ n) eqn:E; [|reflexivity].
      apply str_eqb_eq in E. now subst. }
    now rewrite R.
Qed.

End Run.

Lemma failed_run_writes_nothing_witness :
  let run := process_date (timezone_hours 8) Reference.local_utcoffset
               (fun _ => []) Reference.lower Reference.fromisoformat
               Reference.strptime (lit "/digests") (lit "2024-03-15")
               numeric_tool_world in
  session_files (snd run) = session_files numeric_tool_world
  /\ stdout (snd run) = stdout numeric_tool_world
  /\ (forall n, read_file n (digest_dir (snd run))
                = read_file n (digest_dir numeric_tool_world))
  /\ (digest_dir (snd run) = digest_dir numeric_tool_world
      \/ digest_dir numeric_tool_world = None
         /\ digest_dir (snd run) = Some []).
Proof.
  apply (failed_run_writes_nothing (timezone_hours 8) Reference.local_utcoffset
           (fun _ => []) Reference.lower Reference.fromisoformat
           Reference.strptime (lit "/digests") (lit "2024-03-15")
           numeric_tool_world TypeError).
  vm_compute. reflexivity.
Defined.

Lemma digest_is_written_witness :
  let run := process_date (timezone_hours 8) Reference.local_utcoffset
               (fun _ => []) Reference.lower Reference.fromisoformat
               Reference.strptime (lit "/digests") (lit "2024-03-15")
               busy_world in
  fst run = Ok tt
  /\ read_file (lit "2024-03-15" ++ lit ".md") (digest_dir (snd run)) = Some busy_text
  /\ (forall n, n <> lit "2024-03-15" ++ lit ".md" ->
                read_file n (digest_dir (snd run))
                = read_file n (digest_dir busy_world))
  /\ session_files (snd run) = session_files busy_world
  /\ exists notice, stdout (snd run) = stdout busy_world ++ [notice].
Proof.
  apply (digest_is_written (timezone_hours 8) Reference.local_utcoffset
           (fun _ => []) Reference.lower Reference.fromisoformat
           Reference.strptime (lit "/digests") (lit "2024-03-15")
           (ymd 2024 3 15) busy_world
           (hd new_session busy_sessions) (tl busy_sessions) busy_text);
    vm_compute; reflexivity.
Defined.

(** ** The selector *)

Section SelectorFacts.

Variable LOCAL_TZ : tz.
Variable local_utcoffset : Z -> result Z.
Variable lower : pystr -> pystr.
Variable fromisoformat : pystr -> option datetime.

Lemma bind_ret {A : Type} (r : result A) : bind r Ok = r.
Proof. destruct r; reflexivity. Qed.

(** X12. A file whose modification time is outside the window around the
    target day is not opened: the selection is the same with or without it,
    whatever its lines are. *)
Theorem stale_file_is_not_read (target t0 t1 : datetime) (f : session_file)
    (before after : list session_file) :
  outside_window t0 t1 f = Ok true ->
  select LOCAL_TZ local_utcoffset lower fromisoformat target t0 t1
    (before ++ f :: after)
  = select LOCAL_TZ local_utcoffset lower fromisoformat target t0 t1
      (before ++ after).
Proof.
  intro W. induction before as [|g before IH]; simpl.
  - unfold select_file. rewrite W. cbn [bind].
    destruct (select _ _ _ _ _ _ _ after); reflexivity.
  - now rewrite IH.
Qed.

Lemma select_file_accepts (target t0 t1 : datetime) (f : session_file) (s : Session) :
  select_file LOCAL_TZ local_utcoffset lower fromisoformat target t0 t1 f
  = Ok (Some s) ->
  outside_window t0 t1 f = Ok false
  /\ parse_session fromisoformat (content f) = Ok s
  /\ keeps lower s = true
  /\ exists start loc,
       start_time s = Some start
       /\ astimezone local_utcoffset LOCAL_TZ start = Ok loc
       /\ date_of loc = date_of target.
Proof.
  unfold select_file. intro H. bind_inv H.
  destruct a; [discriminate|]. bind_inv H.
  destruct (start_time a) as [start|] eqn:S; [|discriminate].
  bind_inv H.
  destruct (date_of a0 =? date_of target)%Z eqn:D; [|discriminate].
  destruct (keeps lower a) eqn:K; [|discriminate].
  injection H as <-. apply Z.eqb_eq in D.
  repeat split; auto. now exists start, a0.
Qed.

Lemma select_in (target t0 t1 : datetime) (files : list session_file)
    (ss : list Session) (s : Session) :
  select LOCAL_TZ local_utcoffset lower fromisoformat target t0 t1 files = Ok ss ->
  In s ss ->
  exists f, In f files
            /\ select_file LOCAL_TZ local_utcoffset lower fromisoformat
                 target t0 t1 f = Ok (Some s).
Proof.
  revert ss. induction files as [|f files IH]; intros ss H Hin; simpl in H.
  - inversion H; subst. contradiction.
  - bind_inv H. bind_inv H. inversion H; subst ss.
    destruct a as [s0|].
    + destruct Hin as [<-|Hin]; [exists f; split; [now left | exact Ha]|].
      destruct (IH a0 Ha0 Hin) as [g [Hg Hs]]. exists g. split; [now right | exact Hs].
    + destruct (IH a0 Ha0 Hin) as [g [Hg Hs]]. exists g. split; [now right | exact Hs].
Qed.

Lemma dt_ltb_instant (a b : datetime) (r : bool) :
  dt_ltb a b = Ok r -> r = (instant a <? instant b)%Z.
Proof.
  unfold dt_ltb, instant.
  destruct (tzinfo a), (tzinfo b); intro H; inversion H; try reflexivity.
  now rewrite !Z.sub_0_r.
Qed.

Lemma insert_session_sorted (s : Session) (sorted l : list Session) :
  insert_session s sorted = Ok l ->
  StronglySorted starts_before sorted ->
  Permutation (s :: sorted) l /\ StronglySorted starts_before l.
Proof.
  revert l. induction sorted as [|y rest IH]; intros l H Hs; simpl in H.
  - inversion H; subst. split; [reflexivity|]. repeat constructor.
  - bind_inv H. apply dt_ltb_instant in Ha.
    apply StronglySorted_inv in Hs as [Hrest Hy].
    destruct a.
    + bind_inv H. inversion H; subst l.
      destruct (IH a Ha0 Hrest) as [P S].
      split.
      * rewrite perm_swap. now constructor.
      * constructor; [exact S|].
        apply (Permutation_Forall P). constructor; [|exact Hy].
        symmetry in Ha. apply Z.ltb_lt in Ha. unfold starts_before. lia.
    + inversion H; subst l. split; [reflexivity|].
      symmetry in Ha. apply Z.ltb_ge in Ha.
      constructor; [now constructor|].
      constructor; [exact Ha|].
      eapply Forall_impl; [|exact Hy].
      intros z Hz. unfold starts_before in *. lia.
Qed.

Lemma sort_sessions_sorted (l l' : list Session) :
  sort_sessions l = Ok l' ->
  Permutation l l' /\ StronglySorted starts_before l'.
Proof.
  revert l'. induction l as [|s l IH]; intros l' H; simpl in H.
  - inversion H; subst. split; [reflexivity | constructor].
  - bind_inv H. destruct (IH a Ha) as [P S].
    destruct (insert_session_sorted s a l' H S) as [P' S'].
    split; [|exact S'].
    rewrite <- P'. now constructor.
Qed.

(** X13. The sessions selected for a day are in the order of their start;
    each is the parse of a log of the directory whose modification time is
    in the window, starts on the target day of the local zone, and is kept
    by the noise classifier. *)
Theorem selected_sound_and_sorted (day : date) (files : list session_file)
    (ss : list Session) :
  selected LOCAL_TZ local_utcoffset lower fromisoformat day files = Ok ss ->
  StronglySorted starts_before ss
  /\ forall s, In s ss ->
       keeps lower s = true
       /\ (exists f, In f files /\ parse_session fromisoformat (content f) = Ok s)
       /\ exists start loc,
            start_time s = Some start
            /\ astimezone local_utcoffset LOCAL_TZ start = Ok loc
            /\ date_of loc = day.
Proof.
  unfold selected. intro H. bind_inv H. bind_inv H. bind_inv H.
  apply sort_sessions_sorted in H as [P S]. split; [exact S|].
  intros s Hin. apply (Permutation_in _ (Permutation_sym P)) in Hin.
  destruct (select_in _ _ _ _ _ _ Ha1 Hin) as [f [Hf Hs]].
  apply select_file_accepts in Hs as [_ [Hp [K [start [loc [S1 [S2 S3]]]]]]].
  split; [exact K|]. split; [now exists f|].
  exists start, loc. repeat split; auto.
  rewrite S3. unfold date_of. simpl. apply Z.div_mul. discriminate.
Qed.

End SelectorFacts.

Lemma stale_file_is_not_read_witness :
  select (timezone_hours 8) Reference.local_utcoffset Reference.lower
    Reference.fromisoformat target_0315 start_0315 end_0315
    ([chat_file "2024-03-14T16:30:00Z"] ++ stale_file :: [])
  = select (timezone_hours 8) Reference.local_utcoffset Reference.lower
      Reference.fromisoformat target_0315 start_0315 end_0315
      ([chat_file "2024-03-14T16:30:00Z"] ++ []).
Proof.
  apply (stale_file_is_not_read (timezone_hours 8) Reference.local_utcoffset
           Reference.lower Reference.fromisoformat target_0315 start_0315
           end_0315 stale_file [chat_file "2024-03-14T16:30:00Z"] []).
  vm_compute. reflexivity.
Defined.

Lemma selected_sound_and_sorted_witness :
  StronglySorted starts_before busy_sessions
  /\ forall s, In s busy_sessions ->
       keeps Reference.lower s = true
       /\ (exists f, In f (session_files busy_world)
                     /\ parse_session Reference.fromisoformat (content f) = Ok s)
       /\ exists start loc,
            start_time s = Some start
            /\ astimezone Reference.local_utcoffset (timezone_hours 8) start = Ok loc
            /\ date_of loc = ymd 2024 3 15.
Proof.
  apply (selected_sound_and_sorted (timezone_hours 8) Reference.local_utcoffset
           Reference.lower Reference.fromisoformat (ymd 2024 3 15)
           (session_files busy_world) busy_sessions).
  vm_compute. reflexivity.
Defined.

(** ** The zone of the configuration *)

Lemma find_offset_in (n : pystr) (table : list (pystr * Z)) (h : Z) :
  find_offset n table = Some h -> exists k, In (k, h) table.
Proof.
  induction table as [|[k v] table IH]; simpl; [discriminate|].
  destruct (str_eqb k n).
  - intro E. injection E as ->. exists k. now left.
  - intro E. destruct (IH E) as [k' Hk]. exists k'. now right.
Qed.

Lemma table_range :
  Forall (fun kv : pystr * Z => (-8 <= snd kv <= 9)%Z) _TZ_OFFSETS.
Proof.
  unfold _TZ_OFFSETS.
  repeat (apply Forall_cons; [cbn [snd]; lia|]). apply Forall_nil.
Qed.

Lemma tz_offset_range (name : json) (h : Z) :
  tz_offset name = Ok h -> (-8 <= h <= 9)%Z.
Proof.
  destruct name as [| b | z | f | n | l | d]; intro H;
    try discriminate; try (injection H as <-; lia).
  change (Ok (match find_offset n _TZ_OFFSETS with
              | Some x => x
              | None => 0%Z
              end) = Ok h) in H.
  destruct (find_offset n _TZ_OFFSETS) as [x|] eqn:E.
  - assert (x = h) by congruence. subst x.
    apply find_offset_in in E as [k Hk].
    exact (proj1 (Forall_forall _ _) table_range (k, h) Hk).
  - assert (0%Z = h) by congruence. lia.
Qed.

(** X14. The local zone is always a whole number of hours between 8 west
    and 9 east of UTC.  Without a configuration file it is UTC; with one, a
    zone name that is a string outside the table, or no string at all, gives
    UTC, and loading fails only when the configuration is no object or the
    name is a list or an object. *)
Theorem local_tz_from_table (config : option json) :
  (forall z, local_tz config = Ok z ->
             exists h, z = timezone_hours h /\ (-8 <= h <= 9)%Z)
  /\ local_tz None = Ok utc
  /\ (forall d, config = Some (JDict d) ->
        returns (local_tz config)
        = hashable (dict_get d (lit "timezone") (JStr (lit "UTC"))))
  /\ (forall d n, config = Some (JDict d) ->
        dict_get d (lit "timezone") (JStr (lit "UTC")) = JStr n ->
        find_offset n _TZ_OFFSETS = None ->
        local_tz config = Ok utc)
  /\ (forall v, config = Some v -> (forall d, v <> JDict d) ->
        local_tz config = Raise AttributeError).
Proof.
  split; [|split; [reflexivity|split; [|split]]].
  - intros z H. destruct config as [c|].
    + unfold local_tz in H. bind_inv H. bind_inv H. inversion H; subst z.
      exists a0. split; [reflexivity|]. exact (tz_offset_range a a0 Ha0).
    + inversion H. exists 0%Z. split; [reflexivity | lia].
  - intros d ->. unfold local_tz, get. cbn [bind].
    destruct (dict_get d (lit "timezone") (JStr (lit "UTC"))); reflexivity.
  - intros d n -> E F. unfold local_tz, get. cbn [bind].
    rewrite E. cbn [bind tz_offset]. rewrite F. reflexivity.
  - intros v -> Hv. destruct v; try reflexivity. now destruct (Hv d).
Qed.

(** ** The tools of the statistics *)

Lemma str_leb_refl (a : pystr) : str_leb a a = true.
Proof.
  induction a as [|x a IH]; [reflexivity|].
  simpl. rewrite N.eqb_refl, IH. apply orb_true_r.
Qed.

Lemma str_leb_cons (x y : char) (a b : pystr) :
  str_leb (x :: a) (y :: b) = true <-> (x < y)%N \/ x = y /\ str_leb a b = true.
Proof.
  simpl. rewrite orb_true_iff, andb_true_iff, N.ltb_lt, N.eqb_eq. tauto.
Qed.

Lemma str_leb_trans (a b c : pystr) :
  str_leb a b = true -> str_leb b c = true -> str_leb a c = true.
Proof.
  revert b c. induction a as [|x a IH]; intros [|y b] [|z c]; try reflexivity;
    try discriminate.
  rewrite !str_leb_cons. intros [H1|[H1 H1']] [H2|[H2 H2']].
  - left. lia.
  - left. lia.
  - left. lia.
  - right. split; [lia|]. exact (IH b c H1' H2').
Qed.

Lemma str_leb_antisym (a b : pystr) :
  str_leb a b = true -> str_leb b a = true -> a = b.
Proof.
  revert b. induction a as [|x a IH]; intros [|y b]; try reflexivity;
    try discriminate.
  rewrite !str_leb_cons. intros [H1|[H1 H1']] [H2|[H2 H2']]; try lia.
  subst y. f_equal. exact (IH b H1' H2').
Qed.

Lemma str_leb_total (a b : pystr) :
  str_leb a b = false -> str_leb b a = true.
Proof.
  revert b. induction a as [|x a IH]; intros [|y b]; try reflexivity;
    try discriminate.
  intro H. apply str_leb_cons.
  simpl in H. apply orb_false_iff in H as [H1 H2].
  apply N.ltb_ge in H1. apply andb_false_iff in H2 as [H2|H2].
  - apply N.eqb_neq in H2. left. lia.
  - destruct (N.eq_dec x y) as [->|Hn]; [right; split; [reflexivity | now apply IH]|].
    left. lia.
Qed.

Lemma str_ltb_trans (a b c : pystr) :
  str_ltb a b = true -> str_ltb b c = true -> str_ltb a c = true.
Proof.
  unfold str_ltb. rewrite !andb_true_iff, !negb_true_iff.
  intros [L1 N1] [L2 N2]. split; [exact (str_leb_trans a b c L1 L2)|].
  destruct (str_eqb a c) eqn:E; [|reflexivity].
  apply str_eqb_eq in E. subst c.
  rewrite (str_leb_antisym a b L1 L2) in N1.
  now rewrite (proj2 (str_eqb_eq b b) eq_refl) in N1.
Qed.

Lemma insert_name_spec (n : pystr) (sorted : list pystr) :
  ascending sorted ->
  ascending (insert_name n sorted)
  /\ forall x, In x (insert_name n sorted) <-> x = n \/ In x sorted.
Proof.
  unfold ascending.
  induction sorted as [|m rest IH]; intro A; simpl.
  - split; [repeat constructor | intro x; simpl; intuition].
  - apply StronglySorted_inv in A as [Ar Am].
    destruct (str_eqb n m) eqn:E.
    + apply str_eqb_eq in E. subst m.
      split; [now constructor | intro x; simpl; intuition].
    + destruct (str_leb n m) eqn:L.
      * assert (Lt : str_ltb n m = true) by (unfold str_ltb; now rewrite L, E).
        split; [|intro x; simpl; intuition].
        constructor; [now constructor|].
        constructor; [exact Lt|].
        eapply Forall_impl; [|exact Am].
        intros z Hz. exact (str_ltb_trans n m z Lt Hz).
      * destruct (IH Ar) as [S I].
        assert (Lt : str_ltb m n = true).
        { unfold str_ltb. rewrite (str_leb_total n m L).
          destruct (str_eqb m n) eqn:E'; [|reflexivity].
          apply str_eqb_eq in E'. subst. now rewrite str_leb_refl in L. }
        split.
        -- constructor; [exact S|].
           apply Forall_forall. intros z Hz. apply I in Hz as [->|Hz]; [exact Lt|].
           exact (proj1 (Forall_forall _ _) Am z Hz).
        -- intro x. simpl. rewrite I. intuition.
Qed.

Lemma sorted_set_spec (names : list pystr) :
  ascending (sorted_set names)
  /\ forall x, In x (sorted_set names) <-> In x names.
Proof.
  induction names as [|n names [A I]]; simpl.
  - split; [constructor | intuition].
  - destruct (insert_name_spec n (sorted_set names) A) as [A' I'].
    split; [exact A'|]. intro x. rewrite I', I. intuition.
Qed.

Lemma str_items_map (vs : list json) (names : list pystr) :
  str_items vs = Ok names -> vs = map JStr names.
Proof.
  revert names. induction vs as [|v vs IH]; intros names H; simpl in H.
  - inversion H. reflexivity.
  - destruct v; try discriminate. bind_inv H. inversion H; subst names.
    simpl. f_equal. now apply IH.
Qed.

(** X15. The tools line of the statistics is left out when no selected
    session used a tool, and only then; otherwise it lists at least one
    name: in strictly ascending order, and so each once, exactly the tools
    used by some selected session. *)
Theorem tools_line_lists_each_tool_once (sessions : list Session) (lines : list pystr) :
  tools_line sessions = Ok lines ->
  (lines = [] /\ forall s, In s sessions -> tools_used s = [])
  \/ exists names,
       names <> []
       /\ lines = [lit "- Tools: " ++ join (lit ", ") names]
       /\ ascending names
       /\ forall n, In n names
                    <-> exists s, In s sessions /\ In (JStr n) (tools_used s).
Proof.
  unfold tools_line. destruct (flat_map tools_used sessions) as [|t ts] eqn:F.
  - intro H. inversion H. left. split; [reflexivity|].
    intros s Hs. destruct (tools_used s) as [|x xs] eqn:T; [reflexivity|].
    assert (Hin : In x (flat_map tools_used sessions)).
    { apply in_flat_map. exists s. split; [exact Hs | rewrite T; now left]. }
    rewrite F in Hin. contradiction.
  - intro H. bind_inv H. inversion H. right.
    exists (sorted_set a). destruct (sorted_set_spec a) as [A I].
    apply str_items_map in Ha.
    split.
    { intro E0. destruct a as [|x a']; [discriminate Ha|].
      assert (Hx : In x (sorted_set (x :: a'))) by (apply I; now left).
      rewrite E0 in Hx. destruct Hx. }
    split; [reflexivity|]. split; [exact A|].
    assert (E : forall m, In (JStr m) (flat_map tools_used sessions) <-> In m a).
    { intro m. rewrite F, Ha. split; [|apply in_map].
      intro Hm. apply in_map_iff in Hm as [m' [E Hm]].
      injection E as ->. exact Hm. }
    intro n. rewrite I, <- E, in_flat_map. reflexivity.
Qed.

Lemma tools_line_lists_each_tool_once_witness :
  ([lit "- Tools: " ++ join (lit ", ") [lit "exec"; lit "read"; lit "write"]] = []
   /\ forall s, In s tool_sessions -> tools_used s = [])
  \/ exists names,
       names <> []
       /\ [lit "- Tools: " ++ join (lit ", ") [lit "exec"; lit "read"; lit "write"]]
          = [lit "- Tools: " ++ join (lit ", ") names]
       /\ ascending names
       /\ forall n, In n names
                    <-> exists s, In s tool_sessions /\ In (JStr n) (tools_used s).
Proof.
  apply (tools_line_lists_each_tool_once tool_sessions).
  vm_compute. reflexivity.
Defined.

(** ** More messages never make noise *)

Section Monotone.

Variable lower : pystr -> pystr.

(** X16. A session the noise filter keeps is still kept with more messages
    in it, wherever they are inserted. *)
Theorem more_messages_stay_kept (s : Session) (before extra after : list Message) :
  messages s = before ++ after ->
  keeps lower s = true ->
  keeps lower (set_messages (before ++ extra ++ after) s) = true.
Proof.
  intros M K.
  assert (HS : has_substance s = true ->
               has_substance (set_messages (before ++ extra ++ after) s) = true).
  { unfold has_substance.
    change (messages (set_messages (before ++ extra ++ after) s))
      with (before ++ extra ++ after).
    rewrite M, !existsb_app, !orb_true_iff. tauto. }
  unfold keeps in *.
  change (messages (set_messages (before ++ extra ++ after) s))
    with (before ++ extra ++ after).
  change (is_hb lower (set_messages (before ++ extra ++ after) s))
    with (is_hb lower s).
  destruct (length (messages s) <? 2) eqn:L; [discriminate|].
  apply Nat.ltb_ge in L. rewrite M, length_app in L.
  assert (L' : (length (before ++ extra ++ after) <? 2) = false)
    by (apply Nat.ltb_ge; rewrite !length_app; lia).
  rewrite L'.
  destruct (is_hb lower s); [|reflexivity].
  destruct (has_substance s); [|discriminate].
  rewrite (HS eq_refl). reflexivity.
Qed.

End Monotone.

Lemma more_messages_stay_kept_witness :
  keeps Reference.lower
    (set_messages ([] ++ [disk_usage] ++ messages (parsed (chat_log "2024-03-14T16:30:00Z")))
       (parsed (chat_log "2024-03-14T16:30:00Z"))) = true.
Proof.
  apply (more_messages_stay_kept Reference.lower
           (parsed (chat_log "2024-03-14T16:30:00Z")) [] [disk_usage]
           (messages (parsed (chat_log "2024-03-14T16:30:00Z"))));
    vm_compute; reflexivity.
Defined.

(** ** Digests read back by the monthly summary *)

Lemma ok_inj {A : Type} (a b : A) : Ok a = Ok b -> a = b.
Proof. intro H. now inversion H. Qed.

Lemma split_lines_not_nil (s : pystr) : split_lines s <> [].
Proof.
  induction s as [|c s IH]; simpl; [discriminate|].
  destruct (char_eqb c 10%N); [discriminate|].
  destruct (split_lines s); discriminate.
Qed.

Lemma split_lines_app (a b : pystr) :
  split_lines (a ++ 10%N :: b) = split_lines a ++ split_lines b.
Proof.
  induction a as [|c a IH]; [reflexivity|].
  cbn [app split_lines]. rewrite IH.
  destruct (char_eqb c 10%N); [reflexivity|].
  destruct (split_lines a) as [|l ls] eqn:E; [|reflexivity].
  now destruct (split_lines_not_nil a).
Qed.

Lemma split_lines_one (s : pystr) : newline_free s -> split_lines s = [s].
Proof.
  unfold newline_free. induction s as [|c s IH]; intro H; [reflexivity|].
  cbn [split_lines]. destruct (char_eqb c 10%N) eqn:E.
  - apply N.eqb_eq in E. subst c. destruct H. now left.
  - rewrite IH; [reflexivity|]. intro Hin. apply H. now right.
Qed.

Lemma split_lines_join (parts : list pystr) :
  parts <> [] ->
  split_lines (join [10%N] parts) = flat_map split_lines parts.
Proof.
  induction parts as [|p rest IH]; intro H; [now destruct H|].
  destruct rest as [|q rest].
  - simpl. now rewrite app_nil_r.
  - change (join [10%N] (p :: q :: rest)) with (p ++ 10%N :: join [10%N] (q :: rest)).
    rewrite split_lines_app, IH by discriminate. reflexivity.
Qed.

Lemma line_of_join (parts : list pystr) (part l : pystr) :
  In part parts -> In l (split_lines part) ->
  In l (split_lines (join [10%N] parts)).
Proof.
  intros Hp Hl. rewrite split_lines_join.
  - apply in_flat_map. now exists part.
  - intro E. subst parts. destruct Hp.
Qed.

Lemma universal_no_cr (p : bool) (s : pystr) : ~ In 13%N (universal p s).
Proof.
  revert p. induction s as [|c s IH]; intro p; [easy|].
  cbn [universal]. destruct (char_eqb c 13%N) eqn:E.
  - intros [F|F]; [discriminate | exact (IH true F)].
  - destruct (char_eqb c 10%N && p); [apply IH|].
    intros [F|F]; [|exact (IH false F)].
    subst c. discriminate.
Qed.

Lemma universal_id (s : pystr) : ~ In 13%N s -> universal false s = s.
Proof.
  induction s as [|c s IH]; intro H; [reflexivity|].
  cbn [universal]. destruct (char_eqb c 13%N) eqn:E.
  - apply N.eqb_eq in E. subst c. destruct H. now left.
  - rewrite andb_false_r. f_equal. apply IH. intro F. apply H. now right.
Qed.

Lemma universal_line_app (h b : pystr) :
  one_line h -> universal false (h ++ 10%N :: b) = h ++ 10%N :: universal false b.
Proof.
  intros [_ H]. induction h as [|c h IH]; [reflexivity|].
  cbn [app universal]. destruct (char_eqb c 13%N) eqn:E.
  - apply N.eqb_eq in E. subst c. destruct H. now left.
  - rewrite andb_false_r. f_equal. apply IH. intro F. apply H. now right.
Qed.

Lemma universal_finds_line (h a b : pystr) (p : bool) :
  one_line h ->
  exists X Y,
    universal p (a ++ 10%N :: h ++ 10%N :: b) = X ++ h ++ 10%N :: Y
    /\ (X = [] /\ p = true \/ exists X', X = X' ++ [10%N]).
Proof.
  intro H. revert p. induction a as [|c a IH]; intro p.
  - cbn [app universal]. change (char_eqb 10%N 13%N) with false.
    change (char_eqb 10%N 10%N) with true. cbv iota. cbn [andb].
    rewrite (universal_line_app h b H). destruct p.
    + exists [], (universal false b). split; [reflexivity | now left].
    + exists [10%N], (universal false b). split; [reflexivity|].
      right. now exists [].
  - cbn [app universal]. destruct (char_eqb c 13%N).
    + destruct (IH true) as [X [Y [E T]]]. exists (10%N :: X), Y.
      split; [now rewrite E|]. right.
      destruct T as [[-> _]|[X' ->]]; [now exists [] | now exists (10%N :: X')].
    + destruct (char_eqb c 10%N && p) eqn:C.
      * destruct (IH false) as [X [Y [E T]]]. exists X, Y.
        split; [exact E|]. right.
        destruct T as [[_ F]|T]; [discriminate | exact T].
      * destruct (IH false) as [X [Y [E T]]]. exists (c :: X), Y.
        split; [now rewrite E|]. right.
        destruct T as [[_ F]|[X' ->]]; [discriminate | now exists (c :: X')].
Qed.

(** A line between two line feeds of a file is a line of the text read
    back from it. *)
Lemma line_read_back (h a b : pystr) :
  one_line h -> In h (split_lines (read_text (a ++ 10%N :: h ++ 10%N :: b))).
Proof.
  intro H. unfold read_text.
  destruct (universal_finds_line h a b false H) as [X [Y [E T]]].
  destruct T as [[_ F]|[X' ->]]; [discriminate|].
  rewrite E, <- app_assoc. change ([10%N] ++ h ++ 10%N :: Y)
    with (10%N :: h ++ 10%N :: Y).
  rewrite !split_lines_app, (split_lines_one h (proj1 H)).
  apply in_app_iff. right. now left.
Qed.

Lemma join_app (sep : pystr) (l1 l2 : list pystr) (x : pystr) :
  l1 <> [] ->
  join sep (l1 ++ x :: l2) = join sep l1 ++ sep ++ join sep (x :: l2).
Proof.
  induction l1 as [|a l1 IH]; intro H; [now destruct H|].
  destruct l1 as [|a' l1]; [reflexivity|].
  change (join sep ((a :: a' :: l1) ++ x :: l2))
    with (a ++ sep ++ join sep ((a' :: l1) ++ x :: l2)).
  rewrite IH by discriminate.
  change (join sep (a :: a' :: l1)) with (a ++ sep ++ join sep (a' :: l1)).
  now rewrite <- !app_assoc.
Qed.

Lemma join_cons (sep x : pystr) (l : list pystr) :
  exists tail, join sep (x :: l) = x ++ tail.
Proof.
  destruct l as [|y l]; [exists []; simpl; now rewrite app_nil_r|].
  now exists (sep ++ join sep (y :: l)).
Qed.

Lemma two_digits_head (z : Z) :
  exists c d, two_digits z = [c; d] /\ (48 <= c)%N /\ (48 <= d)%N.
Proof. unfold two_digits. do 2 eexists. split; [reflexivity | lia]. Qed.

Lemma contains_app (needle a b : pystr) :
  contains needle b = true -> contains needle (a ++ b) = true.
Proof.
  intro H. induction a as [|c a IH]; [exact H|].
  cbn [app contains]. rewrite IH. apply orb_true_r.
Qed.

Section ReadBack.

Variable LOCAL_TZ : tz.
Variable local_utcoffset : Z -> result Z.
Variable py_str : json -> pystr.

(** The time of day of a block is one line that opens with a digit or a
    question mark. *)
Lemma clock_shape (s : Session) (t : pystr) :
  clock LOCAL_TZ local_utcoffset s = Ok t ->
  one_line t /\ exists c t', t = c :: t' /\ (48 <= c)%N.
Proof.
  unfold clock. destruct (start_time s) as [start|].
  - intro H. bind_inv H. inversion H. unfold strftime_HM.
    destruct (two_digits_head ((wall a / US_PER_HOUR) mod 24)) as [c [d [E [Hc Hd]]]].
    destruct (two_digits_head ((wall a / US_PER_MINUTE) mod 60)) as [c' [d' [E' [Hc' Hd']]]].
    rewrite E, E'. split.
    + split; simpl; intros [F|[F|[F|[F|[F|[]]]]]]; lia.
    + exists c. eexists. split; [reflexivity | exact Hc].
  - intro H. inversion H. split.
    + split; simpl; intros [F|[F|[F|[F|[F|[]]]]]]; discriminate.
    + exists 63%N. eexists. split; [reflexivity | lia].
Qed.

Lemma digest_opens_with_header (s : Session) (d : pystr) :
  generate_digest LOCAL_TZ local_utcoffset py_str s = Ok d ->
  exists t m rest,
    clock LOCAL_TZ local_utcoffset s = Ok t
    /\ d = join [10%N]
             ((lit "### " ++ t ++ lit " "
               ++ (if is_cron s then [ROBOT] ++ lit " Cron" else [SPEECH] ++ lit " Chat")
               ++ lit ": " ++ (if is_cron s then cron_name s else lit "Session"))
              :: m :: rest).
Proof.
  unfold generate_digest, digest_lines. fold (clock LOCAL_TZ local_utcoffset s).
  intro H. bind_inv H. inversion H. bind_inv Ha. bind_inv Ha.
  inversion Ha. exists a0. do 2 eexists. split; [assumption|]. reflexivity.
Qed.

Lemma digests_in (sessions : list Session) (blocks : list pystr) (s : Session) :
  digests LOCAL_TZ local_utcoffset py_str sessions = Ok blocks ->
  In s sessions ->
  exists d, generate_digest LOCAL_TZ local_utcoffset py_str s = Ok d /\ In d blocks.
Proof.
  revert blocks. induction sessions as [|s0 rest IH]; intros blocks H Hin;
    [destruct Hin|].
  simpl in H. bind_inv H. bind_inv H. inversion H.
  destruct Hin as [->|Hin].
  - exists a. split; [assumption | now left].
  - destruct (IH a0 Ha0 Hin) as [d [G I]]. exists d. split; [assumption|].
    right. right. right. exact I.
Qed.

(** X17. Every chat session of a written digest is a chat highlight of the
    monthly summary that reads the digest back: its header line, without
    the marks of the heading, follows the name of the day. *)
Theorem chat_headers_are_highlights (target_date text : pystr)
    (sessions : list Session) (s : Session) :
  document LOCAL_TZ local_utcoffset py_str target_date sessions = Ok text ->
  In s sessions ->
  is_cron s = false ->
  exists time_str,
    clock LOCAL_TZ local_utcoffset s = Ok time_str
    /\ In (lit "- " ++ target_date ++ lit ": " ++ time_str ++ lit " "
           ++ [SPEECH] ++ lit " Chat: Session")
          (Forgetting.chat_highlights target_date text).
Proof.
  intros D Hin Hc. unfold document in D. bind_inv D. bind_inv D.
  apply ok_inj in D. subst text.
  destruct (digests_in sessions a0 s Ha0 Hin) as [d [G I]].
  destruct (digest_opens_with_header s d G) as [t [m [rest [C E]]]].
  rewrite Hc in E. exists t. split; [exact C|].
  destruct (clock_shape s t C) as [NF [c [t' [Et Hge]]]].
  set (header := lit "### " ++ t ++ lit " " ++ ([SPEECH] ++ lit " Chat")
                 ++ lit ": " ++ lit "Session") in *.
  assert (NFh : one_line header).
  { destruct NF as [N10 N13].
    split; unfold header; rewrite !in_app_iff;
      intros [F|[F|[F|[[F|F]|[F|F]]]]]; try (now apply N10); try (now apply N13);
      simpl in F; repeat (destruct F as [F|F]; [discriminate|]); destruct F. }
  unfold Forgetting.chat_highlights. apply in_flat_map. exists header. split.
  - apply in_split in I as [b1 [b2 ->]].
    change (join [10%N] (header :: m :: rest))
      with (header ++ 10%N :: join [10%N] (m :: rest)) in E.
    destruct (join_cons NEWLINE d b2) as [tail J].
    rewrite !app_assoc, join_app, J, E by (destruct a; discriminate).
    unfold NEWLINE. rewrite <- !app_assoc.
    exact (line_read_back header _ _ NFh).
  - unfold Forgetting.highlight.
    assert (S1 : startswith (lit "### ") header = true).
    { reflexivity. }
    assert (S2 : contains [SPEECH] header = true).
    { unfold header. apply (contains_app _ (lit "### ")), contains_app,
        (contains_app _ (lit " ")).
      reflexivity. }
    rewrite S1, S2. cbn [andb]. left.
    do 3 f_equal. unfold header. rewrite Et.
    change (lit "### " ++ (c :: t') ++ ?x)
      with (35 :: 35 :: 35 :: 32 :: c :: t' ++ x)%N.
    cbn [lstrip_chars existsb lit map list_ascii_of_string N_of_ascii].
    assert (Hn : forall k, (k < 48)%N -> char_eqb c k = false)
      by (intros k Hk; apply N.eqb_neq; lia).
    simpl. rewrite !Hn by lia. simpl. reflexivity.
Qed.

End ReadBack.

Lemma chat_headers_are_highlights_witness :
  exists time_str,
    clock (timezone_hours 8) Reference.local_utcoffset
      (hd new_session busy_sessions) = Ok time_str
    /\ In (lit "- " ++ lit "2024-03-15" ++ lit ": " ++ time_str ++ lit " "
           ++ [SPEECH] ++ lit " Chat: Session")
          (Forgetting.chat_highlights (lit "2024-03-15") busy_text).
Proof.
  apply (chat_headers_are_highlights (timezone_hours 8) Reference.local_utcoffset
           (fun _ => []) (lit "2024-03-15") busy_text busy_sessions
           (hd new_session busy_sessions)).
  - vm_compute. reflexivity.
  - vm_compute. left. reflexivity.
  - vm_compute. reflexivity.
Defined.

(** ** The entries of a daily memory file *)

Lemma lstrip_in (c : char) (s : pystr) : In c (lstrip s) -> In c s.
Proof.
  induction s as [|a s IH]; [easy|].
  simpl. destruct (isspace a); [intro H; right; now apply IH | easy].
Qed.

Lemma strip_in (c : char) (s : pystr) : In c (strip s) -> In c s.
Proof.
  unfold strip, rstrip. intro H.
  apply in_rev, lstrip_in in H. apply in_rev in H. now apply lstrip_in.
Qed.

Lemma lstrip_length (s : pystr) : length (lstrip s) <= length s.
Proof.
  induction s as [|a s IH]; [easy|].
  simpl. destruct (isspace a); simpl; lia.
Qed.

Lemma strip_length (s : pystr) : length (strip s) <= length s.
Proof.
  unfold strip, rstrip. rewrite length_rev.
  pose proof (lstrip_length (rev (lstrip s))) as H. rewrite length_rev in H.
  pose proof (lstrip_length s). lia.
Qed.

Lemma trimmed_strip (t : pystr) : trimmed t -> strip t = t.
Proof. intros [L R]. unfold strip. now rewrite L. Qed.

Lemma split_lines_newline_free (s l : pystr) :
  In l (split_lines s) -> newline_free l.
Proof.
  unfold newline_free. revert l. induction s as [|c s IH]; intros l H.
  - destruct H as [<-|[]]. easy.
  - cbn [split_lines] in H. destruct (char_eqb c 10%N) eqn:E.
    + destruct H as [<-|H]; [easy | now apply IH].
    + destruct (split_lines s) as [|l0 ls]; destruct H as [<-|H].
      * intros [F|[]]. subst c. discriminate.
      * destruct H.
      * intros [F|F]; [subst c; discriminate|].
        apply (IH l0); [now left | exact F].
      * apply IH. now right.
Qed.

Lemma split_lines_in (s l : pystr) (c : char) :
  In l (split_lines s) -> In c l -> In c s.
Proof.
  revert l. induction s as [|a s IH]; intros l H Hc.
  - destruct H as [<-|[]]. destruct Hc.
  - cbn [split_lines] in H. destruct (char_eqb a 10%N).
    + destruct H as [<-|H]; [destruct Hc | right; exact (IH l H Hc)].
    + destruct (split_lines s) as [|l0 ls]; destruct H as [<-|H].
      * destruct Hc as [<-|[]]. now left.
      * destruct H.
      * destruct Hc as [<-|Hc]; [now left|].
        right. apply (IH l0); [now left | exact Hc].
      * right. apply (IH l); [now right | exact Hc].
Qed.

Lemma lstrip_chars_length (chars s : pystr) :
  length (lstrip_chars chars s) <= length s.
Proof.
  induction s as [|a s IH]; [easy|].
  simpl. destruct (existsb (char_eqb a) chars); simpl; lia.
Qed.

Lemma startswith_app (p s : pystr) :
  startswith p s = true -> exists r, s = p ++ r.
Proof.
  revert s. induction p as [|a p IH]; intros s H; [now exists s|].
  destruct s as [|b s]; [discriminate|].
  simpl in H. apply andb_true_iff in H as [E H].
  apply N.eqb_eq in E. subst b. destruct (IH s H) as [r ->]. now exists r.
Qed.

(** A marked line opens with two hashes and a blank, or with a dash and a
    blank. *)
Lemma marked_shape (l : pystr) :
  marked l = true ->
  (exists r, l = 35 :: 35 :: 32 :: r)%N \/ (exists r, l = 45 :: 32 :: r)%N.
Proof.
  unfold marked. intro H. apply orb_true_iff in H as [H|H].
  - left. exact (startswith_app (lit "## ") l H).
  - right. apply andb_true_iff in H as [H _].
    exact (startswith_app (lit "- ") l H).
Qed.

Lemma entry_of_spec (line : pystr) (e : Consolidator.entry) :
  In e (Consolidator.entry_of line) ->
  marked (strip line) = true
  /\ Consolidator.raw e = strip line
  /\ Consolidator.content e = strip (lstrip_chars (lit "#- ") (strip line)).
Proof.
  unfold Consolidator.entry_of. fold (marked (strip line)).
  destruct (marked (strip line)); [|easy].
  intros [<-|[]]. easy.
Qed.

Lemma entry_of_marked (line : pystr) :
  marked (strip line) = true ->
  exists e, Consolidator.entry_of line = [e] /\ Consolidator.raw e = strip line.
Proof.
  unfold Consolidator.entry_of. fold (marked (strip line)).
  intros ->. eexists. split; reflexivity.
Qed.

(** What the raw line of an entry is. *)
Lemma raw_shape (memory_file : option pystr) (e : Consolidator.entry) :
  In e (Consolidator.parse_daily_memory memory_file) ->
  trimmed (Consolidator.raw e)
  /\ one_line (Consolidator.raw e)
  /\ marked (Consolidator.raw e) = true.
Proof.
  destruct memory_file as [stored|]; [|easy].
  unfold Consolidator.parse_daily_memory. intro H.
  apply in_flat_map in H as [l [Hl He]].
  apply entry_of_spec in He as [M [R _]]. rewrite R.
  split; [apply strip_trimmed|]. split; [|exact M]. split.
  - intro F. apply strip_in in F.
    exact (split_lines_newline_free (read_text stored) l Hl F).
  - intro F. apply strip_in in F.
    exact (universal_no_cr false stored (split_lines_in _ l 13%N Hl F)).
Qed.

Lemma raws_of_lines (lines : list pystr) :
  map Consolidator.raw (flat_map Consolidator.entry_of lines)
  = filter marked (map strip lines).
Proof.
  induction lines as [|l lines IH]; [reflexivity|].
  cbn [flat_map map filter]. rewrite map_app, IH.
  unfold Consolidator.entry_of at 1. fold (marked (strip l)).
  destruct (marked (strip l)); reflexivity.
Qed.

(** X18. The entries of a daily memory file are exactly its marked lines,
    in the order of the file and one entry for each: the raw texts of the
    entries are the lines of the file as it is read, stripped of the white
    space at their ends, that open with two hashes and a blank or (when
    longer than five characters) with a dash and a blank; the content of an
    entry is its raw text without the hashes, dashes and blanks it opens
    with, stripped again.  So a raw text holds no line ending and no white
    space at its ends, and the content is trimmed and strictly shorter.
    Without a file there is no entry. *)
Theorem entries_are_marked_lines (stored : pystr) :
  Consolidator.parse_daily_memory None = []
  /\ map Consolidator.raw (Consolidator.parse_daily_memory (Some stored))
     = filter marked (map strip (split_lines (read_text stored)))
  /\ (forall e, In e (Consolidator.parse_daily_memory (Some stored)) ->
        Consolidator.content e
        = strip (lstrip_chars (lit "#- ") (Consolidator.raw e))
        /\ trimmed (Consolidator.raw e)
        /\ one_line (Consolidator.raw e)
        /\ marked (Consolidator.raw e) = true
        /\ trimmed (Consolidator.content e)
        /\ length (Consolidator.content e) < length (Consolidator.raw e)).
Proof.
  split; [reflexivity|]. split; [apply raws_of_lines|].
  intros e H. destruct (raw_shape (Some stored) e H) as [T [N M]].
  unfold Consolidator.parse_daily_memory in H.
  apply in_flat_map in H as [l [Hl He]].
  apply entry_of_spec in He as [_ [R C]].
  split; [now rewrite C, R|]. repeat (split; [assumption|]).
  rewrite C, R. split; [apply strip_trimmed|].
  rewrite R in M.
  pose proof (strip_length (lstrip_chars (lit "#- ") (strip l))) as L1.
  destruct (marked_shape (strip l) M) as [[r E]|[r E]]; rewrite E in *;
    cbn [lstrip_chars] in L1 |- *;
    change (existsb (char_eqb 35%N) (lit "#- ")) with true in *;
    change (existsb (char_eqb 45%N) (lit "#- ")) with true in *;
    cbv iota in L1 |- *.
  - pose proof (lstrip_chars_length (lit "#- ") (35 :: 32 :: r)%N).
    simpl length in *. lia.
  - pose proof (lstrip_chars_length (lit "#- ") (32 :: r)%N).
    simpl length in *. lia.
Qed.

(** ** The category of an entry *)

Lemma best_spec (pre mid l : list (pystr * nat)) (b : pystr * nat) :
  (forall x, In x pre -> snd x < snd b) ->
  (forall x, In x mid -> snd x <= snd b) ->
  exists pre' post,
    pre ++ b :: mid ++ l = pre' ++ Consolidator.best b l :: post
    /\ (forall x, In x pre' -> snd x < snd (Consolidator.best b l))
    /\ (forall x, In x post -> snd x <= snd (Consolidator.best b l)).
Proof.
  revert pre mid b. induction l as [|x l IH]; intros pre mid b Hp Hm.
  - exists pre, mid. rewrite app_nil_r. easy.
  - cbn [Consolidator.best]. destruct (snd b <? snd x) eqn:L.
    + apply Nat.ltb_lt in L.
      destruct (IH (pre ++ b :: mid) [] x) as [pre' [post [E B]]].
      * intros y Hy. apply in_app_iff in Hy as [Hy|[<-|Hy]];
          [specialize (Hp y Hy) | | specialize (Hm y Hy)]; lia.
      * easy.
      * exists pre', post. split; [|exact B].
        rewrite <- E. rewrite <- !app_assoc. reflexivity.
    + apply Nat.ltb_ge in L.
      destruct (IH pre (mid ++ [x]) b) as [pre' [post [E B]]].
      * exact Hp.
      * intros y Hy. apply in_app_iff in Hy as [Hy|[<-|[]]];
          [exact (Hm y Hy) | exact L].
      * exists pre', post. split; [|exact B].
        rewrite <- E. rewrite <- !app_assoc. reflexivity.
Qed.

Lemma filter_split {A : Type} (f : A -> bool) (l pre post : list A) (x : A) :
  filter f l = pre ++ x :: post ->
  exists pre0 post0,
    l = pre0 ++ x :: post0 /\ filter f pre0 = pre /\ filter f post0 = post.
Proof.
  revert pre. induction l as [|a l IH]; intros pre H.
  - destruct pre; discriminate.
  - simpl in H. destruct (f a) eqn:F.
    + destruct pre as [|p pre]; simpl in H; injection H as <- H.
      * exists [], l. simpl. easy.
      * destruct (IH pre H) as [pre0 [post0 [E [P Q]]]].
        exists (a :: pre0), post0. simpl. rewrite F, P, E. easy.
    + destruct (IH pre H) as [pre0 [post0 [E [P Q]]]].
      exists (a :: pre0), post0. simpl. rewrite F, E. easy.
Qed.

Section ClassifyFacts.

Variable lower : pystr -> pystr.

(** The scores that are kept are the scores that are not zero, in the order
    of the categories. *)
Lemma scores_scored (text : pystr) (cats : list (pystr * json))
    (sc : list (pystr * nat)) :
  Consolidator.scores lower text cats = Ok sc ->
  exists scored : list ((pystr * json) * nat),
    map fst scored = cats
    /\ (forall c n, In (c, n) scored ->
                    Consolidator.score lower text (snd c) = Ok n)
    /\ sc = map (fun x => (fst (fst x), snd x))
              (filter (fun x => negb (snd x =? 0)) scored).
Proof.
  revert sc. induction cats as [|[k rules] cats IH]; intros sc H.
  - apply ok_inj in H. subst sc. exists []. easy.
  - cbn [Consolidator.scores] in H. bind_inv H. bind_inv H.
    apply ok_inj in H. destruct (IH a0 Ha0) as [scored [M [S E]]].
    exists (((k, rules), a) :: scored). split; [simpl; now rewrite M|]. split.
    + intros c n [X|X]; [injection X as <- <-; exact Ha | exact (S c n X)].
    + cbn [filter snd fst]. destruct (a =? 0); cbn [negb map snd fst];
        subst sc; now rewrite E.
Qed.

(** X19. When classify_entry returns, either no category scored and the
    result is the default category, or the result is the key of a category
    with a positive score that no category beats and no earlier category
    equals: the first of the best wins. *)
Theorem first_best_category_wins (cats : list (pystr * json)) (DEFAULT_CATEGORY v : json)
    (e : Consolidator.entry) :
  Consolidator.classify_entry lower (JDict cats) DEFAULT_CATEGORY e = Ok v ->
  let score := Consolidator.score lower (lower (Consolidator.content e)) in
  (v = DEFAULT_CATEGORY
   /\ forall k rules, In (k, rules) cats -> score rules = Ok 0)
  \/ exists before k rules after n,
       cats = before ++ (k, rules) :: after
       /\ v = JStr k
       /\ score rules = Ok n
       /\ 0 < n
       /\ (forall k' rules', In (k', rules') before ->
             exists n', score rules' = Ok n' /\ n' < n)
       /\ (forall k' rules', In (k', rules') after ->
             exists n', score rules' = Ok n' /\ n' <= n).
Proof.
  intros H score. unfold Consolidator.classify_entry in H. bind_inv H.
  destruct (scores_scored _ cats a Ha) as [scored [M [S E]]].
  fold score in S.
  assert (Z0 : forall c n, In (c, n) scored ->
                 In (c, n) (filter (fun x => negb (snd x =? 0)) scored) \/ n = 0).
  { intros c n Hin. destruct (n =? 0) eqn:N0.
    - right. now apply Nat.eqb_eq.
    - left. apply filter_In. split; [exact Hin|]. simpl. now rewrite N0. }
  destruct a as [|first rest].
  - left. apply ok_inj in H. split; [now symmetry|].
    intros k rules Hin. rewrite <- M in Hin.
    apply in_map_iff in Hin as [[c n] [Ec Hin]]. simpl in Ec. subst c.
    destruct (Z0 _ _ Hin) as [F| ->]; [|exact (S _ _ Hin)].
    apply (in_map (fun x => (fst (fst x), snd x))) in F.
    rewrite <- E in F. destruct F.
  - right. apply ok_inj in H.
    destruct (best_spec [] [] rest first) as [pre [post [B [Bp Bq]]]];
      [easy | easy |].
    cbn [app] in B. rewrite B in E. clear B.
    set (w := Consolidator.best first rest) in *.
    symmetry in E. apply map_eq_app in E as [pre1 [rest1 [F [P1 R1]]]].
    apply map_eq_cons in R1 as [x [post1 [-> [X Q1]]]].
    assert (Hx : In x (filter (fun x => negb (snd x =? 0)) scored)).
    { rewrite F. apply in_app_iff. right. now left. }
    apply filter_split in F as [pre0 [post0 [Es [P0 Q0]]]].
    apply filter_In in Hx as [Hx Nx]. destruct x as [[k rules] n].
    cbn [fst snd] in X, Nx.
    exists (map fst pre0), k, rules, (map fst post0), n.
    assert (Hn : 0 < n).
    { apply negb_true_iff, Nat.eqb_neq in Nx. lia. }
    assert (Ew : snd w = n) by now rewrite <- X.
    split; [rewrite <- M, Es, map_app; reflexivity|].
    split; [rewrite <- H, <- X; reflexivity|].
    split; [exact (S _ _ Hx)|]. split; [exact Hn|]. split.
    + intros k' rules' Hin. apply in_map_iff in Hin as [[c n'] [Ec Hin]].
      simpl in Ec. subst c. exists n'. split.
      * apply (S (k', rules') n'). rewrite Es. apply in_app_iff. now left.
      * destruct (n' =? 0) eqn:N0; [apply Nat.eqb_eq in N0; lia|].
        assert (G : In ((k', rules'), n') pre1).
        { rewrite <- P0. apply filter_In. split; [exact Hin|].
          simpl. now rewrite N0. }
        apply (in_map (fun x => (fst (fst x), snd x))) in G.
        rewrite P1 in G. specialize (Bp _ G). simpl in Bp. lia.
    + intros k' rules' Hin. apply in_map_iff in Hin as [[c n'] [Ec Hin]].
      simpl in Ec. subst c. exists n'. split.
      * apply (S (k', rules') n'). rewrite Es. apply in_app_iff. right. now right.
      * destruct (n' =? 0) eqn:N0; [apply Nat.eqb_eq in N0; lia|].
        assert (G : In ((k', rules'), n') post1).
        { rewrite <- Q0. apply filter_In. split; [exact Hin|].
          simpl. now rewrite N0. }
        apply (in_map (fun x => (fst (fst x), snd x))) in G.
        rewrite Q1 in G. specialize (Bq _ G). simpl in Bq. lia.
Qed.

End ClassifyFacts.

Lemma first_best_category_wins_witness :
  let score := Consolidator.score Reference.lower
                 (Reference.lower (Consolidator.content deploy_entry)) in
  (JStr (lit "work") = JStr (lit "misc")
   /\ forall k rules, In (k, rules) two_categories -> score rules = Ok 0)
  \/ exists before k rules after n,
       two_categories = before ++ (k, rules) :: after
       /\ JStr (lit "work") = JStr k
       /\ score rules = Ok n
       /\ 0 < n
       /\ (forall k' rules', In (k', rules') before ->
             exists n', score rules' = Ok n' /\ n' < n)
       /\ (forall k' rules', In (k', rules') after ->
             exists n', score rules' = Ok n' /\ n' <= n).
Proof.
  apply (first_best_category_wins Reference.lower two_categories
           (JStr (lit "misc")) (JStr (lit "work")) deploy_entry).
  vm_compute. reflexivity.
Defined.

(** X20. Without a categories file every entry is filed under work,
    whatever it says: the only category of the fallback is work and so is
    the default. *)
Theorem unconfigured_is_work :
  exists categories default,
    Consolidator.load_categories None = Ok (categories, default)
    /\ forall (lower : pystr -> pystr) (e : Consolidator.entry),
         Consolidator.classify_entry lower categories default e
         = Ok (JStr (lit "work")).
Proof.
  do 2 eexists. split; [reflexivity|].
  intros lower e. unfold Consolidator.classify_entry.
  cbn [Consolidator.scores].
  destruct (Consolidator.score lower (lower (Consolidator.content e)) _) as [n|x] eqn:S.
  - cbn [bind]. destruct (n =? 0); reflexivity.
  - exfalso. revert S. unfold Consolidator.score.
    cbn [get dict_get lookup str_eqb char_eqb lit map list_ascii_of_string
         N_of_ascii bind Consolidator.iterate Consolidator.hits Consolidator.hit].
    simpl. discriminate.
Qed.

(** ** Running the consolidation again *)

Lemma existsb_str_In (x : pystr) (l : list pystr) :
  existsb (str_eqb x) l = true <-> In x l.
Proof.
  rewrite existsb_exists. split.
  - intros [y [Hy E]]. apply str_eqb_eq in E. now subst.
  - intro H. exists x. split; [exact H | now apply str_eqb_eq].
Qed.

Lemma keep_known (l acc : list pystr) :
  (forall x, In x l -> In x acc) ->
  fold_left (fun seen x => if existsb (str_eqb x) seen then seen else seen ++ [x])
    l acc = acc.
Proof.
  induction l as [|x l IH]; intro H; [reflexivity|].
  cbn [fold_left]. rewrite (proj2 (existsb_str_In x acc) (H x (or_introl eq_refl))).
  apply IH. intros y Hy. apply H. now right.
Qed.

Lemma keep_new (l acc : list pystr) :
  NoDup l -> (forall x, In x l -> ~ In x acc) ->
  fold_left (fun seen x => if existsb (str_eqb x) seen then seen else seen ++ [x])
    l acc = acc ++ l.
Proof.
  revert acc. induction l as [|x l IH]; intros acc N H;
    [now rewrite app_nil_r|].
  cbn [fold_left]. inversion N as [|? ? Nx Nl]; subst.
  destruct (existsb (str_eqb x) acc) eqn:E.
  - apply existsb_str_In in E. destruct (H x (or_introl eq_refl) E).
  - rewrite IH; [now rewrite <- app_assoc | exact Nl |].
    intros y Hy Hin. apply in_app_iff in Hin as [Hin|[<-|[]]].
    + exact (H y (or_intror Hy) Hin).
    + exact (Nx Hy).
Qed.

Lemma keep_spec (l acc : list pystr) :
  NoDup acc ->
  let r := fold_left
             (fun seen x => if existsb (str_eqb x) seen then seen else seen ++ [x])
             l acc in
  NoDup r /\ forall x, In x r <-> In x acc \/ In x l.
Proof.
  revert acc. induction l as [|y l IH]; intros acc N; cbn [fold_left].
  - split; [exact N | intro x; simpl; tauto].
  - destruct (existsb (str_eqb y) acc) eqn:E.
    + destruct (IH acc N) as [N' I]. split; [exact N'|].
      intro x. rewrite I. apply existsb_str_In in E. simpl.
      split; [tauto|]. intros [H|[<-|H]]; tauto.
    + assert (Ny : ~ In y acc).
      { intro H. apply existsb_str_In in H. now rewrite H in E. }
      assert (N2 : NoDup (acc ++ [y])).
      { apply NoDup_app; [exact N | repeat constructor; easy |].
        intros a Ha [<-|[]]. exact (Ny Ha). }
      destruct (IH (acc ++ [y]) N2) as [N' I]. split; [exact N'|].
      intro x. rewrite I, in_app_iff. simpl. tauto.
Qed.

Lemma fromkeys_spec (l : list pystr) :
  NoDup (fromkeys l) /\ forall x, In x (fromkeys l) <-> In x l.
Proof.
  destruct (keep_spec l [] (NoDup_nil _)) as [N I]. split; [exact N|].
  intro x. unfold fromkeys. rewrite I. simpl. tauto.
Qed.

Lemma rstrip_snoc (s : pystr) (c : char) :
  isspace c = false -> rstrip (s ++ [c]) = s ++ [c].
Proof.
  intro H. unfold rstrip. rewrite rev_app_distr. cbn [rev app lstrip].
  rewrite H. cbn [rev]. now rewrite rev_involutive.
Qed.

Lemma title_line_shape (d : pystr) :
  strip (title_line d) = title_line d
  /\ title_line d = (35 :: 32 :: d ++ lit " Memory Consolidation")%N.
Proof.
  split; [|reflexivity].
  unfold strip.
  change (lstrip (title_line d)) with (title_line d).
  replace (title_line d)
    with ((lit "# " ++ d ++ lit " Memory Consolidatio") ++ [110%N]).
  - now apply rstrip_snoc.
  - unfold title_line. rewrite <- !app_assoc. reflexivity.
Qed.

Lemma title_line_one_line (d : pystr) :
  one_line d -> one_line (title_line d).
Proof.
  intros [H10 H13].
  split; unfold title_line; intro F; rewrite !in_app_iff in F;
    (destruct F as [F|[F|F]]; [| now (apply H10 || apply H13) |]);
    simpl in F; repeat (destruct F as [F|F]; [discriminate|]); destruct F.
Qed.

Lemma in_join (sep : pystr) (L : list pystr) (c : char) :
  In c (join sep L) -> In c sep \/ exists u, In u L /\ In c u.
Proof.
  induction L as [|u L IH]; [easy|].
  destruct L as [|v L].
  - intro H. right. exists u. split; [now left | exact H].
  - change (join sep (u :: v :: L)) with (u ++ sep ++ join sep (v :: L)).
    rewrite !in_app_iff. intros [H|[H|H]].
    + right. exists u. split; [now left | exact H].
    + now left.
    + destruct (IH H) as [S|[w [Hw Hc]]]; [now left|].
      right. exists w. split; [now right | exact Hc].
Qed.

(** A category file of lines without carriage return is read as written. *)
Lemma read_merged (d : pystr) (L : list pystr) :
  one_line d -> (forall u, In u L -> one_line u) ->
  read_text (title_line d ++ [10; 10]%N ++ join [10%N] L)
  = title_line d ++ [10; 10]%N ++ join [10%N] L.
Proof.
  intros Hd HL. apply universal_id. rewrite !in_app_iff.
  intros [F|[F|F]].
  - exact (proj2 (title_line_one_line d Hd) F).
  - simpl in F. destruct F as [F|[F|[]]]; discriminate.
  - apply in_join in F as [F|[u [Hu F]]].
    + destruct F as [F|[]]. discriminate.
    + exact (proj2 (HL u Hu) F).
Qed.

Lemma flat_map_split (L : list pystr) :
  (forall u, In u L -> newline_free u) -> flat_map split_lines L = L.
Proof.
  induction L as [|u L IH]; intro H; [reflexivity|].
  cbn [flat_map]. rewrite (split_lines_one u (H u (or_introl eq_refl))), IH;
    [reflexivity|].
  intros v Hv. apply H. now right.
Qed.

(** The lines of a category file. *)
Lemma split_merged (d : pystr) (L : list pystr) :
  one_line d -> (forall u, In u L -> one_line u) ->
  split_lines (read_text (title_line d ++ [10; 10]%N ++ join [10%N] L))
  = title_line d :: [] :: match L with [] => [[]] | _ :: _ => L end.
Proof.
  intros Hd HL. rewrite (read_merged d L Hd HL).
  change (title_line d ++ [10; 10]%N ++ join [10%N] L)
    with (title_line d ++ 10%N :: (10%N :: join [10%N] L)).
  rewrite split_lines_app,
    (split_lines_one _ (proj1 (title_line_one_line d Hd))).
  cbn [app split_lines char_eqb N.eqb Pos.eqb]. do 2 f_equal.
  destruct L as [|u L]; [reflexivity|].
  rewrite split_lines_join by discriminate. apply flat_map_split.
  intros v Hv. exact (proj1 (HL v Hv)).
Qed.

Lemma merged_text (d : pystr) (target_file : option pystr) (raws : list pystr) :
  Consolidator.merged d target_file raws
  = title_line d ++ [10; 10]%N
    ++ join [10%N] (Consolidator.unique target_file raws).
Proof.
  unfold Consolidator.merged, title_line. rewrite <- !app_assoc. reflexivity.
Qed.

Lemma filter_all {A : Type} (f : A -> bool) (l : list A) :
  (forall x, In x l -> f x = true) -> filter f l = l.
Proof.
  induction l as [|a l IH]; intro H; [reflexivity|].
  simpl. rewrite (H a (or_introl eq_refl)), IH; [reflexivity|].
  intros x Hx. apply H. now right.
Qed.

(** The lines a later run keeps from a category file. *)
Lemma existing_of (d : pystr) (L : list pystr) :
  one_line d ->
  (forall u, In u L -> one_line u /\ strip u <> []) ->
  filter (fun l => negb (str_eqb (strip l) []))
    (split_lines (read_text (title_line d ++ [10; 10]%N ++ join [10%N] L)))
  = title_line d :: L.
Proof.
  intros Hd HL. rewrite split_merged; [|exact Hd | intros u Hu; apply (HL u Hu)].
  cbn [filter]. rewrite (proj1 (title_line_shape d)).
  change (strip []) with (@nil char).
  change (negb (str_eqb [] [])) with false. cbv iota.
  replace (negb (str_eqb (title_line d) [])) with true
    by (now rewrite (proj2 (title_line_shape d))).
  f_equal. destruct L as [|u L]; [reflexivity|].
  apply filter_all. intros x Hx. destruct (HL x Hx) as [_ Nb].
  destruct (strip x); [now destruct Nb | reflexivity].
Qed.

Lemma marked_not_blank (u : pystr) :
  trimmed u -> marked u = true -> strip u <> [].
Proof.
  intros T M. rewrite (trimmed_strip u T).
  destruct (marked_shape u M) as [[r ->]|[r ->]]; discriminate.
Qed.

Lemma title_not_marked (d u : pystr) : marked u = true -> u <> title_line d.
Proof.
  intros M E. rewrite (proj2 (title_line_shape d)) in E.
  destruct (marked_shape u M) as [[r ->]|[r ->]]; discriminate.
Qed.

Lemma join_cons_length (sep p : pystr) (l : list pystr) :
  length p + length (join sep l) <= length (join sep (p :: l)).
Proof.
  destruct l as [|q l]; [simpl; lia|].
  change (join sep (p :: q :: l)) with (p ++ sep ++ join sep (q :: l)).
  rewrite !length_app. lia.
Qed.

Section Rerun.

Variable date_str : pystr.
Variable memory_file : option pystr.
Variable raws : list pystr.

Hypothesis plain_date : one_line date_str.
Hypothesis entries : from_memory memory_file raws.

Lemma kept_shape (u : pystr) :
  In u (fromkeys raws) ->
  trimmed u /\ one_line u /\ marked u = true.
Proof.
  intro H. apply (proj2 (fromkeys_spec raws)) in H.
  destruct (entries u H) as [e [He <-]]. exact (raw_shape memory_file e He).
Qed.

Lemma unique_first : Consolidator.unique None raws = fromkeys raws.
Proof. reflexivity. Qed.

Lemma unique_again (titles : list pystr) :
  (forall t, In t titles -> t = title_line date_str) ->
  fromkeys ((title_line date_str :: titles ++ fromkeys raws) ++ raws)
  = title_line date_str :: fromkeys raws.
Proof.
  intro Ht. unfold fromkeys at 1. cbn [app fold_left existsb].
  rewrite <- app_assoc, !fold_left_app.
  rewrite (keep_known titles [title_line date_str])
    by (intros x Hx; left; symmetry; exact (Ht x Hx)).
  rewrite (keep_new (fromkeys raws) [title_line date_str]).
  - rewrite keep_known; [reflexivity|].
    intros x Hx. right. now apply (proj2 (fromkeys_spec raws)).
  - exact (proj1 (fromkeys_spec raws)).
  - intros x Hx [E|[]]. destruct (kept_shape x Hx) as [_ [_ M]].
    exact (title_not_marked date_str x M (eq_sym E)).
Qed.

Lemma unique_second :
  Consolidator.unique (Some (Consolidator.merged date_str None raws)) raws
  = title_line date_str :: fromkeys raws.
Proof.
  unfold Consolidator.unique at 1. rewrite merged_text, unique_first.
  rewrite existing_of; [exact (unique_again [] (fun t F => match F with end))
                       | exact plain_date |].
  intros u Hu. destruct (kept_shape u Hu) as [T [N M]].
  split; [exact N | exact (marked_not_blank u T M)].
Qed.

Lemma unique_third :
  Consolidator.unique
    (Some (Consolidator.merged date_str
             (Some (Consolidator.merged date_str None raws)) raws)) raws
  = title_line date_str :: fromkeys raws.
Proof.
  unfold Consolidator.unique at 1. rewrite merged_text, unique_second.
  rewrite existing_of; [| exact plain_date |].
  - apply (unique_again [title_line date_str]). intros t [<-|[]]. reflexivity.
  - intros u [<-|Hu].
    + split; [exact (title_line_one_line date_str plain_date)|].
      rewrite (proj1 (title_line_shape date_str)),
        (proj2 (title_line_shape date_str)). discriminate.
    + destruct (kept_shape u Hu) as [T [N M]].
      split; [exact N | exact (marked_not_blank u T M)].
Qed.

(** X21. A first consolidation into a new category file writes the title
    line, an empty line and the raw lines, each once.  A second run over the
    same entries takes the title line of the file for content and writes it
    a second time, so its file differs from the first; from then on every
    run writes the same file. *)
Theorem second_run_repeats_title :
  let first := Consolidator.merged date_str None raws in
  let second := Consolidator.merged date_str (Some first) raws in
  let third := Consolidator.merged date_str (Some second) raws in
  first = title_line date_str ++ [10; 10]%N ++ join [10%N] (fromkeys raws)
  /\ second = title_line date_str ++ [10; 10]%N
              ++ join [10%N] (title_line date_str :: fromkeys raws)
  /\ second <> first
  /\ third = second.
Proof.
  cbv zeta.
  assert (E1 : Consolidator.merged date_str None raws
               = title_line date_str ++ [10; 10]%N ++ join [10%N] (fromkeys raws))
    by (now rewrite merged_text, unique_first).
  assert (E2 : Consolidator.merged date_str
                 (Some (Consolidator.merged date_str None raws)) raws
               = title_line date_str ++ [10; 10]%N
                 ++ join [10%N] (title_line date_str :: fromkeys raws))
    by (now rewrite merged_text, unique_second).
  split; [exact E1|]. split; [exact E2|]. split.
  - rewrite E2, E1. intro F. apply (f_equal (@length char)) in F.
    rewrite !length_app in F.
    pose proof (join_cons_length [10%N] (title_line date_str) (fromkeys raws)) as J.
    assert (P : 0 < length (title_line date_str))
      by (rewrite (proj2 (title_line_shape date_str)); simpl; lia).
    unfold pystr, char in *. lia.
  - etransitivity; [apply merged_text|].
    rewrite unique_third. symmetry. exact E2.
Qed.

(** X22. The monthly summary reads back from a category file exactly the
    consolidated raw lines, each once and in their order, whether the file
    was written by one run or by more: the title lines and the empty line
    are no entries. *)
Theorem consolidated_entries_read_back :
  let first := Consolidator.merged date_str None raws in
  let second := Consolidator.merged date_str (Some first) raws in
  Forgetting.neuron_entries first = fromkeys raws
  /\ Forgetting.neuron_entries second = fromkeys raws
  /\ Forgetting.neuron_lines [first] = firstn 15 (fromkeys raws)
  /\ Forgetting.neuron_lines [second] = firstn 15 (fromkeys raws).
Proof.
  cbv zeta.
  assert (G : map strip
                (filter (fun l => startswith (lit "- ") (strip l)
                                  || startswith (lit "## ") (strip l))
                   (fromkeys raws)) = fromkeys raws).
  { rewrite filter_all.
    - rewrite <- (map_id (fromkeys raws)) at 2. apply map_ext_in.
      intros u Hu. apply trimmed_strip. exact (proj1 (kept_shape u Hu)).
    - intros u Hu. destruct (kept_shape u Hu) as [T [_ M]].
      rewrite (trimmed_strip u T).
      destruct (marked_shape u M) as [[r ->]|[r ->]]; reflexivity. }
  assert (T0 : startswith (lit "- ") (strip (title_line date_str))
               || startswith (lit "## ") (strip (title_line date_str)) = false).
  { rewrite (proj1 (title_line_shape date_str)),
      (proj2 (title_line_shape date_str)). reflexivity. }
  assert (N1 : Forgetting.neuron_entries (Consolidator.merged date_str None raws)
               = fromkeys raws).
  { unfold Forgetting.neuron_entries.
    rewrite merged_text, unique_first, split_merged;
      [| exact plain_date | intros u Hu; exact (proj1 (proj2 (kept_shape u Hu)))].
    cbn [filter]. rewrite T0. change (strip []) with (@nil char).
    cbn [startswith lit map list_ascii_of_string orb].
    destruct (fromkeys raws) as [|u U] eqn:E; [reflexivity|]. exact G. }
  assert (N2 : Forgetting.neuron_entries
                 (Consolidator.merged date_str
                    (Some (Consolidator.merged date_str None raws)) raws)
               = fromkeys raws).
  { unfold Forgetting.neuron_entries.
    rewrite (merged_text date_str (Some _) raws), unique_second, split_merged;
      [| exact plain_date |].
    - cbn [filter]. rewrite T0. change (strip []) with (@nil char).
      cbn [startswith lit map list_ascii_of_string orb]. exact G.
    - intros u [<-|Hu]; [exact (title_line_one_line date_str plain_date)|].
      exact (proj1 (proj2 (kept_shape u Hu))). }
  assert (I : fromkeys (fromkeys raws) = fromkeys raws).
  { unfold fromkeys at 1.
    rewrite (keep_new (fromkeys raws) []); [reflexivity | | easy].
    exact (proj1 (fromkeys_spec raws)). }
  split; [exact N1|]. split; [exact N2|].
  unfold Forgetting.neuron_lines. cbn [flat_map].
  rewrite !app_nil_r, N1, N2, I. easy.
Qed.

End Rerun.

Lemma one_line_dec (s : pystr) :
  forallb (fun c => negb (char_eqb c 10%N) && negb (char_eqb c 13%N)) s = true ->
  one_line s.
Proof.
  intro H. rewrite forallb_forall in H.
  split; intro F; specialize (H _ F); discriminate.
Qed.

Lemma from_memory_dec (memory_file : option pystr) (raws : list pystr) :
  forallb
    (fun r => existsb (str_eqb r)
                (map Consolidator.raw (Consolidator.parse_daily_memory memory_file)))
    raws = true ->
  from_memory memory_file raws.
Proof.
  intros H r Hr. rewrite forallb_forall in H.
  apply H, existsb_str_In, in_map_iff in Hr as [e [E He]]. now exists e.
Qed.

Lemma second_run_repeats_title_witness :
  let first := Consolidator.merged (lit "2024-03-15") None memory_raws in
  let second := Consolidator.merged (lit "2024-03-15") (Some first) memory_raws in
  let third := Consolidator.merged (lit "2024-03-15") (Some second) memory_raws in
  first = title_line (lit "2024-03-15") ++ [10; 10]%N
          ++ join [10%N] (fromkeys memory_raws)
  /\ second = title_line (lit "2024-03-15") ++ [10; 10]%N
              ++ join [10%N] (title_line (lit "2024-03-15") :: fromkeys memory_raws)
  /\ second <> first
  /\ third = second.
Proof.
  apply (second_run_repeats_title (lit "2024-03-15") (Some memory_text) memory_raws).
  - apply one_line_dec. reflexivity.
  - apply from_memory_dec. reflexivity.
Defined.

Lemma consolidated_entries_read_back_witness :
  let first := Consolidator.merged (lit "2024-03-15") None memory_raws in
  let second := Consolidator.merged (lit "2024-03-15") (Some first) memory_raws in
  Forgetting.neuron_entries first = fromkeys memory_raws
  /\ Forgetting.neuron_entries second = fromkeys memory_raws
  /\ Forgetting.neuron_lines [first] = firstn 15 (fromkeys memory_raws)
  /\ Forgetting.neuron_lines [second] = firstn 15 (fromkeys memory_raws).
Proof.
  apply (consolidated_entries_read_back (lit "2024-03-15") (Some memory_text)
           memory_raws).
  - apply one_line_dec. reflexivity.
  - apply from_memory_dec. reflexivity.
Defined.

(** ** The month of the monthly run *)

(** X23. The month the monthly run summarises is the calendar month before
    the current one: its number is between 1 and 12, and counting months
    from year 0 it is the current month less one. *)
Theorem last_month_is_previous (year month : Z) :
  (1 <= month <= 12)%Z ->
  (1 <= Forgetting.last_month month <= 12)%Z
  /\ (12 * Forgetting.last_year year month + Forgetting.last_month month
      = 12 * year + month - 1)%Z.
Proof.
  intro H. unfold Forgetting.last_month, Forgetting.last_year.
  destruct (Z.eqb_spec month 1); lia.
Qed.

Lemma last_month_is_previous_witness :
  (1 <= Forgetting.last_month 1 <= 12)%Z
  /\ (12 * Forgetting.last_year 2024 1 + Forgetting.last_month 1
      = 12 * 2024 + 1 - 1)%Z.
Proof.
  apply (last_month_is_previous 2024 1). lia.
Defined.

(** ** The folder of a category, for the two scripts *)

Lemma lookup_in (k : pystr) (v : json) (cats : list (pystr * json)) :
  NoDup (map fst cats) -> In (k, v) cats -> lookup k cats = Some v.
Proof.
  induction cats as [|[k0 v0] cats IH]; intros N H; [destruct H|].
  inversion N as [|? ? Nk Nc]; subst. cbn [lookup].
  destruct H as [E|H].
  - injection E as -> ->. now rewrite (proj2 (str_eqb_eq k k) eq_refl).
  - destruct (str_eqb k0 k) eqn:E; [|exact (IH Nc H)].
    apply str_eqb_eq in E. subst k0. destruct Nk.
    exact (in_map fst cats (k, v) H).
Qed.

(** X24. The consolidator and the monthly summary name the folder of a
    category from its rules in the same way when the rules give a name to
    show; for a category without one the consolidator writes under the key
    of the category while the summary reads under the empty name, so the
    two folders are the same only if the key is empty. *)
Theorem folder_names_agree_when_named (cats : list (pystr * json)) (k : pystr)
    (d : list (pystr * json)) :
  NoDup (map fst cats) ->
  In (k, JDict d) cats ->
  exists f n,
    Consolidator.folder_name (JDict cats) (JStr k) = Ok f
    /\ Forgetting.category_name (JDict d) = Ok n
    /\ (named d = true -> f = n /\ truthy f = true)
    /\ (named d = false -> f = JStr k /\ n = JStr [])
    /\ (f = n <-> named d = true \/ k = []).
Proof.
  intros N H.
  assert (L : dict_get cats k (JDict []) = JDict d)
    by (unfold dict_get; now rewrite (lookup_in k (JDict d) cats N H)).
  unfold Consolidator.folder_name, Forgetting.category_name.
  rewrite L. cbn [bind get].
  do 2 eexists. split; [reflexivity|]. split; [reflexivity|].
  unfold named, py_or.
  destruct (truthy (dict_get d (lit "display_name_zh") JNull)) eqn:Z; cbn [orb].
  - rewrite ?Z. split; [easy|]. split; [discriminate|]. split; [now left | reflexivity].
  - destruct (truthy (dict_get d (lit "display_name") JNull)) eqn:E.
    + rewrite ?E. split; [easy|]. split; [discriminate|].
      split; [now left | reflexivity].
    + rewrite ?E. split; [discriminate|]. split; [easy|]. split.
      * intro F. right. now injection F.
      * intros [F| ->]; [discriminate | reflexivity].
Qed.

Lemma folder_names_agree_when_named_witness :
  exists f n,
    Consolidator.folder_name (JDict named_categories) (JStr (lit "home")) = Ok f
    /\ Forgetting.category_name (JDict [(lit "patterns", JList [])]) = Ok n
    /\ (named [(lit "patterns", JList [])] = true -> f = n /\ truthy f = true)
    /\ (named [(lit "patterns", JList [])] = false
        -> f = JStr (lit "home") /\ n = JStr [])
    /\ (f = n <-> named [(lit "patterns", JList [])] = true \/ lit "home" = []).
Proof.
  apply (folder_names_agree_when_named named_categories (lit "home")
           [(lit "patterns", JList [])]).
  - vm_compute. repeat constructor; simpl; intuition discriminate.
  - vm_compute. right. left. reflexivity.
Defined.
